(** * cp.nvim scrapers: Codeforces and CodeChef adapters

    A shallow embedding of [scrapers/codeforces.py] and [scrapers/codechef.py]
    together with the properties their specification states about them.

    Conventions of the embedding.
    - A Python [str] is a [string]; a character is a code point below 256.
      Whitespace and word characters follow CPython's tables on that range,
      case mapping is given for the ASCII letters.
    - A Python [int] is a [Z]; a Python [float] is an IEEE binary64 value,
      [spec_float] at precision 53.
    - A raised exception is the [Raise] branch of [result]; [try]/[except] is
      a match on it.
    - The network ([client.get], [curl_requests.get], [requests.get]) and the
      HTML parser ([BeautifulSoup]) are arguments of the operations that use
      them.
    - [asyncio.as_completed] hands the results over in completion order: the
      order is an argument too, a function that permutes the task list. *)

From Stdlib Require Import String Ascii List ZArith Bool Lia Permutation Sorted.
From Stdlib Require Import DecimalString.
From Stdlib Require Import Floats.SpecFloat.
Import ListNotations.

Set Warnings "-register-all".

Local Open Scope list_scope.
Local Open Scope string_scope.

(** ** Exceptions and fallible computations *)

Inductive exn_kind : Type :=
| HTTPStatusError
| TimeoutException
| ConnectError
| JSONDecodeError
| AttributeError
| TypeError
| ValueError
| KeyError
| OverflowError
| ValidationError.

(** An exception: its class and [str(e)]. *)
Record exn : Type := Exn { exn_class : exn_kind; exn_str : string }.

Inductive result (A : Type) : Type :=
| Ok (a : A)
| Raise (e : exn).

Arguments Ok {A} a.
Arguments Raise {A} e.

Definition bind {A B : Type} (m : result A) (f : A -> result B) : result B :=
  match m with
  | Ok a => f a
  | Raise e => Raise e
  end.

Notation "x <- m ;; k" := (bind m (fun x => k))
  (at level 61, m at next level, right associativity).

Notation "' pat <- m ;; k" := (bind m (fun x => match x with pat => k end))
  (at level 61, pat pattern, m at next level, right associativity).

Fixpoint mapM {A B : Type} (f : A -> result B) (l : list A) : result (list B) :=
  match l with
  | [] => Ok []
  | a :: l' => b <- f a ;; bs <- mapM f l' ;; Ok (b :: bs)
  end.

Definition is_HTTPStatusError (e : exn) : bool :=
  match exn_class e with
  | HTTPStatusError => true
  | _ => false
  end.

(** ** Python strings *)

Definition chr (n : nat) : ascii := ascii_of_nat n.
Definition ord (c : ascii) : nat := nat_of_ascii c.

Definition nl : string := String (chr 10) EmptyString.
Definition dquote : string := String (chr 34) EmptyString.
Definition cr : ascii := chr 13.
Definition nbsp : ascii := chr 160.

Definition between (lo hi n : nat) : bool := (lo <=? n)%nat && (n <=? hi)%nat.

(** [str.isspace] on one character, the class [\s] of [re]. *)
Definition isspace (c : ascii) : bool :=
  let n := ord c in
  between 9 13 n || between 28 32 n || (n =? 133)%nat || (n =? 160)%nat.

Definition isdigit (c : ascii) : bool := between 48 57 (ord c).

Definition isupper (c : ascii) : bool := between 65 90 (ord c).
Definition islower (c : ascii) : bool := between 97 122 (ord c).

(** The class [\w] of [re]: alphanumeric or underscore. *)
Definition isword (c : ascii) : bool :=
  let n := ord c in
  isdigit c || isupper c || islower c || (n =? 95)%nat
  || (n =? 170)%nat || (n =? 178)%nat || (n =? 179)%nat || (n =? 181)%nat
  || (n =? 185)%nat || (n =? 186)%nat || between 188 190 n
  || between 192 214 n || between 216 246 n || between 248 255 n.

(** Text is modelled as strings of the characters below 256.  Besides the
    ASCII letters, the capital letters among them are 192 to 222 without
    the multiplication sign 215, and the small letters with a capital among
    them are 224 to 254 without the division sign 247. *)
Definition latin_capital (n : nat) : bool :=
  between 192 222 n && negb (n =? 215)%nat.
Definition latin_small (n : nat) : bool :=
  between 224 254 n && negb (n =? 247)%nat.

(** The upper-case and the lower-case mapping of one character to one
    character, as [re] uses them under [IGNORECASE].  The capitals of the
    micro sign 181 and of the y with diaeresis 255 are not below 256: the
    two are left as they are. *)
Definition upper_char (c : ascii) : ascii :=
  if islower c || latin_small (ord c) then chr (ord c - 32) else c.

Definition lower_char (c : ascii) : ascii :=
  if isupper c || latin_capital (ord c) then chr (ord c + 32) else c.

Fixpoint smap (f : ascii -> ascii) (s : string) : string :=
  match s with
  | EmptyString => EmptyString
  | String c s' => String (f c) (smap f s')
  end.

(** [str.upper]: character by character, but for the sharp s 223, which
    gives two capitals. *)
Fixpoint upper (s : string) : string :=
  match s with
  | EmptyString => EmptyString
  | String c s' =>
      if (ord c =? 223)%nat then String "S" (String "S" (upper s'))
      else String (upper_char c) (upper s')
  end.

(** [str.lower] *)
Definition lower (s : string) : string := smap lower_char s.

Fixpoint lstrip (s : string) : string :=
  match s with
  | EmptyString => EmptyString
  | String c s' => if isspace c then lstrip s' else s
  end.

(** [rstrip] keeps a character when it is not a space or when something
    survives after it. *)
Fixpoint rstrip (s : string) : string :=
  match s with
  | EmptyString => EmptyString
  | String c s' =>
      match rstrip s' with
      | EmptyString => if isspace c then EmptyString else String c EmptyString
      | t => String c t
      end
  end.

Definition strip (s : string) : string := rstrip (lstrip s).

(** [sep.join(parts)] *)
Definition join (sep : string) (parts : list string) : string :=
  String.concat sep parts.

(** [s.replace(c, "")] and [s.replace(c, d)] for single characters. *)
Fixpoint remove_char (c : ascii) (s : string) : string :=
  match s with
  | EmptyString => EmptyString
  | String x s' => if Ascii.eqb x c then remove_char c s' else String x (remove_char c s')
  end.

Definition replace_char (c d : ascii) (s : string) : string :=
  smap (fun x => if Ascii.eqb x c then d else x) s.

Definition startswith (s p : string) : bool := String.prefix p s.

Definition is_empty (s : string) : bool :=
  match s with
  | EmptyString => true
  | _ => false
  end.

(** [str(n)] for an [int]. *)
Definition str_of_Z (z : Z) : string := NilZero.string_of_int (Z.to_int z).
Definition str_of_nat (n : nat) : string := str_of_Z (Z.of_nat n).

(** The number a string of ASCII digits spells.  [int] gives it for a run
    of at most 4300 digits, see [py_int].  The group ids of line markers and
    the generation numbers of contest codes are read with it directly: a
    run of more than 4300 digits, on which [int] raises, is left out
    there. *)
Definition digit_val (c : ascii) : Z := Z.of_nat (ord c - 48).

Fixpoint int_of_digits_acc (acc : Z) (s : string) : Z :=
  match s with
  | EmptyString => acc
  | String c s' => int_of_digits_acc (10 * acc + digit_val c) s'
  end.

Definition int_of_digits (s : string) : Z := int_of_digits_acc 0 s.

(** [int(s)] for a run of ASCII digits.  The interpreter refuses to convert
    a text of more than 4300 digits, leading zeros included. *)
Definition int_max_str_digits : Z := 4300.

Definition int_limit_error (s : string) : exn :=
  Exn ValueError
    ("Exceeds the limit (4300 digits) for integer string conversion: value has "
     ++ str_of_nat (String.length s)
     ++ " digits; use sys.set_int_max_str_digits() to increase the limit").

Definition py_int (s : string) : result Z :=
  if (int_max_str_digits <? Z.of_nat (String.length s))%Z
  then Raise (int_limit_error s)
  else Ok (int_of_digits s).

(** ** Python floats (IEEE binary64) *)

Definition prec : Z := 53.
Definition emax : Z := 1024.

Definition float : Type := spec_float.

Definition fmul (x y : float) : float := SFmul prec emax x y.
Definition fadd (x y : float) : float := SFadd prec emax x y.

(** The float nearest to an integer. *)
Definition float_of_int (z : Z) : float := binary_normalize prec emax z 0 false.

(** The float nearest to [m / 10^k] or [m * 10^k], for [m > 0]. *)
Definition float_of_decimal (neg : bool) (m : positive) (e10 : Z) : float :=
  if (0 <=? e10)%Z
  then binary_normalize prec emax
         ((if neg then Z.neg m else Z.pos m) * 10 ^ e10) 0 neg
  else SFdiv prec emax (S754_finite neg m 0)
         (S754_finite false (Z.to_pos (10 ^ (- e10))) 0).

Definition f256 : float := float_of_int 256.
Definition f1000 : float := float_of_int 1000.
Definition f1024 : float := float_of_int 1024.

(** [digit (["_"] digit)*] after its first digit: the digits read, and the
    rest of the text. *)
Fixpoint scan_digit_tail (s : string) : string * string :=
  match s with
  | EmptyString => (EmptyString, EmptyString)
  | String c s' =>
      if isdigit c then
        let (d, r) := scan_digit_tail s' in (String c d, r)
      else if Ascii.eqb c "_" then
        match s' with
        | String c' s'' =>
            if isdigit c' then
              let (d, r) := scan_digit_tail s'' in (String c' d, r)
            else (EmptyString, s)
        | EmptyString => (EmptyString, s)
        end
      else (EmptyString, s)
  end.

Definition scan_digitpart (s : string) : option (string * string) :=
  match s with
  | String c s' =>
      if isdigit c then
        let (d, r) := scan_digit_tail s' in Some (String c d, r)
      else None
  | EmptyString => None
  end.

Definition scan_sign (s : string) : bool * string :=
  match s with
  | String "-" s' => (true, s')
  | String "+" s' => (false, s')
  | _ => (false, s)
  end.

(** [number ::= [digitpart] "." digitpart | digitpart ["."]]: the integer
    digits, the fraction digits and the rest. *)
Definition scan_number (s : string) : option (string * string * string) :=
  match scan_digitpart s with
  | Some (ip, r) =>
      match r with
      | String "." r' =>
          match scan_digitpart r' with
          | Some (fp, r'') => Some (ip, fp, r'')
          | None => Some (ip, EmptyString, r')
          end
      | _ => Some (ip, EmptyString, r)
      end
  | None =>
      match s with
      | String "." r' =>
          match scan_digitpart r' with
          | Some (fp, r'') => Some (EmptyString, fp, r'')
          | None => None
          end
      | _ => None
      end
  end.

(** [exponent ::= ("e" | "E") [sign] digitpart], when the text goes on. *)
Definition scan_exponent (s : string) : option (Z * string) :=
  match s with
  | EmptyString => Some (0%Z, EmptyString)
  | String c s' =>
      if Ascii.eqb c "e" || Ascii.eqb c "E" then
        let (neg, s'') := scan_sign s' in
        match scan_digitpart s'' with
        | Some (d, r) =>
            Some ((if neg then - int_of_digits d else int_of_digits d)%Z, r)
        | None => None
        end
      else None
  end.

(** The white space [float] skips around the number: the blanks of C, and
    the white space above 127, which it turns into blanks first.  The
    separators 28 to 31, which [str.strip] removes, are not skipped. *)
Definition float_space (c : ascii) : bool :=
  let n := ord c in
  between 9 13 n || (n =? 32)%nat || (n =? 133)%nat || (n =? 160)%nat.

Fixpoint float_lstrip (s : string) : string :=
  match s with
  | EmptyString => EmptyString
  | String c s' => if float_space c then float_lstrip s' else s
  end.

Fixpoint float_rstrip (s : string) : string :=
  match s with
  | EmptyString => EmptyString
  | String c s' =>
      match float_rstrip s' with
      | EmptyString =>
          if float_space c then EmptyString else String c EmptyString
      | t => String c t
      end
  end.

Definition float_value_error (s : string) : exn :=
  Exn ValueError ("could not convert string to float: '" ++ s ++ "'").

(** [float(s)] for a [str]. *)
Definition float_of_str (s : string) : result float :=
  let t := float_rstrip (float_lstrip s) in
  let (neg, body) := scan_sign t in
  let low := lower body in
  if String.eqb low "inf" || String.eqb low "infinity" then Ok (S754_infinity neg)
  else if String.eqb low "nan" then Ok S754_nan
  else
    match scan_number body with
    | None => Raise (float_value_error s)
    | Some (ip, fp, r) =>
        match scan_exponent r with
        | Some (x, EmptyString) =>
            match int_of_digits (ip ++ fp) with
            | Zpos m =>
                Ok (float_of_decimal neg m (x - Z.of_nat (String.length fp)))
            | _ => Ok (S754_zero neg)
            end
        | _ => Raise (float_value_error s)
        end
    end.

(** [int(f)] for a [float]: truncation toward zero. *)
Definition int_of_float (f : float) : result Z :=
  match f with
  | S754_zero _ => Ok 0%Z
  | S754_infinity _ =>
      Raise (Exn OverflowError "cannot convert float infinity to integer")
  | S754_nan => Raise (Exn ValueError "cannot convert float NaN to integer")
  | S754_finite s m e =>
      let a := if (0 <=? e)%Z then (Z.pos m * 2 ^ e)%Z
               else (Z.pos m / 2 ^ (- e))%Z in
      Ok (if s then (- a)%Z else a)
  end.

(** ** Regular expressions: the part of [re] the scrapers use

    A backtracking matcher in continuation-passing style.  Alternatives are
    tried in the order [re] tries them: a greedy repetition takes the longest
    run first, a lazy one the shortest; [search] tries the start positions
    from left to right. *)

Inductive set_item : Type :=
| IChar (c : ascii)
| IRange (lo hi : ascii).

Inductive atom : Type :=
| AChar (c : ascii)
| ASet (items : list set_item)
| ADigit
| ASpace
| AAny.

Inductive regex : Type :=
| REps
| RAtom (a : atom)
| RSeq (r1 r2 : regex)
| RAlt (r1 r2 : regex)
| RRep (greedy : bool) (min : nat) (a : atom)
| ROpt (r : regex)
| RGroup (n : nat) (r : regex)
| RWordB.

Record flags : Type := Flags { IGNORECASE : bool; DOTALL : bool }.

Definition no_flags : flags := Flags false false.

Definition item_matches (x : ascii) (i : set_item) : bool :=
  match i with
  | IChar c => Ascii.eqb x c
  | IRange lo hi => between (ord lo) (ord hi) (ord x)
  end.

Definition atom_matches (fl : flags) (a : atom) (x : ascii) : bool :=
  match a with
  | AChar c =>
      if IGNORECASE fl then Ascii.eqb (lower_char x) (lower_char c)
      else Ascii.eqb x c
  | ASet items =>
      existsb (item_matches x) items
      || (IGNORECASE fl
          && (existsb (item_matches (lower_char x)) items
              || existsb (item_matches (upper_char x)) items))
  | ADigit => isdigit x
  | ASpace => isspace x
  | AAny => DOTALL fl || negb (Ascii.eqb x (chr 10))
  end.

(** The groups captured so far, the most recent first. *)
Definition captures : Type := list (nat * string).

Fixpoint group (n : nat) (caps : captures) : option string :=
  match caps with
  | [] => None
  | (m, w) :: caps' => if (m =? n)%nat then Some w else group n caps'
  end.

Definition orelse {A : Type} (a b : option A) : option A :=
  match a with
  | Some x => Some x
  | None => b
  end.

Definition is_word_at (c : option ascii) : bool :=
  match c with
  | Some x => isword x
  | None => false
  end.

Definition head_char (s : string) : option ascii :=
  match s with
  | String c _ => Some c
  | EmptyString => None
  end.

Definition word_boundary (prev : option ascii) (s : string) : bool :=
  xorb (is_word_at prev) (is_word_at (head_char s)).

(** The text between a position [s] and a later position [s'] of it. *)
Definition consumed (s s' : string) : string :=
  String.substring 0 (String.length s - String.length s') s.

Section Matcher.

Variable fl : flags.
Variable R : Type.

Fixpoint rep_match (greedy : bool) (a : atom) (min : nat) (s : string)
    (prev : option ascii) (k : string -> option ascii -> option R)
  : option R :=
  let stop := match min with O => k s prev | S _ => None end in
  match s with
  | EmptyString => stop
  | String c s' =>
      if atom_matches fl a c then
        if greedy
        then orelse (rep_match greedy a (Nat.pred min) s' (Some c) k) stop
        else orelse stop (rep_match greedy a (Nat.pred min) s' (Some c) k)
      else stop
  end.

Fixpoint rmatch (r : regex) (s : string) (prev : option ascii)
    (caps : captures) (k : string -> option ascii -> captures -> option R)
  : option R :=
  match r with
  | REps => k s prev caps
  | RAtom a =>
      match s with
      | String c s' => if atom_matches fl a c then k s' (Some c) caps else None
      | EmptyString => None
      end
  | RSeq r1 r2 =>
      rmatch r1 s prev caps (fun s' p' c' => rmatch r2 s' p' c' k)
  | RAlt r1 r2 => orelse (rmatch r1 s prev caps k) (rmatch r2 s prev caps k)
  | RRep greedy min a =>
      rep_match greedy a min s prev (fun s' p' => k s' p' caps)
  | ROpt r' => orelse (rmatch r' s prev caps k) (k s prev caps)
  | RGroup n r' =>
      rmatch r' s prev caps
        (fun s' p' c' => k s' p' ((n, consumed s s') :: c'))
  | RWordB => if word_boundary prev s then k s prev caps else None
  end.

End Matcher.

(** [pattern.match(s)]: the groups of the match at the start of [s]. *)
Definition re_match (fl : flags) (r : regex) (s : string) : option captures :=
  rmatch fl captures r s None [] (fun _ _ c => Some c).

Fixpoint search_from (fl : flags) (r : regex) (s : string)
    (prev : option ascii) : option captures :=
  match rmatch fl captures r s prev [] (fun _ _ c => Some c) with
  | Some c => Some c
  | None =>
      match s with
      | String x s' => search_from fl r s' (Some x)
      | EmptyString => None
      end
  end.

(** [pattern.search(s)]: the groups of the leftmost match. *)
Definition re_search (fl : flags) (r : regex) (s : string) : option captures :=
  search_from fl r s None.

(** A literal word, character by character. *)
Fixpoint rlit (s : string) : regex :=
  match s with
  | EmptyString => REps
  | String c EmptyString => RAtom (AChar c)
  | String c s' => RSeq (RAtom (AChar c)) (rlit s')
  end.

Fixpoint rseq (rs : list regex) : regex :=
  match rs with
  | [] => REps
  | [r] => r
  | r :: rs' => RSeq r (rseq rs')
  end.

(** ** JSON values, as [json.loads] and [Response.json] return them *)

Inductive json : Type :=
| JNull
| JBool (b : bool)
| JInt (z : Z)
| JFloat (f : float)
| JStr (s : string)
| JArr (items : list json)
| JObj (fields : list (string * json)).

(** A [dict] keeps its keys in insertion order, each once. *)
Fixpoint dict_get {V : Type} (d : list (string * V)) (k : string) : option V :=
  match d with
  | [] => None
  | (k', v) :: d' => if String.eqb k' k then Some v else dict_get d' k
  end.

Fixpoint dict_set {V : Type} (d : list (string * V)) (k : string) (v : V)
  : list (string * V) :=
  match d with
  | [] => [(k, v)]
  | (k', v') :: d' =>
      if String.eqb k' k then (k', v) :: d' else (k', v') :: dict_set d' k v
  end.

Definition keys {V : Type} (d : list (string * V)) : list string := map fst d.

(** [d.pop(k, None)] for a dictionary keyed by integers. *)
Fixpoint zdict_get {V : Type} (d : list (Z * V)) (k : Z) : option V :=
  match d with
  | [] => None
  | (k', v) :: d' => if (k' =? k)%Z then Some v else zdict_get d' k
  end.

Definition zdict_pop {V : Type} (d : list (Z * V)) (k : Z) : list (Z * V) :=
  filter (fun kv => negb (fst kv =? k)%Z) d.

Definition type_name (v : json) : string :=
  match v with
  | JNull => "NoneType"
  | JBool _ => "bool"
  | JInt _ => "int"
  | JFloat _ => "float"
  | JStr _ => "str"
  | JArr _ => "list"
  | JObj _ => "dict"
  end.

Definition no_attribute (v : json) (attr : string) : exn :=
  Exn AttributeError
    ("'" ++ type_name v ++ "' object has no attribute '" ++ attr ++ "'").

(** Truth value of an object: [if v], [not v], [v or w]. *)
Definition truthy (v : json) : bool :=
  match v with
  | JNull => false
  | JBool b => b
  | JInt z => negb (z =? 0)%Z
  | JFloat f =>
      match f with
      | S754_zero _ => false
      | _ => true
      end
  | JStr s => negb (is_empty s)
  | JArr l => match l with [] => false | _ => true end
  | JObj d => match d with [] => false | _ => true end
  end.

(** [v.get(k, default)] *)
Definition py_get (v : json) (k : string) (default : json) : result json :=
  match v with
  | JObj d =>
      Ok (match dict_get d k with
          | Some x => x
          | None => default
          end)
  | _ => Raise (no_attribute v "get")
  end.

(** [v[k]] for a string key. *)
Definition py_getitem (v : json) (k : string) : result json :=
  match v with
  | JObj d =>
      match dict_get d k with
      | Some x => Ok x
      | None => Raise (Exn KeyError ("'" ++ k ++ "'"))
      end
  | JArr _ => Raise (Exn TypeError "list indices must be integers or slices, not str")
  | JStr _ => Raise (Exn TypeError "string indices must be integers, not 'str'")
  | _ => Raise (Exn TypeError ("'" ++ type_name v ++ "' object is not subscriptable"))
  end.

(** [v.items()] *)
Definition py_items (v : json) : result (list (string * json)) :=
  match v with
  | JObj d => Ok d
  | _ => Raise (no_attribute v "items")
  end.

Fixpoint chars_of (s : string) : list json :=
  match s with
  | EmptyString => []
  | String c s' => JStr (String c EmptyString) :: chars_of s'
  end.

(** [for x in v] *)
Definition py_iter (v : json) : result (list json) :=
  match v with
  | JArr l => Ok l
  | JObj d => Ok (map JStr (keys d))
  | JStr s => Ok (chars_of s)
  | _ => Raise (Exn TypeError ("'" ++ type_name v ++ "' object is not iterable"))
  end.

(** [v.strip()] *)
Definition py_strip (v : json) : result string :=
  match v with
  | JStr s => Ok (strip s)
  | _ => Raise (no_attribute v "strip")
  end.

(** [str(v)] inside an f-string.  The interpreter's [repr] of a float, a list
    or a dict is an argument. *)
Definition py_str (py_repr : json -> string) (v : json) : string :=
  match v with
  | JNull => "None"
  | JBool true => "True"
  | JBool false => "False"
  | JInt z => str_of_Z z
  | JStr s => s
  | _ => py_repr v
  end.

(** [float(v)] *)
Definition py_float (v : json) : result float :=
  match v with
  | JStr s => float_of_str s
  | JFloat f => Ok f
  | JInt z =>
      match float_of_int z with
      | S754_infinity _ =>
          Raise (Exn OverflowError "int too large to convert to float")
      | f => Ok f
      end
  | JBool b => Ok (float_of_int (if b then 1 else 0))
  | _ =>
      Raise (Exn TypeError
               ("float() argument must be a string or a real number, not '"
                ++ type_name v ++ "'"))
  end.

(** ** The canonical data model

    [scrapers/models.py] and [scrapers/base.py] are not part of the sources at
    hand; the records and the two failure envelopes follow the data model of
    the specification. *)

Module TestCase.
(** Modelled from the spec: the [TestCase] model of [models.py]. *)
Record t : Type := mk { input : string; expected : string }.
End TestCase.

Module ProblemSummary.
(** Modelled from the spec: the [ProblemSummary] model of [models.py]. *)
Record t : Type := mk { id : string; name : string }.
End ProblemSummary.

Module ContestSummary.
(** Modelled from the spec: the [ContestSummary] model of [models.py]. *)
Record t : Type := mk { id : string; name : string; display_name : string }.
End ContestSummary.

Module MetadataResult.
(** Modelled from the spec: the [MetadataResult] model of [models.py]. *)
Record t : Type := mk {
  success : bool;
  error : string;
  contest_id : string;
  problems : list ProblemSummary.t;
  url : string
}.
End MetadataResult.

Module ContestListResult.
(** Modelled from the spec: the [ContestListResult] model of [models.py]. *)
Record t : Type := mk {
  success : bool;
  error : string;
  contests : list ContestSummary.t
}.
End ContestListResult.

(** Modelled from the spec: [BaseScraper._metadata_error] of [base.py], the
    failure envelope of [fetchMetadata]: no success, the error text, empty
    collections. *)
Definition _metadata_error (msg : string) : MetadataResult.t :=
  MetadataResult.mk false msg "" [] "".

(** Modelled from the spec: [BaseScraper._contests_error] of [base.py], the
    failure envelope of [listContests]. *)
Definition _contests_error (msg : string) : ContestListResult.t :=
  ContestListResult.mk false msg [].

(** A string field of a model is validated on construction. *)
Definition str_field (field : string) (v : json) : result string :=
  match v with
  | JStr s => Ok s
  | _ => Raise (Exn ValidationError (field ++ ": Input should be a valid string"))
  end.

(** One line of the test stream, a JSON object printed and flushed: either the
    terminal [{"error": ...}] object or the record of one problem. *)
Module Payload.
Record t : Type := mk {
  problem_id : string;
  combined_input : string;
  combined_expected : string;
  tests : list TestCase.t;
  timeout_ms : Z;
  memory_mb : float;
  interactive : bool;
  multi_test : bool
}.
End Payload.

Inductive line : Type :=
| ErrorLine (error : string)
| RecordLine (p : Payload.t).

(** ** Documents, as [bs4] presents them *)

Inductive node : Type :=
| NavigableString (s : string)
| Tag (name : string) (class : list string) (attrs : list (string * string))
      (contents : list node).

(** Every node below [n] in document order, each with its ancestors, the
    nearest first. *)
Fixpoint walk (parents : list node) (n : node) : list (node * list node) :=
  match n with
  | NavigableString _ => []
  | Tag _ _ _ cs =>
      (fix go (l : list node) : list (node * list node) :=
         match l with
         | [] => []
         | c :: l' => (c, n :: parents) :: (walk (n :: parents) c ++ go l')%list
         end) cs
  end.

Definition descendants (n : node) : list node := map fst (walk [] n).

(** How [class_=c] matches the [class] attribute: one of its values is [c],
    or the whole attribute is. *)
Definition has_class (c : string) (cls : list string) : bool :=
  existsb (String.eqb c) cls || String.eqb (join " " cls) c.

Definition is_tag (nm : string) (n : node) : bool :=
  match n with
  | Tag nm' _ _ _ => String.eqb nm' nm
  | NavigableString _ => false
  end.

Definition is_tag_class (nm c : string) (n : node) : bool :=
  match n with
  | Tag nm' cls _ _ => String.eqb nm' nm && has_class c cls
  | NavigableString _ => false
  end.

(** [n.find_all(nm, class_=c)], [n.find(nm, class_=c)], [n.find(nm)] *)
Definition find_all (nm c : string) (n : node) : list node :=
  filter (is_tag_class nm c) (descendants n).

Definition find (nm c : string) (n : node) : option node :=
  head (find_all nm c n).

Definition find_name (nm : string) (n : node) : option node :=
  head (filter (is_tag nm) (descendants n)).

(** [n.find_parent(nm, class_=c)], given the ancestors of [n]. *)
Definition find_parent (nm c : string) (parents : list node) : option node :=
  List.find (is_tag_class nm c) parents.

Definition node_class (n : node) : list string :=
  match n with
  | Tag _ cls _ _ => cls
  | NavigableString _ => []
  end.

(** [n.get(attr)] *)
Definition node_get (n : node) (attr : string) : option string :=
  match n with
  | Tag _ _ attrs _ => dict_get attrs attr
  | NavigableString _ => None
  end.

Definition strings (n : node) : list string :=
  flat_map (fun d => match d with
                     | NavigableString s => [s]
                     | Tag _ _ _ _ => []
                     end) (descendants n).

(** [n.get_text(sep, strip=b)] *)
Definition get_text (sep : string) (strip_each : bool) (n : node) : string :=
  if strip_each
  then join sep (filter (fun s => negb (is_empty s)) (map strip (strings n)))
  else join sep (strings n).

(** ** Helpers shared by the two adapters *)

Fixpoint contains (needle hay : string) : bool :=
  String.prefix needle hay
  || match hay with
     | String _ hay' => contains needle hay'
     | EmptyString => false
     end.

(** [s.split(c, 1)] when [c] occurs in [s]. *)
Fixpoint split_once (c : ascii) (s : string) : option (string * string) :=
  match s with
  | EmptyString => None
  | String x s' =>
      if Ascii.eqb x c then Some (EmptyString, s')
      else match split_once c s' with
           | Some (a, b) => Some (String x a, b)
           | None => None
           end
  end.

(** [v == s] for a string literal [s]. *)
Definition eq_str (v : json) (s : string) : bool :=
  match v with
  | JStr s' => String.eqb s' s
  | _ => false
  end.

(** [sorted] on integers. *)
Fixpoint insert_sorted (x : Z) (l : list Z) : list Z :=
  match l with
  | [] => [x]
  | y :: l' => if (x <=? y)%Z then x :: l else y :: insert_sorted x l'
  end.

Definition sorted (l : list Z) : list Z := fold_right insert_sorted [] l.

(** [d.setdefault(k, []).extend(v)] *)
Fixpoint setdefault_extend (d : list (Z * list string)) (k : Z) (v : list string)
  : list (Z * list string) :=
  match d with
  | [] => [(k, v)]
  | (k', v') :: d' =>
      if (k' =? k)%Z then (k', (v' ++ v)%list) :: d'
      else (k', v') :: setdefault_extend d' k v
  end.

(** [d[k]] for a key of [d]. *)
Definition zdict_at (d : list (Z * list string)) (k : Z) : list string :=
  match zdict_get d k with
  | Some v => v
  | None => []
  end.

(** [m.group(n)] of a group that takes part in every match. *)
Definition group_text (n : nat) (caps : captures) : string :=
  match group n caps with
  | Some w => w
  | None => EmptyString
  end.

(** The results that are not skipped, in order; the first exception ends the
    loop. *)
Fixpoint collect {A B : Type} (f : A -> result (option B)) (l : list A)
  : result (list B) :=
  match l with
  | [] => Ok []
  | a :: l' =>
      ob <- f a ;;
      bs <- collect f l' ;;
      Ok (match ob with
          | Some b => b :: bs
          | None => bs
          end)
  end.

(** ** [scrapers/codeforces.py] *)

Module Codeforces.

Definition BASE_URL : string := "https://codeforces.com".
Definition API_CONTEST_LIST_URL : string := BASE_URL ++ "/api/contest.list".

(** [(\d+)\s*seconds?] *)
Definition SECONDS_RE : regex :=
  rseq [RGroup 1 (RRep true 1 ADigit); RRep true 0 ASpace;
        rlit "second"; ROpt (RAtom (AChar "s"))].

(** [(\d+)\s*megabytes?] *)
Definition MEGABYTES_RE : regex :=
  rseq [RGroup 1 (RRep true 1 ADigit); RRep true 0 ASpace;
        rlit "megabyte"; ROpt (RAtom (AChar "s"))].

(** [\btest-example-line-(\d+)\b] *)
Definition LINE_RE : regex :=
  rseq [RWordB; rlit "test-example-line-"; RGroup 1 (RRep true 1 ADigit);
        RWordB].

Definition _text_from_pre (pre : node) : string :=
  strip (replace_char nbsp " " (remove_char cr (get_text nl false pre))).

Definition _extract_limits (block : node) : result (Z * float) :=
  let tdiv := find "div" "time-limit" block in
  let mdiv := find "div" "memory-limit" block in
  timeout_ms <-
    match tdiv with
    | Some t =>
        match re_search no_flags SECONDS_RE (get_text " " true t) with
        | Some ts =>
            seconds <- py_int (group_text 1 ts) ;;
            Ok (seconds * 1000)%Z
        | None => Ok 0%Z
        end
    | None => Ok 0%Z
    end ;;
  memory_mb <-
    match mdiv with
    | Some m =>
        match re_search no_flags MEGABYTES_RE (get_text " " true m) with
        | Some ms => float_of_str (group_text 1 ms)
        | None => Ok (S754_zero false)
        end
    | None => Ok (S754_zero false)
    end ;;
  Ok (timeout_ms, memory_mb).

Definition _group_lines_by_id (pre : node) : list (Z * list string) :=
  fold_left
    (fun groups div =>
       match re_search no_flags LINE_RE (join " " (node_class div)) with
       | None => groups
       | Some m =>
           let gid := int_of_digits (group_text 1 m) in
           setdefault_extend groups gid [get_text "" false div]
       end)
    (find_all "div" "test-example-line" pre) [].

Definition _extract_title (block : node) : string * string :=
  match find "div" "title" block with
  | None => ("", "")
  | Some t =>
      let s := get_text " " true t in
      match split_once "." s with
      | None => ("", strip s)
      | Some (a, b) => (upper (strip a), strip b)
      end
  end.

(** The [pre] of each element that has one. *)
Definition pres_of (elems : list node) : list node :=
  flat_map (fun e => match find_name "pre" e with
                     | Some p => [p]
                     | None => []
                     end) elems.

(** The two loops [for p in input_pres] and [for p in output_pres]: the lines
    of every element, accumulated by group id. *)
Definition group_all (pres : list node) : list (Z * list string) :=
  fold_left
    (fun by_gid p =>
       fold_left (fun acc kv => setdefault_extend acc (fst kv) (snd kv))
         (_group_lines_by_id p) by_gid)
    pres [].

(** [k in d.keys()] *)
Definition in_keys (d : list (Z * list string)) (k : Z) : bool :=
  existsb (Z.eqb k) (map fst d).

Definition _extract_samples (block : node) : list TestCase.t * bool :=
  match find "div" "sample-test" block with
  | None => ([], false)
  | Some st =>
      let input_pres := pres_of (find_all "div" "input" st) in
      let output_pres := pres_of (find_all "div" "output" st) in
      let has_grouped :=
        existsb
          (fun p => match find "div" "test-example-line" p with
                    | Some _ => true
                    | None => false
                    end)
          (input_pres ++ output_pres) in
      let inputs_by_gid := zdict_pop (group_all input_pres) 0 in
      let outputs_by_gid := zdict_pop (group_all output_pres) 0 in
      let keys :=
        sorted (nodup Z.eq_dec
                  (filter (in_keys outputs_by_gid) (map fst inputs_by_gid))) in
      match has_grouped, keys with
      | true, _ :: _ =>
          (map (fun k =>
                  TestCase.mk (strip (join nl (zdict_at inputs_by_gid k)))
                              (strip (join nl (zdict_at outputs_by_gid k))))
             keys, true)
      | _, _ =>
          let inputs := map _text_from_pre input_pres in
          let outputs := map _text_from_pre output_pres in
          (map (fun io => TestCase.mk (fst io) (snd io))
             (combine inputs outputs), false)
      end
  end.

Definition _is_interactive (block : node) : bool :=
  let txt :=
    match find "div" "problem-statement" block with
    | Some ps => get_text " " true ps
    | None => get_text " " true block
    end in
  contains "This is an interactive problem" txt.

(** One entry of the list [_parse_all_blocks] returns. *)
Module Block.
Record t : Type := mk {
  letter : string;
  name : string;
  combined_input : string;
  combined_expected : string;
  tests : list TestCase.t;
  timeout_ms : Z;
  memory_mb : float;
  interactive : bool;
  multi_test : bool
}.
End Block.

(** The body of the loop of [_parse_all_blocks] for the block [b] with the
    ancestors [parents]: [None] when the block is skipped. *)
Definition parse_block (b : node) (parents : list node)
  : result (option Block.t) :=
  let holder := find_parent "div" "problemindexholder" parents in
  index <-
    match holder with
    | Some h =>
        match node_get h "problemindex" with
        | Some v => Ok v
        | None => Raise (no_attribute JNull "strip")
        end
    | None => Ok ""
    end ;;
  let letter := upper (strip index) in
  let name := snd (_extract_title b) in
  if is_empty letter then Ok None
  else
    let (raw_samples, is_grouped) := _extract_samples b in
    '(timeout_ms, memory_mb) <- _extract_limits b ;;
    let interactive := _is_interactive b in
    let grouped :=
      is_grouped && match raw_samples with [] => false | _ => true end in
    let combined_input : string :=
      if grouped
      then (str_of_nat (List.length raw_samples) ++ nl
            ++ join nl (map TestCase.input raw_samples))%string
      else join nl (map TestCase.input raw_samples) in
    let combined_expected : string :=
      join nl (map TestCase.expected raw_samples) in
    let individual_tests :=
      if grouped
      then map (fun tc => TestCase.mk ("1" ++ nl ++ TestCase.input tc)%string
                                      (TestCase.expected tc)) raw_samples
      else raw_samples in
    Ok (Some (Block.mk letter name combined_input combined_expected
                individual_tests timeout_ms memory_mb interactive is_grouped)).

(** [soup.find_all("div", class_="problem-statement")], each block with its
    ancestors. *)
Definition blocks_of (soup : node) : list (node * list node) :=
  filter (fun bp => is_tag_class "div" "problem-statement" (fst bp))
    (walk [] soup).

Definition parse_soup (soup : node) : result (list Block.t) :=
  collect (fun bp => parse_block (fst bp) (snd bp)) (blocks_of soup).

Section Adapter.

(** [BeautifulSoup(html, "html.parser")] *)
Variable BeautifulSoup : string -> node.
(** [curl_requests.get(url, ...)], [raise_for_status()] and [.text] *)
Variable curl_get : string -> result string.
(** [requests.get(url, ...)], [raise_for_status()] and [.json()] *)
Variable requests_get_json : string -> result json.
Variable py_repr : json -> string.

Definition _fetch_problems_html (contest_id : string) : result string :=
  curl_get (BASE_URL ++ "/contest/" ++ contest_id ++ "/problems").

Definition _parse_all_blocks (html : string) : result (list Block.t) :=
  parse_soup (BeautifulSoup html).

Definition _scrape_contest_problems_sync (contest_id : string)
  : result (list ProblemSummary.t) :=
  html <- _fetch_problems_html contest_id ;;
  blocks <- _parse_all_blocks html ;;
  Ok (map (fun b => ProblemSummary.mk (lower (upper (Block.letter b)))
                                      (Block.name b)) blocks).

Definition scrape_contest_metadata (contest_id : string)
  : result MetadataResult.t :=
  match _scrape_contest_problems_sync contest_id with
  | Ok [] =>
      Ok (_metadata_error ("No problems found for contest " ++ contest_id))
  | Ok problems =>
      Ok (MetadataResult.mk true "" contest_id problems
            ("https://codeforces.com/contest/" ++ contest_id ++ "/problem/%s"))
  | Raise e => Ok (_metadata_error (exn_str e))
  end.

(** The body of the loop over [data["result"]]. *)
Definition contest_entry (c : json) : result (option ContestSummary.t) :=
  phase <- py_get c "phase" JNull ;;
  if negb (eq_str phase "FINISHED") then Ok None
  else
    id <- py_getitem c "id" ;;
    let cid := py_str py_repr id in
    nm <- py_getitem c "name" ;;
    name <- str_field "name" nm ;;
    Ok (Some (ContestSummary.mk cid name name)).

Definition scrape_contest_list : result ContestListResult.t :=
  let body :=
    data <- requests_get_json API_CONTEST_LIST_URL ;;
    status <- py_get data "status" JNull ;;
    if negb (eq_str status "OK")
    then Ok (_contests_error "Invalid API response")
    else
      res <- py_getitem data "result" ;;
      entries <- py_iter res ;;
      contests <- collect contest_entry entries ;;
      match contests with
      | [] => Ok (_contests_error "No contests found")
      | _ => Ok (ContestListResult.mk true "" contests)
      end in
  match body with
  | Ok r => Ok r
  | Raise e => Ok (_contests_error (exn_str e))
  end.

(** The object the loop of [stream_tests_for_category_async] prints for one
    block. *)
Definition record_of_block (b : Block.t) : Payload.t :=
  Payload.mk (lower (Block.letter b))
    (Block.combined_input b) (Block.combined_expected b)
    (Block.tests b) (Block.timeout_ms b) (Block.memory_mb b)
    (Block.interactive b) (Block.multi_test b).

Definition stream_tests_for_category_async (category_id : string)
  : result (list line) :=
  html <- _fetch_problems_html category_id ;;
  blocks <- _parse_all_blocks html ;;
  Ok (map (fun b => RecordLine (record_of_block b)) blocks).

End Adapter.

End Codeforces.

(** ** [scrapers/codechef.py] *)

(** The number a [bool], an [int] or a [float] is in a sum. *)
Definition py_number (v : json) : option (Z + float) :=
  match v with
  | JBool b => Some (inl (if b then 1 else 0)%Z)
  | JInt z => Some (inl z)
  | JFloat f => Some (inr f)
  | _ => None
  end.

Definition float_of_int_checked (z : Z) : result float :=
  match float_of_int z with
  | S754_infinity _ =>
      Raise (Exn OverflowError "int too large to convert to float")
  | f => Ok f
  end.

Definition cannot_concatenate (kind : string) (b : json) : exn :=
  Exn TypeError
    ("can only concatenate " ++ kind ++ " (not " ++ dquote ++ type_name b
     ++ dquote ++ ") to " ++ kind).

(** [a + b]: lists and strings concatenate, numbers add up. *)
Definition py_add (a b : json) : result json :=
  match a, b with
  | JArr x, JArr y => Ok (JArr (x ++ y))
  | JArr _, _ => Raise (cannot_concatenate "list" b)
  | JStr x, JStr y => Ok (JStr (x ++ y))
  | JStr _, _ => Raise (cannot_concatenate "str" b)
  | _, _ =>
      match py_number a, py_number b with
      | Some (inl x), Some (inl y) => Ok (JInt (x + y))
      | Some (inl x), Some (inr g) =>
          f <- float_of_int_checked x ;; Ok (JFloat (fadd f g))
      | Some (inr f), Some (inl y) =>
          g <- float_of_int_checked y ;; Ok (JFloat (fadd f g))
      | Some (inr f), Some (inr g) => Ok (JFloat (fadd f g))
      | _, _ =>
          Raise (Exn TypeError
                   ("unsupported operand type(s) for +: '" ++ type_name a
                    ++ "' and '" ++ type_name b ++ "'"))
      end
  end.

(** [v.startswith(p)] *)
Definition py_startswith (v : json) (p : string) : result (string * bool) :=
  match v with
  | JStr s => Ok (s, startswith s p)
  | _ => Raise (no_attribute v "startswith")
  end.

(** [range(1, n + 1)] *)
Definition range1 (n : Z) : list Z := map Z.of_nat (seq 1 (Z.to_nat n)).

Module CodeChef.

Definition BASE_URL : string := "https://www.codechef.com".
Definition API_CONTESTS_ALL : string := "/api/list/contests/all".
Definition API_CONTEST (contest_id : string) : string :=
  "/api/contests/" ++ contest_id.
Definition API_PROBLEM (contest_id problem_id : string) : string :=
  "/api/contests/" ++ contest_id ++ "/problems/" ++ problem_id.
Definition PROBLEM_URL (problem_id : string) : string :=
  "https://www.codechef.com/problems/" ++ problem_id.

(** [Memory\s+[Ll]imit.*?([0-9.]+)\s*(MB|GB)] with
    [re.IGNORECASE | re.DOTALL] *)
Definition MEMORY_LIMIT_RE : regex :=
  rseq [rlit "Memory"; RRep true 1 ASpace;
        RAtom (ASet [IChar "L"; IChar "l"]); rlit "imit";
        RRep false 0 AAny;
        RGroup 1 (RRep true 1 (ASet [IRange "0" "9"; IChar "."]));
        RRep true 0 ASpace;
        RGroup 2 (RAlt (rlit "MB") (rlit "GB"))].

Definition MEMORY_LIMIT_FLAGS : flags := Flags true true.

(** [START(\d+)] *)
Definition START_RE : regex :=
  rseq [rlit "START"; RGroup 1 (RRep true 1 ADigit)].

Definition _extract_memory_limit (html : string) : result float :=
  match re_search MEMORY_LIMIT_FLAGS MEMORY_LIMIT_RE html with
  | None => Ok f256
  | Some m =>
      value <- float_of_str (group_text 1 m) ;;
      let unit := upper (group_text 2 m) in
      if String.eqb unit "GB" then Ok (fmul value f1024) else Ok value
  end.

(** The body of the loop of [scrape_contest_list] that looks for the newest
    generation. *)
Definition scan_generation (max_num : Z) (contest : json) : result Z :=
  code <- py_get contest "contest_code" (JStr "") ;;
  '(contest_code, starts) <- py_startswith code "START" ;;
  if starts then
    match re_match no_flags START_RE contest_code with
    | Some m => Ok (Z.max max_num (int_of_digits (group_text 1 m)))
    | None => Ok max_num
    end
  else Ok max_num.

Fixpoint scan_generations (max_num : Z) (all_contests : list json)
  : result Z :=
  match all_contests with
  | [] => Ok max_num
  | contest :: rest =>
      max_num' <- scan_generation max_num contest ;;
      scan_generations max_num' rest
  end.

(** The [problems] of a contest that are in the main category, as the
    dictionary comprehension of [stream_tests_for_category_async] builds
    them. *)
Fixpoint main_problems (items : list (string * json))
    (acc : list (string * json)) : result (list (string * json)) :=
  match items with
  | [] => Ok acc
  | (code, data) :: rest =>
      category <- py_get data "category_name" JNull ;;
      if eq_str category "main"
      then main_problems rest (dict_set acc code data)
      else main_problems rest acc
  end.

Section Adapter.

(** [client.get(url, ...)], [raise_for_status()] and [.json()] *)
Variable client_get_json : string -> result json.
(** [curl_requests.get(url, ...)], [raise_for_status()] and [.text] *)
Variable curl_get : string -> result string.
(** [asyncio.as_completed]: the tasks in the order they complete. *)
Variable as_completed : forall A : Type, list A -> list A.
Variable py_repr : json -> string.

Definition fetch_json (path : string) : result json :=
  client_get_json (BASE_URL ++ path).

Definition _fetch_html_sync (url : string) : result string := curl_get url.

(** The body of the loop of [scrape_contest_metadata] over the declared
    problems. *)
Definition metadata_problem (item : string * json)
  : result (option ProblemSummary.t) :=
  let (problem_code, problem_data) := item in
  category <- py_get problem_data "category_name" JNull ;;
  if eq_str category "main" then
    nm <- py_get problem_data "name" (JStr problem_code) ;;
    name <- str_field "name" nm ;;
    Ok (Some (ProblemSummary.mk problem_code name))
  else Ok None.

Definition scrape_contest_metadata (contest_id : string)
  : result MetadataResult.t :=
  let body :=
    data <- fetch_json (API_CONTEST contest_id) ;;
    declared <- py_get data "problems" JNull ;;
    if negb (truthy declared)
    then Ok (_metadata_error ("No problems found for contest " ++ contest_id))
    else
      all <- py_getitem data "problems" ;;
      items <- py_items all ;;
      problems <- collect metadata_problem items ;;
      Ok (MetadataResult.mk true "" contest_id problems
            (BASE_URL ++ "/" ++ contest_id)) in
  match body with
  | Ok r => Ok r
  | Raise e =>
      Ok (_metadata_error
            ("Failed to fetch contest " ++ contest_id ++ ": " ++ exn_str e))
  end.

(** The body of the loop of [fetch_divisions] over the child contests. *)
Definition division (base_name : string) (item : string * json)
  : result (option ContestSummary.t) :=
  let div_data := snd item in
  div_code <- py_get div_data "contest_code" (JStr "") ;;
  div <- py_get div_data "div" (JObj []) ;;
  div_num <- py_get div "div_number" (JStr "") ;;
  if truthy div_code && truthy div_num then
    id <- str_field "id" div_code ;;
    Ok (Some (ContestSummary.mk id base_name
                (base_name ++ " (Div. " ++ py_str py_repr div_num ++ ")")))
  else Ok None.

Definition fetch_divisions (i : Z) : result (list ContestSummary.t) :=
  let parent_id := "START" ++ str_of_Z i in
  match fetch_json (API_CONTEST parent_id) with
  | Raise _ => Ok []
  | Ok parent_data =>
      child_contests <- py_get parent_data "child_contests" (JObj []) ;;
      if negb (truthy child_contests) then Ok []
      else
        let base_name := "Starters " ++ str_of_Z i in
        items <- py_items child_contests ;;
        collect (division base_name) items
  end.

(** The generation [scrape_contest_list] discovers in a catalog. *)
Definition discover (data : json) : result Z :=
  future <- py_get data "future_contests" (JArr []) ;;
  past <- py_get data "past_contests" (JArr []) ;;
  both <- py_add future past ;;
  all_contests <- py_iter both ;;
  scan_generations 0 all_contests.

Definition scrape_contest_list : result ContestListResult.t :=
  match fetch_json API_CONTESTS_ALL with
  | Raise e =>
      if is_HTTPStatusError e
      then Ok (_contests_error ("Failed to fetch contests: " ++ exn_str e))
      else Raise e
  | Ok data =>
      max_num <- discover data ;;
      if (max_num =? 0)%Z
      then Ok (_contests_error "No Starters contests found")
      else
        let tasks := map fetch_divisions (range1 max_num) in
        divisions <- mapM (fun r => r) (as_completed _ tasks) ;;
        Ok (ContestListResult.mk true "" (concat divisions))
  end.

(** One declared sample of the list comprehension of [run_one]. *)
Definition sample_test (t : json) : result (option TestCase.t) :=
  deleted <- py_get t "isDeleted" (JBool false) ;;
  if truthy deleted then Ok None
  else
    i <- py_get t "input" (JStr "") ;;
    input <- py_strip i ;;
    o <- py_get t "output" (JStr "") ;;
    expected <- py_strip o ;;
    Ok (Some (TestCase.mk input expected)).

(** The [try] block of [run_one]. *)
Definition run_one_try (category_id problem_code : string)
  : result (list TestCase.t * Z * float * bool) :=
  problem_data <- fetch_json (API_PROBLEM category_id problem_code) ;;
  components <- py_get problem_data "problemComponents" (JObj []) ;;
  declared <- py_get components "sampleTestCases" (JArr []) ;;
  let sample_tests := if truthy declared then declared else JArr [] in
  ts <- py_iter sample_tests ;;
  tests <- collect sample_test ts ;;
  time_limit_str <- py_get problem_data "max_timelimit" (JStr "1") ;;
  seconds <- py_float time_limit_str ;;
  timeout_ms <- int_of_float (fmul seconds f1000) ;;
  html <- _fetch_html_sync (PROBLEM_URL problem_code) ;;
  memory_mb <- _extract_memory_limit html ;;
  Ok (tests, timeout_ms, memory_mb, false).

Definition run_one (category_id problem_code : string) : Payload.t :=
  let '(tests, timeout_ms, memory_mb, interactive) :=
    match run_one_try category_id problem_code with
    | Ok r => r
    | Raise _ => ([], 1000%Z, f256, false)
    end in
  let combined_input : string :=
    match tests with
    | [] => ""
    | _ => join nl (map TestCase.input tests)
    end in
  let combined_expected : string :=
    match tests with
    | [] => ""
    | _ => join nl (map TestCase.expected tests)
    end in
  Payload.mk problem_code combined_input combined_expected tests
    timeout_ms memory_mb interactive false.

Definition stream_tests_for_category_async (category_id : string)
  : result (list line) :=
  match fetch_json (API_CONTEST category_id) with
  | Raise e =>
      Ok [ErrorLine ("Failed to fetch contest " ++ category_id ++ ": "
                     ++ exn_str e)]
  | Ok contest_data =>
      all_problems <- py_get contest_data "problems" (JObj []) ;;
      if negb (truthy all_problems)
      then Ok [ErrorLine ("No problems found for contest " ++ category_id)]
      else
        items <- py_items all_problems ;;
        problems <- main_problems items [] ;;
        match problems with
        | [] =>
            Ok [ErrorLine ("No main problems found for contest "
                           ++ category_id)]
        | _ =>
            let tasks := map (run_one category_id) (keys problems) in
            Ok (map RecordLine (as_completed _ tasks))
        end
  end.

End Adapter.

End CodeChef.

(** * Specification-level notions *)

(** ** What it means for a word to match a pattern

    [matches fl r prev w rest caps caps']: with [prev] the character before
    the word and [rest] the text after it, the word [w] matches [r]; the match
    extends the captured groups [caps] to [caps']. *)

Fixpoint last_char (prev : option ascii) (w : string) : option ascii :=
  match w with
  | EmptyString => prev
  | String c w' => last_char (Some c) w'
  end.

Fixpoint all_chars (p : ascii -> bool) (s : string) : bool :=
  match s with
  | EmptyString => true
  | String c s' => p c && all_chars p s'
  end.

Inductive matches (fl : flags)
  : regex -> option ascii -> string -> string -> captures -> captures -> Prop :=
| M_eps prev rest caps :
    matches fl REps prev "" rest caps caps
| M_atom a x prev rest caps :
    atom_matches fl a x = true ->
    matches fl (RAtom a) prev (String x "") rest caps caps
| M_seq r1 r2 prev w1 w2 rest caps caps1 caps2 :
    matches fl r1 prev w1 (w2 ++ rest) caps caps1 ->
    matches fl r2 (last_char prev w1) w2 rest caps1 caps2 ->
    matches fl (RSeq r1 r2) prev (w1 ++ w2) rest caps caps2
| M_alt_l r1 r2 prev w rest caps caps' :
    matches fl r1 prev w rest caps caps' ->
    matches fl (RAlt r1 r2) prev w rest caps caps'
| M_alt_r r1 r2 prev w rest caps caps' :
    matches fl r2 prev w rest caps caps' ->
    matches fl (RAlt r1 r2) prev w rest caps caps'
| M_rep greedy min a prev w rest caps :
    all_chars (atom_matches fl a) w = true ->
    (min <= String.length w)%nat ->
    matches fl (RRep greedy min a) prev w rest caps caps
| M_opt_some r prev w rest caps caps' :
    matches fl r prev w rest caps caps' ->
    matches fl (ROpt r) prev w rest caps caps'
| M_opt_none r prev rest caps :
    matches fl (ROpt r) prev "" rest caps caps
| M_group n r prev w rest caps caps' :
    matches fl r prev w rest caps caps' ->
    matches fl (RGroup n r) prev w rest caps ((n, w) :: caps')
| M_wordb prev rest caps :
    word_boundary prev rest = true ->
    matches fl RWordB prev "" rest caps caps.

(** The pattern occurs in [s]: some part [w] of [s = pre ++ w ++ post]
    matches it, capturing [caps]. *)
Definition occurs (fl : flags) (r : regex) (s : string) (caps : captures)
  : Prop :=
  exists pre w post,
    s = pre ++ w ++ post
    /\ matches fl r (last_char None pre) w post [] caps.

(** A literal word matches itself, up to case under [IGNORECASE]. *)
Definition same_word (fl : flags) (lit w : string) : Prop :=
  if IGNORECASE fl then lower w = lower lit else w = lit.

(** ** The memory-limit phrase of a CodeChef problem page

    "Memory Limit", a number and a unit: the words in any case, white space
    between them, anything (line breaks too) before the number, the number a
    run of digits and dots, the unit MB or GB. *)



(** ** Generations of the Starters series *)









(** ** The Codeforces contest catalog *)

(** An entry of the catalog is finished when its [phase] says so. *)
Definition finished (c : json) : bool :=
  match c with
  | JObj fields =>
      match dict_get fields "phase" with
      | Some phase => eq_str phase "FINISHED"
      | None => false
      end
  | _ => false
  end.

(** The summary of a catalog entry: its [id] as text, its [name] twice. *)
Definition listed_as (py_repr : json -> string) (c : json)
    (summary : ContestSummary.t) : Prop :=
  exists fields id name,
    c = JObj fields
    /\ dict_get fields "id" = Some id
    /\ dict_get fields "name" = Some (JStr name)
    /\ summary = ContestSummary.mk (py_str py_repr id) name name.

Definition is_object (v : json) : Prop := exists fields, v = JObj fields.

(** ** Grouped samples of a Codeforces problem block *)

(** The group id a line marker carries in its classes, if any. *)
Definition line_gid (div : node) : option Z :=
  match re_search no_flags Codeforces.LINE_RE (join " " (node_class div)) with
  | Some m => Some (int_of_digits (group_text 1 m))
  | None => None
  end.

Definition has_gid (gid : Z) (div : node) : bool :=
  match line_gid div with
  | Some g => (g =? gid)%Z
  | None => false
  end.

(** The loop of [_group_lines_by_id], one line marker at a time. *)
Definition add_line (groups : list (Z * list string)) (div : node)
  : list (Z * list string) :=
  match line_gid div with
  | Some gid => setdefault_extend groups gid [get_text "" false div]
  | None => groups
  end.

Definition line_markers (pre : node) : list node :=
  find_all "div" "test-example-line" pre.

(** The lines of group [gid] in the elements [pres], in document order. *)
Definition lines_of (gid : Z) (pres : list node) : list string :=
  flat_map (fun p => map (get_text "" false)
                       (filter (has_gid gid) (line_markers p))) pres.

(** The group ids that occur in the elements [pres]. *)
Definition gids_of (pres : list node) : list Z :=
  flat_map (fun p => flat_map (fun d => match line_gid d with
                                        | Some g => [g]
                                        | None => []
                                        end) (line_markers p)) pres.

(** The [pre] elements of one side ("input" or "output") of the sample test
    of a block. *)
Definition sample_pres (side : string) (block : node) : list node :=
  match find "div" "sample-test" block with
  | Some st => Codeforces.pres_of (find_all "div" side st)
  | None => []
  end.

(** The cases of an ungrouped block: the i-th input with the i-th output. *)
Definition positional_cases (block : node) : list TestCase.t :=
  map (fun io => TestCase.mk (fst io) (snd io))
    (combine (map Codeforces._text_from_pre (sample_pres "input" block))
             (map Codeforces._text_from_pre (sample_pres "output" block))).


(** A grouped sample exists somewhere on the page: a line marker that
    carries a group id. *)
Definition page_has_grouped_sample (soup : node) : bool :=
  existsb (fun n => is_tag_class "div" "test-example-line" n
                    && match line_gid n with
                       | Some _ => true
                       | None => false
                       end) (descendants soup).

(** ** The test streams *)

(** A declared problem is in the main category. *)
Definition is_main (data : json) : bool :=
  match data with
  | JObj fields =>
      match dict_get fields "category_name" with
      | Some category => eq_str category "main"
      | None => false
      end
  | _ => false
  end.

(** The codes of the main problems of a contest's [problems] map. *)
Definition main_codes (items : list (string * json)) : list string :=
  keys (filter (fun kv => is_main (snd kv)) items).

(** The record of a problem whose fetch failed: the documented defaults. *)
Definition fallback (problem_code : string) : Payload.t :=
  Payload.mk problem_code "" "" [] 1000%Z f256 false false.

(** The problem ids a stream carries, in the order of its records. *)
Definition record_ids (lines : list line) : list string :=
  flat_map (fun l => match l with
                     | RecordLine r => [Payload.problem_id r]
                     | ErrorLine _ => []
                     end) lines.

(** The index letter of a block with the ancestors [parents]: the
    [problemindex] of the nearest holder, stripped and in upper case; empty
    when there is no holder. *)
Definition index_letter (parents : list node) : string :=
  match find_parent "div" "problemindexholder" parents with
  | Some h =>
      match node_get h "problemindex" with
      | Some index => upper (strip index)
      | None => ""
      end
  | None => ""
  end.

(** ** Texts trimmed at both ends *)

Definition is_space_at (c : option ascii) : bool :=
  match c with
  | Some x => isspace x
  | None => false
  end.

(** No white space at the start nor at the end. *)
Definition trimmed (s : string) : bool :=
  negb (is_space_at (head_char s)) && negb (is_space_at (last_char None s)).

Definition chars (s : string) : list ascii := list_ascii_of_string s.

(** [needle] is a part of [hay]. *)
Definition substring_of (needle hay : string) : Prop :=
  exists before after, hay = before ++ needle ++ after.

(** The nearest holder of a block has no [problemindex] attribute. *)
Definition lacks_index (parents : list node) : bool :=
  match find_parent "div" "problemindexholder" parents with
  | Some h =>
      match node_get h "problemindex" with
      | Some _ => false
      | None => true
      end
  | None => false
  end.

(** The summary [scrape_contest_metadata] makes of a declared problem: its
    code as id, its [name] when it has one, its code otherwise. *)
Definition summarized_as (item : string * json) (p : ProblemSummary.t) : Prop :=
  exists fields,
    snd item = JObj fields
    /\ ((exists name, dict_get fields "name" = Some (JStr name)
                      /\ p = ProblemSummary.mk (fst item) name)
        \/ (dict_get fields "name" = None
            /\ p = ProblemSummary.mk (fst item) (fst item))).

(** ** ASCII text *)


(** ** Digit runs and the limit of [int] *)

(** The length of the longest run of digits of a text; [cur] is the length
    of the run that ends where the text begins. *)
Fixpoint longest_run_from (cur : nat) (s : string) : nat :=
  match s with
  | EmptyString => cur
  | String c s' =>
      if isdigit c then longest_run_from (S cur) s'
      else Nat.max cur (longest_run_from 0 s')
  end.

Definition longest_digit_run (s : string) : nat := longest_run_from 0 s.

(** No run of digits of the text is longer than what [int] converts. *)
Definition digits_in_range (s : string) : bool :=
  (Z.of_nat (longest_digit_run s) <=? int_max_str_digits)%Z.

(** The text of the limit element of a block, empty when there is none. *)
Definition limit_text (class : string) (block : node) : string :=
  match find "div" class block with
  | Some d => get_text " " true d
  | None => ""
  end.

(** Every number the extraction reads from a block with [int] is within the
    limit: the seconds of the time limit and the group ids in the classes of
    the line markers of the samples. *)
Definition within_int_limit (block : node) : bool :=
  digits_in_range (limit_text "time-limit" block)
  && forallb
       (fun pre =>
          forallb (fun d => digits_in_range (join " " (node_class d)))
            (line_markers pre))
       (sample_pres "input" block ++ sample_pres "output" block)%list.

(** ** The samples of a CodeChef problem *)

(** A declared sample is kept unless it is marked as deleted. *)
Definition kept (sample : json) : bool :=
  match sample with
  | JObj fields =>
      match dict_get fields "isDeleted" with
      | Some deleted => negb (truthy deleted)
      | None => true
      end
  | _ => false
  end.

(** The test case of a sample: its input and its output, both stripped; a
    text that is not declared counts as empty. *)
Definition case_of (sample : json) (t : TestCase.t) : Prop :=
  exists input output,
    py_get sample "input" (JStr "") = Ok (JStr input)
    /\ py_get sample "output" (JStr "") = Ok (JStr output)
    /\ t = TestCase.mk (strip input) (strip output).

(** ** Sample data *)

Module Sample.

Definition timed_out : exn := Exn TimeoutException "timed out".

Definition no_repr (v : json) : string := "".

Definition reversed (A : Type) (l : list A) : list A := rev l.

Definition contest (code : string) : json :=
  JObj [("contest_code", JStr code)].



(** A contest whose only declared problem is a practice problem. *)
Definition practice_only : json :=
  JObj [("problems",
         JObj [("WARMUP", JObj [("category_name", JStr "practice");
                                ("name", JStr "Warm up")])])].

(** A page whose only block sits in a holder without a [problemindex]. *)
Definition page_without_index : node :=
  Tag "[document]" [] []
    [Tag "div" ["problemindexholder"] []
       [Tag "div" ["problem-statement"] [] []]].

Definition text (s : string) : node := NavigableString s.
Definition div (class : list string) (contents : list node) : node :=
  Tag "div" class [] contents.
Definition pre (contents : list node) : node := Tag "pre" [] [] contents.

(** A line of a grouped sample: [<div class="test-example-line
    test-example-line-N">]. *)
Definition marked_line (n s : string) : node :=
  div ["test-example-line"; "test-example-line-" ++ n] [text s].

Definition holder (index : string) (block : node) : node :=
  Tag "div" ["problemindexholder"] [("problemindex", index)] [block].

Definition page (holders : list node) : node :=
  Tag "[document]" [] [] holders.

(** A block with the ungrouped sample pair "1 2" -> "3". *)
Definition ungrouped_block : node :=
  div ["problem-statement"]
    [div ["header"] [div ["title"] [text "A. Sum"]];
     div ["sample-tests"]
       [div ["sample-test"]
          [div ["input"] [div ["title"] [text "Input"]; pre [text "1 2"]];
           div ["output"] [div ["title"] [text "Output"]; pre [text "3"]]]]].

(** A block with one grouped sample: its input spans two lines of
    group 1. *)
Definition grouped_block : node :=
  div ["problem-statement"]
    [div ["header"] [div ["title"] [text "B. Pairs"]];
     div ["sample-tests"]
       [div ["sample-test"]
          [div ["input"]
             [pre [marked_line "1" "4"; marked_line "1" "5 6"]];
           div ["output"] [pre [marked_line "1" "11"]]]]].

(** One block with both samples: the ungrouped pair, then the grouped
    sample. *)
Definition mixed_block : node :=
  div ["problem-statement"]
    [div ["header"] [div ["title"] [text "A. Mixed"]];
     div ["sample-tests"]
       [div ["sample-test"]
          [div ["input"] [pre [text "1 2"]];
           div ["output"] [pre [text "3"]];
           div ["input"]
             [pre [marked_line "1" "4"; marked_line "1" "5 6"]];
           div ["output"] [pre [marked_line "1" "11"]]]]].


Definition two_block_page : node :=
  page [holder "A" ungrouped_block; holder "B" grouped_block].

(** A block with its limits, and one whose time limit is spelled with 4301
    digits. *)
Definition limited_block : node :=
  div ["problem-statement"]
    [div ["header"]
       [div ["title"] [text "A. Sum"];
        div ["time-limit"]
          [div ["property-title"] [text "time limit per test"];
           text "2 seconds"];
        div ["memory-limit"]
          [div ["property-title"] [text "memory limit per test"];
           text "256 megabytes"]]].

Definition overlong_limit_block : node :=
  div ["problem-statement"]
    [div ["header"]
       [div ["time-limit"]
          [text (string_of_list_ascii (repeat "1"%char 4301) ++ " seconds")]]].

Definition mixed_page : node := page [holder "A" mixed_block].


(** A contest with two main problems and a practice problem; the API answers
    for the second problem only, and no problem page can be fetched. *)
Definition three_problems : json :=
  JObj [("problems",
         JObj [("P1", JObj [("category_name", JStr "main")]);
               ("P2", JObj [("category_name", JStr "main")]);
               ("P3", JObj [("category_name", JStr "practice")])])].

Definition stream_client (url : string) : result json :=
  if String.eqb url "https://www.codechef.com/api/contests/START1D"
  then Ok three_problems
  else if String.eqb url
            "https://www.codechef.com/api/contests/START1D/problems/P2"
  then Ok (JObj [("max_timelimit", JStr "2")])
  else Raise timed_out.

Definition no_page (url : string) : result string := Raise timed_out.

(** A catalog with two generations; the first cannot be fetched, the second
    has one division. *)
Definition division_client (url : string) : result json :=
  if String.eqb url "https://www.codechef.com/api/list/contests/all"
  then Ok (JObj [("past_contests", JArr [contest "START2"])])
  else if String.eqb url "https://www.codechef.com/api/contests/START2"
  then Ok (JObj [("child_contests",
                  JObj [("div_1",
                         JObj [("contest_code", JStr "START2A");
                               ("div", JObj [("div_number", JInt 1)])])])])
  else Raise timed_out.

Definition divisions_of (i : Z) : list ContestSummary.t :=
  if (i =? 2)%Z
  then [ContestSummary.mk "START2A" "Starters 2" "Starters 2 (Div. 1)"]
  else [].

(** A contest with a named main problem, a main problem without a name and
    a practice problem. *)
Definition named_problems : json :=
  JObj [("problems",
         JObj [("P1", JObj [("category_name", JStr "main");
                            ("name", JStr "First")]);
               ("P2", JObj [("category_name", JStr "main")]);
               ("P3", JObj [("category_name", JStr "practice")])])].


(** The contest list of the Codeforces API, one contest still running. *)
Definition contest_list : json :=
  JObj [("status", JStr "OK");
        ("result",
         JArr [JObj [("id", JInt 1550); ("name", JStr "Educational Round");
                     ("phase", JStr "FINISHED")];
               JObj [("id", JInt 2000); ("name", JStr "Round 2000");
                     ("phase", JStr "CODING")];
               JObj [("id", JInt 1000); ("name", JStr "Round 1000");
                     ("phase", JStr "FINISHED")]])].

(** A problem with two declared samples, the second deleted, and its
    page. *)
Definition declared_samples : list json :=
  [JObj [("input", JStr " 1 2 "); ("output", JStr "3 ")];
   JObj [("isDeleted", JBool true); ("input", JStr "9"); ("output", JStr "9")]].

Definition problem_client (url : string) : result json :=
  if String.eqb url
       "https://www.codechef.com/api/contests/START1D/problems/P1"
  then Ok (JObj [("max_timelimit", JStr "2");
                 ("problemComponents",
                  JObj [("sampleTestCases", JArr declared_samples)])])
  else Raise timed_out.

Definition problem_page (url : string) : result string :=
  Ok "Memory Limit: 256 MB".

End Sample.

(** * Properties *)

(** ** Strings *)


Lemma append_assoc (a b c : string) : (a ++ b) ++ c = a ++ (b ++ c).
Proof. induction a as [|x a IH]; simpl; [reflexivity | now rewrite IH]. Qed.

Lemma length_append (a b : string) :
  String.length (a ++ b) = (String.length a + String.length b)%nat.
Proof. induction a as [|x a IH]; simpl; [reflexivity | now rewrite IH]. Qed.

Lemma substring_0_append (w rest : string) :
  String.substring 0 (String.length w) (w ++ rest) = w.
Proof.
  induction w as [|c w IH]; simpl.
  - destruct rest; reflexivity.
  - now rewrite IH.
Qed.

Lemma consumed_append (w rest : string) : consumed (w ++ rest) rest = w.
Proof.
  unfold consumed. rewrite length_append.
  replace (String.length w + String.length rest - String.length rest)%nat
    with (String.length w) by lia.
  apply substring_0_append.
Qed.

Lemma last_char_append (prev : option ascii) (a b : string) :
  last_char prev (a ++ b) = last_char (last_char prev a) b.
Proof. revert prev; induction a as [|c a IH]; simpl; intros; auto. Qed.

Lemma all_chars_append (p : ascii -> bool) (a b : string) :
  all_chars p (a ++ b) = all_chars p a && all_chars p b.
Proof.
  induction a as [|c a IH]; simpl; [reflexivity|].
  now rewrite IH, andb_assoc.
Qed.

(** ** The matcher against the meaning of patterns *)

Section MatcherCorrect.

Variable fl : flags.
Variable R : Type.

Lemma orelse_some {A : Type} (a b : option A) (x : A) :
  orelse a b = Some x -> a = Some x \/ (a = None /\ b = Some x).
Proof. destruct a; simpl; intros H; [left | right]; auto. Qed.

Lemma orelse_none {A : Type} (a b : option A) :
  orelse a b = None -> a = None /\ b = None.
Proof. destruct a; simpl; intros H; [discriminate | auto]. Qed.

(** A successful repetition consumed a run of matching characters. *)
Lemma rep_match_sound greedy a :
  forall s min prev (k : string -> option ascii -> option R) x,
    rep_match fl R greedy a min s prev k = Some x ->
    exists w rest,
      s = w ++ rest
      /\ all_chars (atom_matches fl a) w = true
      /\ (min <= String.length w)%nat
      /\ k rest (last_char prev w) = Some x.
Proof.
  induction s as [|c s IH]; intros min prev k x H.
  - simpl in H. destruct min; [|discriminate].
    exists "", "". repeat split; auto.
  - simpl in H.
    assert (Hstop : match min with O => k (String c s) prev | S _ => None end
                    = Some x ->
                    exists w rest,
                      String c s = w ++ rest
                      /\ all_chars (atom_matches fl a) w = true
                      /\ (min <= String.length w)%nat
                      /\ k rest (last_char prev w) = Some x).
    { intros Hs. destruct min; [|discriminate].
      exists "", (String c s). repeat split; auto. }
    assert (Hgo : rep_match fl R greedy a (Nat.pred min) s (Some c) k = Some x ->
                  atom_matches fl a c = true ->
                  exists w rest,
                    String c s = w ++ rest
                    /\ all_chars (atom_matches fl a) w = true
                    /\ (min <= String.length w)%nat
                    /\ k rest (last_char prev w) = Some x).
    { intros Hr Hc. apply IH in Hr.
      destruct Hr as (w & rest & -> & Hall & Hlen & Hk).
      exists (String c w), rest. simpl. rewrite Hc, Hall.
      repeat split; auto. lia. }
    destruct (atom_matches fl a c) eqn:Hc; [|auto].
    destruct greedy; apply orelse_some in H;
      destruct H as [H | [_ H]]; auto.
Qed.

(** A failed repetition leaves no run the continuation accepts. *)
Lemma rep_match_complete greedy a :
  forall s min prev (k : string -> option ascii -> option R),
    rep_match fl R greedy a min s prev k = None ->
    forall w rest,
      s = w ++ rest ->
      all_chars (atom_matches fl a) w = true ->
      (min <= String.length w)%nat ->
      k rest (last_char prev w) = None.
Proof.
  induction s as [|c s IH]; intros min prev k H w rest Hs Hall Hlen.
  - destruct w; [|discriminate]. simpl in Hs. subst rest.
    simpl in *. destruct min; [assumption | lia].
  - simpl in H. destruct w as [|x w].
    + simpl in Hs. subst rest. simpl in Hlen.
      assert (min = O) by lia. subst min. simpl.
      destruct (atom_matches fl a c); [|assumption].
      destruct greedy; apply orelse_none in H; tauto.
    + simpl in Hs. injection Hs as <- ->.
      simpl in Hall. apply andb_prop in Hall. destruct Hall as [Hc Hall].
      rewrite Hc in H.
      assert (Hr : rep_match fl R greedy a (Nat.pred min) (w ++ rest) (Some c) k
                   = None)
        by (destruct greedy; apply orelse_none in H; tauto).
      simpl. eapply IH; eauto. simpl in Hlen. lia.
Qed.

End MatcherCorrect.

Section RmatchCorrect.

Variable fl : flags.
Variable R : Type.

Lemma rmatch_sound (r : regex) :
  forall s prev caps (k : string -> option ascii -> captures -> option R) x,
    rmatch fl R r s prev caps k = Some x ->
    exists w rest caps',
      s = w ++ rest
      /\ matches fl r prev w rest caps caps'
      /\ k rest (last_char prev w) caps' = Some x.
Proof.
  induction r as [| a | r1 IH1 r2 IH2 | r1 IH1 r2 IH2 | g min a | r IH
                  | n r IH |]; intros s prev caps k x H; simpl in H.
  - exists "", s, caps. repeat split; auto. constructor.
  - destruct s as [|c s]; [discriminate|].
    destruct (atom_matches fl a c) eqn:Hc; [|discriminate].
    exists (String c ""), s, caps. repeat split; auto. now constructor.
  - apply IH1 in H. destruct H as (w1 & rest1 & caps1 & -> & M1 & H).
    apply IH2 in H. destruct H as (w2 & rest & caps2 & -> & M2 & H).
    exists (w1 ++ w2), rest, caps2. rewrite append_assoc, last_char_append.
    repeat split; auto. econstructor; eauto.
  - apply orelse_some in H. destruct H as [H | [_ H]].
    + apply IH1 in H. destruct H as (w & rest & caps' & -> & M & H).
      exists w, rest, caps'. repeat split; auto. now apply M_alt_l.
    + apply IH2 in H. destruct H as (w & rest & caps' & -> & M & H).
      exists w, rest, caps'. repeat split; auto. now apply M_alt_r.
  - apply rep_match_sound in H.
    destruct H as (w & rest & -> & Hall & Hlen & H).
    exists w, rest, caps. repeat split; auto. now constructor.
  - apply orelse_some in H. destruct H as [H | [_ H]].
    + apply IH in H. destruct H as (w & rest & caps' & -> & M & H).
      exists w, rest, caps'. repeat split; auto. now apply M_opt_some.
    + exists "", s, caps. repeat split; auto. apply M_opt_none.
  - apply IH in H. destruct H as (w & rest & caps' & -> & M & H).
    rewrite consumed_append in H.
    exists w, rest, ((n, w) :: caps'). repeat split; auto. now constructor.
  - destruct (word_boundary prev s) eqn:Hb; [|discriminate].
    exists "", s, caps. repeat split; auto. now constructor.
Qed.

Lemma rmatch_complete r prev w rest caps caps' :
  matches fl r prev w rest caps caps' ->
  forall (k : string -> option ascii -> captures -> option R),
    rmatch fl R r (w ++ rest) prev caps k = None ->
    k rest (last_char prev w) caps' = None.
Proof.
  induction 1 as [prev rest caps
                 | a x prev rest caps Hx
                 | r1 r2 prev w1 w2 rest caps caps1 caps2 M1 IH1 M2 IH2
                 | r1 r2 prev w rest caps caps' M IH
                 | r1 r2 prev w rest caps caps' M IH
                 | g min a prev w rest caps Hall Hlen
                 | r prev w rest caps caps' M IH
                 | r prev rest caps
                 | n r prev w rest caps caps' M IH
                 | prev rest caps Hb]; intros k H; simpl in H.
  - assumption.
  - rewrite Hx in H. assumption.
  - rewrite append_assoc in H. rewrite last_char_append.
    apply IH2. apply (IH1 _ H).
  - apply orelse_none in H. apply IH; tauto.
  - apply orelse_none in H. apply IH; tauto.
  - eapply rep_match_complete with (k := fun s' p' => k s' p' caps) in H;
      eauto.
  - apply orelse_none in H. apply IH; tauto.
  - apply orelse_none in H. tauto.
  - apply IH in H. now rewrite consumed_append in H.
  - simpl in Hb. rewrite Hb in H. assumption.
Qed.

End RmatchCorrect.

(** [pattern.match]: the groups come from a match at the start of the text,
    and there is none when it answers [None]. *)
Lemma re_match_sound fl r s caps :
  re_match fl r s = Some caps ->
  exists w rest, s = w ++ rest /\ matches fl r None w rest [] caps.
Proof.
  unfold re_match. intros H. apply rmatch_sound in H.
  destruct H as (w & rest & caps' & -> & M & H). injection H as <-.
  now exists w, rest.
Qed.

Lemma re_match_complete fl r w rest caps :
  matches fl r None w rest [] caps -> re_match fl r (w ++ rest) <> None.
Proof.
  intros M H. unfold re_match in H.
  eapply rmatch_complete in H; eauto. discriminate.
Qed.

Lemma search_from_sound fl r :
  forall s prev caps,
    search_from fl r s prev = Some caps ->
    exists pre w post,
      s = pre ++ w ++ post /\ matches fl r (last_char prev pre) w post [] caps.
Proof.
  induction s as [|c s IH]; intros prev caps H; simpl in H.
  - destruct (rmatch fl captures r "" prev [] (fun _ _ c => Some c)) eqn:E;
      [|discriminate].
    injection H as ->. apply rmatch_sound in E.
    destruct E as (w & rest & caps' & Hs & M & E). injection E as <-.
    exists "", w, rest. auto.
  - destruct (rmatch fl captures r (String c s) prev [] (fun _ _ c => Some c))
      eqn:E.
    + injection H as ->. apply rmatch_sound in E.
      destruct E as (w & rest & caps' & Hs & M & E). injection E as <-.
      exists "", w, rest. auto.
    + apply IH in H. destruct H as (pre & w & post & -> & M).
      exists (String c pre), w, post. auto.
Qed.


(** [pattern.search] answers with the groups of an occurrence of the pattern,
    and with [None] exactly when the pattern does not occur. *)
Lemma re_search_sound fl r s caps :
  re_search fl r s = Some caps -> occurs fl r s caps.
Proof. apply search_from_sound. Qed.


(** ** Literal words and sequences *)

Lemma rseq_cons (r r' : regex) (rs : list regex) :
  rseq (r :: r' :: rs) = RSeq r (rseq (r' :: rs)).
Proof. reflexivity. Qed.

Lemma rlit_cons (c c' : ascii) (s : string) :
  rlit (String c (String c' s)) = RSeq (RAtom (AChar c)) (rlit (String c' s)).
Proof. reflexivity. Qed.

Lemma atom_char_matches fl c x :
  atom_matches fl (AChar c) x = true <->
  same_word fl (String c "") (String x "").
Proof.
  unfold same_word, atom_matches, lower.
  destruct (IGNORECASE fl); cbn [smap]; rewrite Ascii.eqb_eq;
    (split; intros H; [now rewrite H | now injection H]).
Qed.

Lemma same_word_cons fl c lit x w :
  same_word fl (String c lit) (String x w) <->
  same_word fl (String c "") (String x "") /\ same_word fl lit w.
Proof.
  unfold same_word, lower. destruct (IGNORECASE fl); cbn [smap].
  - split.
    + intros H. injection H as H1 H2. rewrite H1, H2. auto.
    + intros [H1 H2]. injection H1 as H1. rewrite H1, H2. reflexivity.
  - split.
    + intros H. injection H as -> ->. auto.
    + intros [H1 ->]. injection H1 as ->. reflexivity.
Qed.

Lemma same_word_nil fl w : same_word fl "" w <-> w = "".
Proof.
  unfold same_word, lower. destruct (IGNORECASE fl); [|tauto].
  destruct w; cbn [smap]; split; intros H; try discriminate; reflexivity.
Qed.

Lemma matches_rlit fl lit :
  forall prev w rest caps caps',
    matches fl (rlit lit) prev w rest caps caps' <->
    caps' = caps /\ same_word fl lit w.
Proof.
  induction lit as [|c lit IH]; intros prev w rest caps caps'.
  - simpl. rewrite same_word_nil. split.
    + intros M. inversion M; subst. auto.
    + intros [-> ->]. constructor.
  - destruct lit as [|c' lit].
    + simpl. split.
      * intros M. inversion M; subst. split; [reflexivity|].
        now apply atom_char_matches.
      * intros [-> H]. destruct w as [|x w].
        { unfold same_word in H. destruct (IGNORECASE fl); discriminate. }
        apply same_word_cons in H. destruct H as [H1 H2].
        apply same_word_nil in H2. subst w.
        constructor. now apply atom_char_matches.
    + rewrite rlit_cons. split.
      * intros M. inversion M as [| |? ? ? w1 w2 ? ? caps1 ? M1 M2| | | | | | |];
          subst.
        inversion M1; subst. apply IH in M2. destruct M2 as [-> H2].
        split; [reflexivity|]. simpl. apply same_word_cons. split; auto.
        now apply atom_char_matches.
      * intros [-> H]. destruct w as [|x w].
        { unfold same_word in H. destruct (IGNORECASE fl); discriminate. }
        apply same_word_cons in H. destruct H as [H1 H2].
        change (String x w) with (String x "" ++ w).
        econstructor.
        -- constructor. now apply atom_char_matches.
        -- apply IH. auto.
Qed.

Lemma rseq_one (r : regex) : rseq [r] = r.
Proof. reflexivity. Qed.


Lemma length_zero_iff (s : string) : String.length s = 0%nat <-> s = "".
Proof. destruct s; simpl; split; intros H; try discriminate; reflexivity. Qed.

Lemma length_pos_iff (s : string) : (1 <= String.length s)%nat <-> s <> "".
Proof.
  destruct s; simpl; split; intros H; try lia; try congruence.
Qed.

(** Inversion of [matches], one lemma per construct. *)
Lemma matches_seq fl r1 r2 prev w rest caps caps' :
  matches fl (RSeq r1 r2) prev w rest caps caps' <->
  exists w1 w2 caps1,
    w = w1 ++ w2
    /\ matches fl r1 prev w1 (w2 ++ rest) caps caps1
    /\ matches fl r2 (last_char prev w1) w2 rest caps1 caps'.
Proof.
  split.
  - intros M. inversion M; subst. eauto 8.
  - intros (w1 & w2 & caps1 & -> & M1 & M2). econstructor; eauto.
Qed.

Lemma matches_atom fl a prev w rest caps caps' :
  matches fl (RAtom a) prev w rest caps caps' <->
  exists x, w = String x "" /\ caps' = caps /\ atom_matches fl a x = true.
Proof.
  split.
  - intros M. inversion M; subst. eauto.
  - intros (x & -> & -> & H). now constructor.
Qed.

Lemma matches_rep fl g min a prev w rest caps caps' :
  matches fl (RRep g min a) prev w rest caps caps' <->
  caps' = caps /\ all_chars (atom_matches fl a) w = true
  /\ (min <= String.length w)%nat.
Proof.
  split.
  - intros M. inversion M; subst. auto.
  - intros (-> & H1 & H2). now constructor.
Qed.

Lemma matches_group fl n r prev w rest caps caps' :
  matches fl (RGroup n r) prev w rest caps caps' <->
  exists caps1, caps' = (n, w) :: caps1 /\ matches fl r prev w rest caps caps1.
Proof.
  split.
  - intros M. inversion M; subst. eauto.
  - intros (caps1 & -> & M). now constructor.
Qed.



Lemma matches_opt fl r prev w rest caps caps' :
  matches fl (ROpt r) prev w rest caps caps' <->
  matches fl r prev w rest caps caps' \/ (w = "" /\ caps' = caps).
Proof.
  split.
  - intros M. inversion M; subst; auto.
  - intros [M | [-> ->]]; [now apply M_opt_some | apply M_opt_none].
Qed.

(** ** The memory-limit pattern *)

Module MemoryLimit.

Import CodeChef.





End MemoryLimit.




(** ** Generation discovery *)








Lemma range1_spec (n i : Z) : In i (range1 n) <-> (1 <= i <= n)%Z.
Proof.
  unfold range1. rewrite in_map_iff. split.
  - intros (k & <- & Hk). apply in_seq in Hk. lia.
  - intros Hi. exists (Z.to_nat i). split; [lia|]. apply in_seq. lia.
Qed.





Section GenerationDiscovery.

Variable client_get_json : string -> result json.
Variable as_completed : forall A : Type, list A -> list A.
Variable py_repr : json -> string.


End GenerationDiscovery.


(** ** Faults at the adapter boundary *)

(** C1, the code at failing inputs.  A fault of the page fetch leaves
    [CodeforcesScraper.stream_tests_for_category_async] as the exception it
    is, and so does a fault of the parse (here a block holder without its
    [problemindex] attribute); a timeout of the catalog fetch, which is not
    an [HTTPStatusError], leaves [CodeChefScraper.scrape_contest_list]. *)
Theorem C1_faults_cross_the_boundary :
  (forall BeautifulSoup e category_id,
      Codeforces.stream_tests_for_category_async BeautifulSoup
        (fun _ => Raise e) category_id
      = Raise e)
  /\ Codeforces.stream_tests_for_category_async
       (fun _ => Sample.page_without_index) (fun _ => Ok "") "1550"
     = Raise (Exn AttributeError "'NoneType' object has no attribute 'strip'")
  /\ (forall as_completed py_repr msg,
         CodeChef.scrape_contest_list
           (fun _ => Raise (Exn TimeoutException msg)) as_completed py_repr
         = Raise (Exn TimeoutException msg)).
Proof.
  split; [|split].
  - reflexivity.
  - vm_compute. reflexivity.
  - reflexivity.
Qed.

(** The sibling operations do catch: the Codeforces metadata and listing
    operations always return an envelope. *)
Lemma codeforces_metadata_returns BeautifulSoup curl_get contest_id :
  exists r,
    Codeforces.scrape_contest_metadata BeautifulSoup curl_get contest_id = Ok r.
Proof.
  unfold Codeforces.scrape_contest_metadata.
  destruct (Codeforces._scrape_contest_problems_sync _ _ _) as [[|p ps]|e];
    eauto.
Qed.

Lemma codeforces_contest_list_returns requests_get_json py_repr :
  exists r, Codeforces.scrape_contest_list requests_get_json py_repr = Ok r.
Proof.
  unfold Codeforces.scrape_contest_list.
  match goal with |- exists r, match ?b with _ => _ end = _ => destruct b end;
    eauto.
Qed.

Lemma codechef_metadata_returns client_get_json contest_id :
  exists r, CodeChef.scrape_contest_metadata client_get_json contest_id = Ok r.
Proof.
  unfold CodeChef.scrape_contest_metadata.
  match goal with |- exists r, match ?b with _ => _ end = _ => destruct b end;
    eauto.
Qed.

(** ** The states of a metadata result *)

(** C2, the code at a failing input.  For a contest that declares problems
    none of which is in the main category,
    [CodeChefScraper.scrape_contest_metadata] returns success with an empty
    list of problems; the test stream, on the same contest, reports that no
    main problem was found. *)
Theorem C2_success_with_no_problems :
  CodeChef.scrape_contest_metadata (fun _ => Ok Sample.practice_only) "START1D"
  = Ok (MetadataResult.mk true "" "START1D" []
          "https://www.codechef.com/START1D")
  /\ (forall curl_get as_completed,
         CodeChef.stream_tests_for_category_async
           (fun _ => Ok Sample.practice_only) curl_get as_completed "START1D"
         = Ok [ErrorLine "No main problems found for contest START1D"]).
Proof. split; [vm_compute; reflexivity | reflexivity]. Qed.

(** The Codeforces operation keeps the two states apart. *)
Lemma codeforces_metadata_states BeautifulSoup curl_get contest_id r :
  Codeforces.scrape_contest_metadata BeautifulSoup curl_get contest_id = Ok r ->
  (MetadataResult.success r = true
   /\ MetadataResult.problems r <> []
   /\ MetadataResult.url r <> "")
  \/ (MetadataResult.success r = false /\ MetadataResult.problems r = []).
Proof.
  unfold Codeforces.scrape_contest_metadata.
  destruct (Codeforces._scrape_contest_problems_sync _ _ _) as [[|p ps]|e];
    intros H; injection H as <-; simpl.
  - right. auto.
  - left. repeat split; discriminate.
  - right. auto.
Qed.

(** ** The Codeforces contest list *)

Section ContestList.

Variable requests_get_json : string -> result json.
Variable py_repr : json -> string.

Lemma contest_entry_skipped c :
  is_object c -> finished c = false ->
  Codeforces.contest_entry py_repr c = Ok None.
Proof.
  intros (fields & ->) Hf. unfold Codeforces.contest_entry. simpl in *.
  destruct (dict_get fields "phase") as [phase|]; simpl.
  - now rewrite Hf.
  - reflexivity.
Qed.

Lemma contest_entry_listed c summary :
  finished c = true -> listed_as py_repr c summary ->
  Codeforces.contest_entry py_repr c = Ok (Some summary).
Proof.
  intros Hf (fields & id & name & -> & Hid & Hname & ->).
  unfold Codeforces.contest_entry. simpl in *.
  destruct (dict_get fields "phase") as [phase|]; [|discriminate].
  simpl. rewrite Hf, Hid, Hname. reflexivity.
Qed.

Lemma collect_contest_entries entries :
  Forall is_object entries ->
  forall summaries,
    Forall2 (listed_as py_repr) (filter finished entries) summaries ->
    collect (Codeforces.contest_entry py_repr) entries = Ok summaries.
Proof.
  induction 1 as [|c entries Hc _ IH]; intros summaries H2; simpl in *.
  - inversion H2. reflexivity.
  - destruct (finished c) eqn:Hf.
    + inversion H2 as [|? summary ? rest Hl H2']; subst.
      rewrite (contest_entry_listed c summary Hf Hl). simpl.
      now rewrite (IH rest H2').
    + rewrite (contest_entry_skipped c Hc Hf). simpl.
      now rewrite (IH summaries H2).
Qed.

(** C10.  Of the catalog the judge returns, [scrape_contest_list] lists
    the entries whose phase is FINISHED and no other, in catalog order,
    each with its id as text and its name as both name and display name;
    when no entry is finished it returns a failure envelope, not an empty
    successful list. *)
Theorem C10_finished_contests_only
    (data : json) (entries : list json) (summaries : list ContestSummary.t) :
  requests_get_json Codeforces.API_CONTEST_LIST_URL = Ok data ->
  py_get data "status" JNull = Ok (JStr "OK") ->
  py_getitem data "result" = Ok (JArr entries) ->
  Forall is_object entries ->
  Forall2 (listed_as py_repr) (filter finished entries) summaries ->
  Codeforces.scrape_contest_list requests_get_json py_repr
  = Ok (match summaries with
        | [] => _contests_error "No contests found"
        | _ => ContestListResult.mk true "" summaries
        end)
  /\ (filter finished entries = [] ->
      Codeforces.scrape_contest_list requests_get_json py_repr
      = Ok (ContestListResult.mk false "No contests found" [])).
Proof.
  intros Hget Hstatus Hresult Hobj Hsum.
  assert (E : Codeforces.scrape_contest_list requests_get_json py_repr
              = Ok (match summaries with
                    | [] => _contests_error "No contests found"
                    | _ => ContestListResult.mk true "" summaries
                    end)).
  { unfold Codeforces.scrape_contest_list.
    rewrite Hget. simpl. rewrite Hstatus. simpl. rewrite Hresult. simpl.
    rewrite (collect_contest_entries entries Hobj summaries Hsum). simpl.
    destruct summaries; reflexivity. }
  split; [exact E|].
  intros Hnone. rewrite E. rewrite Hnone in Hsum. inversion Hsum.
  reflexivity.
Qed.

End ContestList.

Lemma C10_finished_contests_only_witness :
  Codeforces.scrape_contest_list (fun _ => Ok Sample.contest_list)
    Sample.no_repr
  = Ok (ContestListResult.mk true ""
          [ContestSummary.mk "1550" "Educational Round" "Educational Round";
           ContestSummary.mk "1000" "Round 1000" "Round 1000"]).
Proof.
  refine (proj1 (C10_finished_contests_only (fun _ => Ok Sample.contest_list)
                   Sample.no_repr Sample.contest_list _
                   [ContestSummary.mk "1550" "Educational Round"
                      "Educational Round";
                    ContestSummary.mk "1000" "Round 1000" "Round 1000"]
                   eq_refl eq_refl eq_refl _ _)).
  - repeat constructor; eexists; reflexivity.
  - simpl. repeat constructor;
      do 3 eexists; (repeat split; reflexivity).
Defined.

(** ** Combination of the samples of a block *)

Lemma prefix_append (p s : string) : String.prefix p (p ++ s) = true.
Proof.
  induction p as [|c p IH]; simpl.
  - destruct s; reflexivity.
  - destruct (ascii_dec c c); [exact IH | congruence].
Qed.

Lemma extract_samples_grouped (b : node) (raw : list TestCase.t) :
  Codeforces._extract_samples b = (raw, true) -> raw <> [].
Proof.
  unfold Codeforces._extract_samples.
  destruct (find "div" "sample-test" b) as [st|]; [|discriminate].
  cbv zeta.
  destruct (existsb _ (_ ++ _)); [destruct (sorted _) as [|k0 ks]|];
    try discriminate.
  simpl. intros H. injection H as <-. discriminate.
Qed.

(** C6.  For a block whose samples were extracted as grouped, with the cases
    [raw] (at least one): [combined.input] is the case count in decimal, a
    newline, and the newline-join of the case inputs; [combined.expected] is
    the newline-join of the case outputs; each emitted test is the case with
    "1" and a newline put before its input.  So when [multi_test] is true
    every replay input begins with the one-case count line and the combined
    input with the count of the group.  When the samples were not extracted
    as grouped, the combined texts are the plain newline-joins and the tests
    are the cases themselves. *)
Theorem C6_combination (b : node) (parents : list node)
    (blk : Codeforces.Block.t) :
  Codeforces.parse_block b parents = Ok (Some blk) ->
  let raw := fst (Codeforces._extract_samples b) in
  let is_grouped := snd (Codeforces._extract_samples b) in
  Codeforces.Block.multi_test blk = is_grouped
  /\ Codeforces.Block.combined_expected blk
     = join nl (map TestCase.expected raw)
  /\ (is_grouped = true ->
      raw <> []
      /\ Codeforces.Block.combined_input blk
         = str_of_nat (List.length raw) ++ nl
           ++ join nl (map TestCase.input raw)
      /\ Codeforces.Block.tests blk
         = map (fun tc => TestCase.mk ("1" ++ nl ++ TestCase.input tc)
                                      (TestCase.expected tc)) raw
      /\ Forall (fun t => startswith (TestCase.input t) ("1" ++ nl) = true)
           (Codeforces.Block.tests blk)
      /\ startswith (Codeforces.Block.combined_input blk)
           (str_of_nat (List.length (Codeforces.Block.tests blk)) ++ nl) = true)
  /\ (is_grouped = false ->
      Codeforces.Block.combined_input blk = join nl (map TestCase.input raw)
      /\ Codeforces.Block.tests blk = raw).
Proof.
  unfold Codeforces.parse_block. intros H.
  destruct (match find_parent "div" "problemindexholder" parents with
            | Some h => _
            | None => _
            end) as [index|e]; [|discriminate].
  simpl in H.
  destruct (is_empty (upper (strip index))); [discriminate|].
  destruct (Codeforces._extract_samples b) as [raw g] eqn:E.
  destruct (Codeforces._extract_limits b) as [[timeout_ms memory_mb]|e];
    [|discriminate].
  simpl in H. injection H as <-. simpl.
  split; [reflexivity|]. split; [reflexivity|]. split.
  - intros ->. pose proof (extract_samples_grouped b raw E) as Hne.
    destruct raw as [|tc raw]; [congruence|]. simpl andb. cbv iota.
    split; [discriminate|]. split; [reflexivity|]. split; [reflexivity|].
    split.
    + apply Forall_forall. intros t Ht. apply in_map_iff in Ht.
      destruct Ht as (tc' & <- & _). cbn [TestCase.input].
      exact (prefix_append ("1" ++ nl) (TestCase.input tc')).
    + unfold startswith. rewrite length_map.
      change (String (chr 10) ?x) with (nl ++ x).
      rewrite <- append_assoc. apply prefix_append.
  - intros ->. simpl. auto.
Qed.

Lemma C6_combination_witness :
  Codeforces.Block.multi_test
    (Codeforces.Block.mk "B" "Pairs" ("1" ++ nl ++ "4" ++ nl ++ "5 6") "11"
       [TestCase.mk ("1" ++ nl ++ "4" ++ nl ++ "5 6") "11"]
       0%Z (S754_zero false) false true)
  = snd (Codeforces._extract_samples Sample.grouped_block).
Proof.
  refine (proj1 (C6_combination Sample.grouped_block
                   [Sample.holder "B" Sample.grouped_block] _ _)).
  vm_compute. reflexivity.
Defined.

(** ** Dictionaries of lines keyed by group id *)

Lemma zdict_at_extend d k v k' :
  zdict_at (setdefault_extend d k v) k'
  = if (k' =? k)%Z then (zdict_at d k ++ v)%list else zdict_at d k'.
Proof.
  unfold zdict_at. induction d as [|[k0 v0] d IH]; simpl.
  - rewrite (Z.eqb_sym k k'). destruct (k' =? k)%Z; reflexivity.
  - destruct (k0 =? k)%Z eqn:E0; simpl.
    + apply Z.eqb_eq in E0. subst k0.
      rewrite ?Z.eqb_refl, (Z.eqb_sym k k').
      destruct (k' =? k)%Z; reflexivity.
    + destruct (k0 =? k')%Z eqn:E1.
      * apply Z.eqb_eq in E1. subst k0. rewrite E0. reflexivity.
      * exact IH.
Qed.

Lemma keys_extend d k v x :
  In x (map fst (setdefault_extend d k v)) <-> In x (map fst d) \/ x = k.
Proof.
  induction d as [|[k0 v0] d IH]; simpl.
  - intuition.
  - destruct (k0 =? k)%Z eqn:E0; simpl.
    + apply Z.eqb_eq in E0. subst k0. intuition.
    + rewrite IH. intuition.
Qed.

Lemma NoDup_keys_extend d k v :
  NoDup (map fst d) -> NoDup (map fst (setdefault_extend d k v)).
Proof.
  induction d as [|[k0 v0] d IH]; simpl; intros H.
  - constructor; [intros [] | constructor].
  - inversion H as [|? ? Hn Hd]; subst.
    destruct (k0 =? k)%Z eqn:E0; simpl.
    + constructor; assumption.
    + constructor; [|now apply IH].
      rewrite keys_extend. intros [Hin | ->]; [contradiction|].
      rewrite Z.eqb_refl in E0. discriminate.
Qed.

Lemma zdict_at_absent (d : list (Z * list string)) k :
  ~ In k (map fst d) -> zdict_at d k = [].
Proof.
  unfold zdict_at. induction d as [|[k0 v0] d IH]; simpl; intros H.
  - reflexivity.
  - destruct (k0 =? k)%Z eqn:E.
    + apply Z.eqb_eq in E. tauto.
    + apply IH. tauto.
Qed.

Lemma group_lines_fold pre :
  Codeforces._group_lines_by_id pre = fold_left add_line (line_markers pre) [].
Proof.
  unfold Codeforces._group_lines_by_id, line_markers.
  generalize (@nil (Z * list string)).
  induction (find_all "div" "test-example-line" pre) as [|d ds IH];
    intros acc; simpl; [reflexivity|].
  rewrite IH. f_equal. unfold add_line, line_gid.
  destruct (re_search no_flags Codeforces.LINE_RE (join " " (node_class d)));
    reflexivity.
Qed.

Lemma add_lines_at divs :
  forall acc k,
    zdict_at (fold_left add_line divs acc) k
    = (zdict_at acc k
       ++ map (get_text "" false) (filter (has_gid k) divs))%list.
Proof.
  induction divs as [|d divs IH]; intros acc k; simpl.
  - now rewrite app_nil_r.
  - rewrite IH. unfold add_line, has_gid.
    destruct (line_gid d) as [g|]; [|reflexivity].
    rewrite zdict_at_extend, (Z.eqb_sym k g).
    destruct (g =? k)%Z eqn:E; [|reflexivity].
    apply Z.eqb_eq in E. subst g. simpl. now rewrite <- app_assoc.
Qed.

Lemma add_lines_keys divs :
  forall acc k,
    In k (map fst (fold_left add_line divs acc))
    <-> In k (map fst acc) \/ exists d, In d divs /\ line_gid d = Some k.
Proof.
  induction divs as [|d divs IH]; intros acc k; simpl.
  - split; [auto | intros [H | (d & [] & _)]; exact H].
  - rewrite IH. unfold add_line at 1.
    destruct (line_gid d) as [g|] eqn:Eg.
    + rewrite keys_extend. split.
      * intros [[H | ->] | (d' & Hd & Hg)]; eauto 6.
      * intros [H | (d' & [<- | Hd] & Hg)]; eauto 6.
        rewrite Eg in Hg. injection Hg as ->. auto.
    + split.
      * intros [H | (d' & Hd & Hg)]; eauto 6.
      * intros [H | (d' & [<- | Hd] & Hg)]; eauto 6. congruence.
Qed.

Lemma add_lines_NoDup divs :
  forall acc, NoDup (map fst acc) -> NoDup (map fst (fold_left add_line divs acc)).
Proof.
  induction divs as [|d divs IH]; intros acc H; simpl; [exact H|].
  apply IH. unfold add_line. destruct (line_gid d); [|exact H].
  now apply NoDup_keys_extend.
Qed.

Lemma zdict_at_cons (k0 : Z) (v0 : list string) g k :
  zdict_at ((k0, v0) :: g) k = if (k0 =? k)%Z then v0 else zdict_at g k.
Proof. unfold zdict_at. simpl. destruct (k0 =? k)%Z; reflexivity. Qed.

Lemma merge_groups_at g :
  NoDup (map fst g) ->
  forall acc k,
    zdict_at (fold_left (fun acc kv => setdefault_extend acc (fst kv) (snd kv))
                g acc) k
    = (zdict_at acc k ++ zdict_at g k)%list.
Proof.
  induction g as [|[k0 v0] g IH]; intros Hnd acc k; simpl.
  - now rewrite app_nil_r.
  - inversion Hnd as [|? ? Hn Hd]; subst.
    rewrite (IH Hd), zdict_at_extend.
    rewrite zdict_at_cons, (Z.eqb_sym k0 k).
    destruct (k =? k0)%Z eqn:E.
    + apply Z.eqb_eq in E. subst k0.
      rewrite (zdict_at_absent g k Hn), app_nil_r. reflexivity.
    + reflexivity.
Qed.

Lemma merge_groups_keys g :
  forall acc k,
    In k (map fst (fold_left
                     (fun acc kv => setdefault_extend acc (fst kv) (snd kv))
                     g acc))
    <-> In k (map fst acc) \/ In k (map fst g).
Proof.
  induction g as [|[k0 v0] g IH]; intros acc k; simpl.
  - tauto.
  - rewrite IH, keys_extend. intuition.
Qed.

Lemma merge_groups_NoDup g :
  forall acc,
    NoDup (map fst acc) ->
    NoDup (map fst (fold_left
                      (fun acc kv => setdefault_extend acc (fst kv) (snd kv))
                      g acc)).
Proof.
  induction g as [|[k0 v0] g IH]; intros acc H; simpl; [exact H|].
  apply IH. now apply NoDup_keys_extend.
Qed.

Lemma group_lines_at pre k :
  zdict_at (Codeforces._group_lines_by_id pre) k
  = map (get_text "" false) (filter (has_gid k) (line_markers pre)).
Proof. rewrite group_lines_fold, add_lines_at. reflexivity. Qed.

Lemma group_lines_keys pre k :
  In k (map fst (Codeforces._group_lines_by_id pre))
  <-> exists d, In d (line_markers pre) /\ line_gid d = Some k.
Proof.
  rewrite group_lines_fold, add_lines_keys. simpl. tauto.
Qed.

Lemma group_lines_NoDup pre :
  NoDup (map fst (Codeforces._group_lines_by_id pre)).
Proof. rewrite group_lines_fold. apply add_lines_NoDup. constructor. Qed.

(** The accumulation over all the elements of one side. *)
Lemma group_fold_at pres :
  forall acc k,
    zdict_at
      (fold_left
         (fun by_gid p =>
            fold_left (fun acc kv => setdefault_extend acc (fst kv) (snd kv))
              (Codeforces._group_lines_by_id p) by_gid) pres acc) k
    = (zdict_at acc k ++ lines_of k pres)%list.
Proof.
  induction pres as [|p pres IH]; intros acc k; simpl.
  - now rewrite app_nil_r.
  - rewrite IH, merge_groups_at by apply group_lines_NoDup.
    rewrite group_lines_at, <- app_assoc. reflexivity.
Qed.

Lemma group_fold_keys pres :
  forall acc k,
    In k (map fst
            (fold_left
               (fun by_gid p =>
                  fold_left
                    (fun acc kv => setdefault_extend acc (fst kv) (snd kv))
                    (Codeforces._group_lines_by_id p) by_gid) pres acc))
    <-> In k (map fst acc) \/ In k (gids_of pres).
Proof.
  induction pres as [|p pres IH]; intros acc k; simpl.
  - tauto.
  - rewrite IH, merge_groups_keys, group_lines_keys, in_app_iff.
    assert (E : (exists d, In d (line_markers p) /\ line_gid d = Some k)
                <-> In k (flat_map (fun d => match line_gid d with
                                             | Some g => [g]
                                             | None => []
                                             end) (line_markers p))).
    { rewrite in_flat_map. split; intros (d & Hd & Hg); exists d; split; auto.
      - rewrite Hg. now left.
      - destruct (line_gid d) as [g|]; [|contradiction].
        destruct Hg as [-> | []]. reflexivity. }
    rewrite E. tauto.
Qed.

Lemma group_fold_NoDup pres :
  forall acc,
    NoDup (map fst acc) ->
    NoDup (map fst
             (fold_left
                (fun by_gid p =>
                   fold_left
                     (fun acc kv => setdefault_extend acc (fst kv) (snd kv))
                     (Codeforces._group_lines_by_id p) by_gid) pres acc)).
Proof.
  induction pres as [|p pres IH]; intros acc H; simpl; [exact H|].
  apply IH. now apply merge_groups_NoDup.
Qed.

Lemma group_all_at pres k :
  zdict_at (Codeforces.group_all pres) k = lines_of k pres.
Proof. unfold Codeforces.group_all. now rewrite group_fold_at. Qed.

Lemma group_all_keys pres k :
  In k (map fst (Codeforces.group_all pres)) <-> In k (gids_of pres).
Proof. unfold Codeforces.group_all. rewrite group_fold_keys. simpl. tauto. Qed.

Lemma group_all_NoDup pres : NoDup (map fst (Codeforces.group_all pres)).
Proof. unfold Codeforces.group_all. apply group_fold_NoDup. constructor. Qed.

(** [d.pop(0, None)] *)
Lemma zdict_pop_keys (d : list (Z * list string)) k0 k :
  In k (map fst (zdict_pop d k0)) <-> k <> k0 /\ In k (map fst d).
Proof.
  unfold zdict_pop. induction d as [|[k1 v1] d IH]; simpl.
  - tauto.
  - destruct (k1 =? k0)%Z eqn:E; simpl.
    + apply Z.eqb_eq in E. subst k1. rewrite IH. intuition congruence.
    + apply Z.eqb_neq in E. rewrite IH. intuition congruence.
Qed.

Lemma zdict_pop_at (d : list (Z * list string)) k0 k :
  k <> k0 -> zdict_at (zdict_pop d k0) k = zdict_at d k.
Proof.
  intros Hk. unfold zdict_at, zdict_pop.
  induction d as [|[k1 v1] d IH]; simpl; [reflexivity|].
  destruct (k1 =? k0)%Z eqn:E; simpl.
  - apply Z.eqb_eq in E. subst k1.
    destruct (k0 =? k)%Z eqn:E'; [apply Z.eqb_eq in E'; congruence | exact IH].
  - destruct (k1 =? k)%Z; [reflexivity | exact IH].
Qed.

(** [sorted] *)
Lemma insert_sorted_In x l y : In y (insert_sorted x l) <-> y = x \/ In y l.
Proof.
  induction l as [|z l IH]; simpl.
  - intuition.
  - destruct (x <=? z)%Z; simpl; [intuition | rewrite IH; intuition].
Qed.

Lemma sorted_In l y : In y (sorted l) <-> In y l.
Proof.
  unfold sorted. induction l as [|x l IH]; simpl; [tauto|].
  rewrite insert_sorted_In, IH. intuition.
Qed.

Lemma insert_sorted_strongly x l :
  StronglySorted Z.lt l -> ~ In x l -> StronglySorted Z.lt (insert_sorted x l).
Proof.
  induction 1 as [|z l Hs IH Hall]; intros Hx; simpl.
  - constructor; constructor.
  - destruct (x <=? z)%Z eqn:E.
    + apply Z.leb_le in E.
      assert (x < z)%Z by (simpl in Hx; lia).
      constructor; [now constructor|].
      constructor; [assumption|].
      eapply Forall_impl; [|exact Hall]. simpl. intros; lia.
    + apply Z.leb_gt in E. constructor.
      * apply IH. simpl in Hx. tauto.
      * apply Forall_forall. intros y Hy. apply insert_sorted_In in Hy.
        destruct Hy as [-> | Hy]; [assumption|].
        rewrite Forall_forall in Hall. now apply Hall.
Qed.

Lemma sorted_strongly l : NoDup l -> StronglySorted Z.lt (sorted l).
Proof.
  unfold sorted. induction 1 as [|x l Hn Hd IH]; simpl.
  - constructor.
  - apply insert_sorted_strongly; [exact IH|].
    fold (sorted l). now rewrite sorted_In.
Qed.

(** ** Extraction of grouped samples *)

Lemma in_keys_true d k : Codeforces.in_keys d k = true <-> In k (map fst d).
Proof.
  unfold Codeforces.in_keys. rewrite existsb_exists. split.
  - intros (x & Hx & E). apply Z.eqb_eq in E. now subst.
  - intros H. exists k. split; [exact H | apply Z.eqb_refl].
Qed.

Lemma gids_of_marker pres k :
  In k (gids_of pres) ->
  exists p d, In p pres /\ In d (line_markers p) /\ line_gid d = Some k.
Proof.
  unfold gids_of. rewrite in_flat_map. intros (p & Hp & H).
  rewrite in_flat_map in H. destruct H as (d & Hd & H).
  exists p, d. repeat split; auto.
  destruct (line_gid d) as [g|]; [|contradiction].
  destruct H as [-> | []]. reflexivity.
Qed.

Lemma marker_found p d :
  In d (line_markers p) ->
  match find "div" "test-example-line" p with
  | Some _ => true
  | None => false
  end = true.
Proof.
  unfold find, line_markers.
  destruct (find_all "div" "test-example-line" p); [intros [] | reflexivity].
Qed.


(** The ids [_extract_samples] builds its grouped cases from, for the input
    elements [ins] and the output elements [outs]. *)
Lemma grouped_keys (ins outs : list node) :
  let ins' := zdict_pop (Codeforces.group_all ins) 0 in
  let outs' := zdict_pop (Codeforces.group_all outs) 0 in
  let ks := sorted (nodup Z.eq_dec
                      (filter (Codeforces.in_keys outs') (map fst ins'))) in
  StronglySorted Z.lt ks
  /\ (forall k,
         In k ks <-> k <> 0%Z /\ In k (gids_of ins) /\ In k (gids_of outs))
  /\ map (fun k => TestCase.mk (strip (join nl (zdict_at ins' k)))
                               (strip (join nl (zdict_at outs' k)))) ks
     = map (fun gid => TestCase.mk (strip (join nl (lines_of gid ins)))
                                   (strip (join nl (lines_of gid outs)))) ks
  /\ (ks <> [] ->
      existsb (fun p => match find "div" "test-example-line" p with
                        | Some _ => true
                        | None => false
                        end) (ins ++ outs)%list = true).
Proof.
  intros ins' outs' ks.
  assert (Hin : forall k,
             In k ks <->
             k <> 0%Z /\ In k (gids_of ins) /\ In k (gids_of outs)).
  { intros k. unfold ks.
    rewrite sorted_In, nodup_In, filter_In, in_keys_true.
    unfold ins', outs'. rewrite !zdict_pop_keys, !group_all_keys. tauto. }
  split; [apply sorted_strongly, NoDup_nodup|].
  split; [exact Hin|]. split.
  - apply map_ext_in. intros k' Hk'.
    apply Hin in Hk'. destruct Hk' as (Hk0 & _ & _).
    unfold ins', outs'. rewrite !zdict_pop_at by assumption.
    now rewrite !group_all_at.
  - intros Hne. destruct ks as [|k ks'] eqn:Eks; [congruence|].
    destruct (proj1 (Hin k) (or_introl eq_refl)) as (_ & Hk & _).
    apply gids_of_marker in Hk. destruct Hk as (p & d & Hp & Hd & _).
    apply existsb_exists. exists p. split.
    + apply in_or_app. now left.
    + eapply marker_found; eauto.
Qed.


(** What a block that is not skipped was built from. *)
Lemma parse_block_some (b : node) (parents : list node)
    (blk : Codeforces.Block.t) :
  Codeforces.parse_block b parents = Ok (Some blk) ->
  Codeforces.Block.letter blk <> ""
  /\ Codeforces.Block.multi_test blk = snd (Codeforces._extract_samples b)
  /\ (exists index,
         Codeforces.Block.letter blk = upper (strip index)
         /\ match find_parent "div" "problemindexholder" parents with
            | Some h => node_get h "problemindex" = Some index
            | None => index = ""
            end).
Proof.
  unfold Codeforces.parse_block. intros H.
  destruct (find_parent "div" "problemindexholder" parents) as [h|].
  - destruct (node_get h "problemindex") as [index|]; [|discriminate].
    simpl in H.
    destruct (is_empty (upper (strip index))) eqn:Ee; [discriminate|].
    destruct (Codeforces._extract_samples b) as [raw g].
    destruct (Codeforces._extract_limits b) as [[t m]|e]; [|discriminate].
    simpl in H. injection H as <-. simpl.
    split; [intros E; rewrite E in Ee; discriminate|].
    split; [reflexivity|]. exists index. auto.
  - simpl in H. discriminate.
Qed.

Lemma extract_samples_flag (b : node) :
  snd (Codeforces._extract_samples b) = true <->
  exists k,
    k <> 0%Z
    /\ In k (gids_of (sample_pres "input" b))
    /\ In k (gids_of (sample_pres "output" b)).
Proof.
  unfold Codeforces._extract_samples, sample_pres.
  destruct (find "div" "sample-test" b) as [st|].
  2:{ simpl. split; [discriminate | intros (k & _ & [] & _)]. }
  destruct (grouped_keys (Codeforces.pres_of (find_all "div" "input" st))
              (Codeforces.pres_of (find_all "div" "output" st)))
    as (_ & Hin & _ & Hg).
  cbv zeta in *.
  match type of Hg with
  | ?l <> [] -> _ => set (ks := l) in *
  end.
  destruct ks as [|k ks'] eqn:Eks.
  - destruct (existsb _ _); simpl; (split; [discriminate|]);
      intros (k & Hk); apply Hin in Hk; contradiction.
  - rewrite Hg by discriminate. simpl. split; [|reflexivity].
    intros _. exists k. apply Hin. now left.
Qed.

(** ** The extraction round trip *)

(** C4, counterexample.  On the page with the ungrouped block A and the
    grouped block B a grouped sample exists, and the record of A still has
    [multi_test] false; on the page whose single block holds the ungrouped
    pair and the grouped sample together, a single case comes out. *)
Lemma C4_flag_and_cases_are_per_block :
  page_has_grouped_sample Sample.two_block_page = true
  /\ (exists a b,
         Codeforces.parse_soup Sample.two_block_page = Ok [a; b]
         /\ Codeforces.Block.multi_test a = false
         /\ Codeforces.Block.multi_test b = true)
  /\ page_has_grouped_sample Sample.mixed_page = true
  /\ (exists a,
         Codeforces.parse_soup Sample.mixed_page = Ok [a]
         /\ List.length (Codeforces.Block.tests a) = 1%nat).
Proof.
  split; [vm_compute; reflexivity|].
  split; [do 2 eexists; split; [vm_compute; reflexivity | split; reflexivity]|].
  split; [vm_compute; reflexivity|].
  eexists; split; [vm_compute; reflexivity | reflexivity].
Qed.

(** C4, as amended.  The page whose first block holds the ungrouped pair
    ("1 2" against "3") and whose second block holds a grouped sample, two
    input lines and one output line of group 1, yields two cases, one per
    block; the case extracted from the grouped block has the newline-join of
    the lines of its group as input and as expected (the emitted test puts
    "1" and a newline before the input).  For every block, [multi_test] is
    true if and only if that block itself holds a group id other than 0 both
    on a line marker of its input and on one of its output. *)
Theorem C4_extraction_round_trip :
  (exists a b,
      Codeforces.parse_soup Sample.two_block_page = Ok [a; b]
      /\ Codeforces.Block.tests a = [TestCase.mk "1 2" "3"]
      /\ Codeforces.Block.multi_test a = false
      /\ Codeforces._extract_samples Sample.grouped_block
         = ([TestCase.mk (join nl ["4"; "5 6"]) (join nl ["11"])], true)
      /\ Codeforces.Block.tests b
         = [TestCase.mk ("1" ++ nl ++ join nl ["4"; "5 6"]) (join nl ["11"])]
      /\ Codeforces.Block.multi_test b = true)
  /\ (forall b parents blk,
         Codeforces.parse_block b parents = Ok (Some blk) ->
         (Codeforces.Block.multi_test blk = true <->
          exists k,
            k <> 0%Z
            /\ In k (gids_of (sample_pres "input" b))
            /\ In k (gids_of (sample_pres "output" b)))).
Proof.
  split.
  - do 2 eexists. split; [vm_compute; reflexivity|].
    repeat split; vm_compute; reflexivity.
  - intros b parents blk H. apply parse_block_some in H.
    destruct H as (_ & -> & _). apply extract_samples_flag.
Qed.

Lemma C4_extraction_round_trip_witness :
  Codeforces.Block.multi_test
    (Codeforces.Block.mk "B" "Pairs" ("1" ++ nl ++ "4" ++ nl ++ "5 6") "11"
       [TestCase.mk ("1" ++ nl ++ "4" ++ nl ++ "5 6") "11"]
       0%Z (S754_zero false) false true) = true <->
  exists k,
    k <> 0%Z
    /\ In k (gids_of (sample_pres "input" Sample.grouped_block))
    /\ In k (gids_of (sample_pres "output" Sample.grouped_block)).
Proof.
  refine (proj2 C4_extraction_round_trip Sample.grouped_block
            [Sample.holder "B" Sample.grouped_block] _ _).
  vm_compute. reflexivity.
Defined.

(** ** The main problems of a CodeChef contest *)

Lemma keys_dict_set {V : Type} (d : list (string * V)) k v x :
  In x (keys (dict_set d k v)) <-> In x (keys d) \/ x = k.
Proof.
  unfold keys. induction d as [|[k0 v0] d IH]; simpl.
  - intuition.
  - destruct (String.eqb k0 k) eqn:E; simpl.
    + apply String.eqb_eq in E. subst k0. intuition.
    + rewrite IH. intuition.
Qed.

Lemma NoDup_dict_set {V : Type} (d : list (string * V)) k v :
  NoDup (keys d) -> NoDup (keys (dict_set d k v)).
Proof.
  induction d as [|[k0 v0] d IH]; simpl; intros H.
  - constructor; [intros [] | constructor].
  - inversion H as [|? ? Hn Hd]; subst.
    destruct (String.eqb k0 k) eqn:E; simpl.
    + constructor; assumption.
    + constructor; [|now apply IH].
      fold (keys (dict_set d k v)). rewrite keys_dict_set.
      intros [Hin | ->]; [contradiction|].
      rewrite String.eqb_refl in E. discriminate.
Qed.

Lemma main_codes_In items k :
  In k (main_codes items) <->
  exists data, In (k, data) items /\ is_main data = true.
Proof.
  unfold main_codes, keys. rewrite in_map_iff. split.
  - intros ([k' data] & <- & H). apply filter_In in H. simpl in *. eauto.
  - intros (data & Hin & Hm). exists (k, data). split; [reflexivity|].
    apply filter_In. auto.
Qed.

Lemma category_is_main data category :
  py_get data "category_name" JNull = Ok category ->
  eq_str category "main" = is_main data.
Proof.
  destruct data; simpl; try discriminate.
  intros H. injection H as <-.
  destruct (dict_get fields "category_name"); reflexivity.
Qed.

(** The dictionary the comprehension builds: its keys are distinct, and they
    are the codes of the main problems. *)
Lemma main_problems_keys items :
  forall acc problems,
    CodeChef.main_problems items acc = Ok problems ->
    NoDup (keys acc) ->
    NoDup (keys problems)
    /\ (forall k, In k (keys problems)
                  <-> In k (keys acc) \/ In k (main_codes items)).
Proof.
  induction items as [|[code data] items IH]; intros acc problems H Hnd;
    simpl in H.
  - injection H as <-. split; [exact Hnd|]. intros k. simpl. tauto.
  - destruct (py_get data "category_name" JNull) as [category|e] eqn:Ec;
      [|discriminate].
    simpl in H. rewrite (category_is_main _ _ Ec) in H.
    unfold main_codes. simpl filter.
    destruct (is_main data) eqn:Em.
    + apply IH in H; [|now apply NoDup_dict_set].
      destruct H as [H1 H2]. split; [exact H1|].
      intros k. rewrite H2, keys_dict_set. simpl. unfold main_codes.
      intuition.
    + apply IH in H; [|exact Hnd]. exact H.
Qed.

Lemma main_problems_returns items :
  Forall (fun kv => is_object (snd kv)) items ->
  forall acc, exists problems, CodeChef.main_problems items acc = Ok problems.
Proof.
  induction 1 as [|[code data] items (fields & Hd) _ IH]; intros acc; simpl.
  - eauto.
  - simpl in Hd. subst data. simpl.
    destruct (eq_str _ "main"); apply IH.
Qed.

Lemma NoDup_main_codes items : NoDup (keys items) -> NoDup (main_codes items).
Proof.
  unfold main_codes, keys.
  induction items as [|[k data] items IH]; simpl; intros H; [constructor|].
  inversion H as [|? ? Hn Hd]; subst.
  destruct (is_main data); simpl; [|now apply IH].
  constructor; [|now apply IH].
  intros Hin. apply Hn. apply in_map_iff in Hin.
  destruct Hin as (kv & E & Hf). apply filter_In in Hf.
  apply in_map_iff. exists kv. tauto.
Qed.

(** ** Failure isolation in the CodeChef stream *)

Section CodeChefStream.

Variable client_get_json : string -> result json.
Variable curl_get : string -> result string.
Variable as_completed : forall A : Type, list A -> list A.

Hypothesis as_completed_perm :
  forall (A : Type) (l : list A), Permutation (as_completed A l) l.

(** The record of a problem is made from the two fetches for that problem
    and from nothing else. *)
Lemma run_one_own_fetches client' curl' category_id q :
  client' (CodeChef.BASE_URL ++ CodeChef.API_PROBLEM category_id q)
  = client_get_json (CodeChef.BASE_URL ++ CodeChef.API_PROBLEM category_id q) ->
  curl' (CodeChef.PROBLEM_URL q) = curl_get (CodeChef.PROBLEM_URL q) ->
  CodeChef.run_one client' curl' category_id q
  = CodeChef.run_one client_get_json curl_get category_id q.
Proof.
  intros H1 H2.
  unfold CodeChef.run_one, CodeChef.run_one_try, CodeChef.fetch_json,
    CodeChef._fetch_html_sync.
  now rewrite H1, H2.
Qed.

Lemma run_one_fallback category_id p e :
  CodeChef.run_one_try client_get_json curl_get category_id p = Raise e ->
  CodeChef.run_one client_get_json curl_get category_id p = fallback p.
Proof. intros H. unfold CodeChef.run_one. now rewrite H. Qed.

Lemma run_one_id category_id p :
  Payload.problem_id (CodeChef.run_one client_get_json curl_get category_id p)
  = p.
Proof.
  unfold CodeChef.run_one.
  destruct (CodeChef.run_one_try _ _ _ _) as [[[[ts t] m] i]|e]; reflexivity.
Qed.

(** The stream of a contest whose [problems] map was read. *)
Lemma stream_of_problems category_id contest_data items problems :
  client_get_json (CodeChef.BASE_URL ++ CodeChef.API_CONTEST category_id)
  = Ok contest_data ->
  py_get contest_data "problems" (JObj []) = Ok (JObj items) ->
  CodeChef.main_problems items [] = Ok problems ->
  problems <> [] ->
  CodeChef.stream_tests_for_category_async client_get_json curl_get
    as_completed category_id
  = Ok (map RecordLine
          (as_completed _
             (map (CodeChef.run_one client_get_json curl_get category_id)
                (keys problems)))).
Proof.
  intros Hget Hp Hm Hne.
  unfold CodeChef.stream_tests_for_category_async, CodeChef.fetch_json.
  rewrite Hget, Hp. simpl.
  destruct items as [|item items].
  - simpl in Hm. injection Hm as <-. congruence.
  - cbn [negb]. cbv iota. change (py_items (JObj (item :: items)))
      with (Ok (A := list (string * json)) (item :: items)).
    cbn [bind]. rewrite Hm. cbn [bind].
    destruct problems; [congruence | reflexivity].
Qed.

(** C3.  When the fetch or the parse for one problem of the contest raises,
    at whatever point, the stream still carries the record of that problem,
    with exactly the fallback defaults; the stream has one record for each
    main problem of the contest, so none is dropped and it does not end
    early; and the record of a problem depends on the fetches for that
    problem only, so the siblings are not affected. *)
Theorem C3_failed_problem_falls_back
    (category_id : string) (contest_data : json)
    (items : list (string * json)) (p : string) (e : exn) :
  client_get_json (CodeChef.BASE_URL ++ CodeChef.API_CONTEST category_id)
  = Ok contest_data ->
  py_get contest_data "problems" (JObj []) = Ok (JObj items) ->
  Forall (fun kv => is_object (snd kv)) items ->
  NoDup (keys items) ->
  In p (main_codes items) ->
  CodeChef.run_one_try client_get_json curl_get category_id p = Raise e ->
  exists lines,
    CodeChef.stream_tests_for_category_async client_get_json curl_get
      as_completed category_id = Ok lines
    /\ CodeChef.run_one client_get_json curl_get category_id p
       = Payload.mk p "" "" [] 1000%Z f256 false false
    /\ In (RecordLine (Payload.mk p "" "" [] 1000%Z f256 false false)) lines
    /\ Permutation lines
         (map (fun q => RecordLine
                          (CodeChef.run_one client_get_json curl_get
                             category_id q))
            (main_codes items))
    /\ List.length lines = List.length (main_codes items)
    /\ (forall q client' curl',
           client' (CodeChef.BASE_URL ++ CodeChef.API_PROBLEM category_id q)
           = client_get_json
               (CodeChef.BASE_URL ++ CodeChef.API_PROBLEM category_id q) ->
           curl' (CodeChef.PROBLEM_URL q) = curl_get (CodeChef.PROBLEM_URL q) ->
           CodeChef.run_one client' curl' category_id q
           = CodeChef.run_one client_get_json curl_get category_id q).
Proof.
  intros Hget Hp Hobj Hnd Hin He.
  destruct (main_problems_returns items Hobj []) as (problems & Hm).
  destruct (main_problems_keys items [] problems Hm) as (Hndp & Hkeys);
    [constructor|].
  assert (Hperm : Permutation (keys problems) (main_codes items)).
  { apply NoDup_Permutation; [exact Hndp | now apply NoDup_main_codes|].
    intros k. rewrite Hkeys. simpl. tauto. }
  assert (Hne : problems <> []).
  { intros ->. apply Permutation_nil in Hperm. rewrite Hperm in Hin.
    contradiction. }
  set (run := CodeChef.run_one client_get_json curl_get category_id).
  assert (Hlines :
            Permutation
              (map RecordLine (as_completed _ (map run (keys problems))))
              (map (fun q => RecordLine (run q)) (main_codes items))).
  { rewrite <- (map_map run RecordLine).
    apply Permutation_map.
    etransitivity; [apply as_completed_perm|].
    now apply Permutation_map. }
  exists (map RecordLine (as_completed _ (map run (keys problems)))).
  split; [now apply (stream_of_problems _ contest_data items)|].
  pose proof (run_one_fallback category_id p e He) as Hf.
  unfold fallback in Hf. fold run in Hf.
  split; [exact Hf|].
  split.
  { eapply Permutation_in; [symmetry; exact Hlines|].
    apply in_map_iff. exists p. split; [now rewrite Hf | exact Hin]. }
  split; [exact Hlines|].
  split.
  { rewrite (Permutation_length Hlines). apply length_map. }
  intros q client' curl'. apply run_one_own_fetches.
Qed.

End CodeChefStream.

Lemma C3_failed_problem_falls_back_witness :
  exists lines,
    CodeChef.stream_tests_for_category_async Sample.stream_client
      Sample.no_page Sample.reversed "START1D" = Ok lines
    /\ In (RecordLine (Payload.mk "P1" "" "" [] 1000%Z f256 false false)) lines
    /\ List.length lines = 2%nat.
Proof.
  assert (Hperm : forall (A : Type) (l : list A),
             Permutation (Sample.reversed A l) l).
  { intros A l. symmetry. apply Permutation_rev. }
  destruct (C3_failed_problem_falls_back Sample.stream_client Sample.no_page
              Sample.reversed Hperm "START1D" Sample.three_problems
              [("P1", JObj [("category_name", JStr "main")]);
               ("P2", JObj [("category_name", JStr "main")]);
               ("P3", JObj [("category_name", JStr "practice")])]
              "P1" Sample.timed_out)
    as (lines & H1 & _ & H3 & _ & H5 & _).
  - reflexivity.
  - reflexivity.
  - repeat constructor; eexists; reflexivity.
  - repeat constructor; simpl; intuition discriminate.
  - simpl. now left.
  - reflexivity.
  - exists lines. auto.
Defined.

(** ** The problem ids of a stream *)

Lemma upper_lower_upper_char c :
  upper_char (lower_char (upper_char c)) = upper_char c.
Proof. destruct c as [[] [] [] [] [] [] [] []]; reflexivity. Qed.

Lemma upper_cons c s : upper (String c s) = upper (String c "") ++ upper s.
Proof. cbn [upper]. destruct (ord c =? 223)%nat; reflexivity. Qed.

Lemma upper_append a b : upper (a ++ b) = upper a ++ upper b.
Proof.
  induction a as [|c a IH]; [reflexivity|].
  change (String c a ++ b) with (String c (a ++ b)).
  rewrite (upper_cons c (a ++ b)), (upper_cons c a), IH.
  now rewrite append_assoc.
Qed.



Lemma upper_upper s : upper (upper s) = upper s.
Proof.
  induction s as [|c s IH]; [reflexivity|].
  rewrite upper_cons, upper_append, IH. f_equal.
  destruct c as [[] [] [] [] [] [] [] []]; reflexivity.
Qed.

Lemma lower_nonempty s : s <> "" -> lower s <> "".
Proof. destruct s; [congruence | discriminate]. Qed.

Lemma parse_block_letter b parents ob :
  Codeforces.parse_block b parents = Ok ob ->
  match ob with
  | Some blk =>
      Codeforces.Block.letter blk = index_letter parents
      /\ index_letter parents <> ""
      /\ upper (index_letter parents) = index_letter parents
  | None => index_letter parents = ""
  end.
Proof.
  unfold Codeforces.parse_block, index_letter.
  destruct (find_parent "div" "problemindexholder" parents) as [h|].
  - destruct (node_get h "problemindex") as [index|]; [|discriminate].
    simpl.
    destruct (is_empty (upper (strip index))) eqn:Ee.
    + intros H. injection H as <-.
      destruct (upper (strip index)); [reflexivity | discriminate].
    + destruct (Codeforces._extract_samples b) as [raw g].
      destruct (Codeforces._extract_limits b) as [[t m]|e]; [|discriminate].
      simpl. intros H. injection H as <-. simpl.
      split; [reflexivity|]. split.
      * intros E. rewrite E in Ee. discriminate.
      * apply upper_upper.
  - simpl. intros H. injection H as <-. reflexivity.
Qed.

Lemma parse_blocks_letters bps :
  forall blocks,
    collect (fun bp => Codeforces.parse_block (fst bp) (snd bp)) bps
    = Ok blocks ->
    map Codeforces.Block.letter blocks
    = filter (fun l => negb (is_empty l))
        (map (fun bp => index_letter (snd bp)) bps)
    /\ Forall (fun blk => Codeforces.Block.letter blk <> ""
                          /\ upper (Codeforces.Block.letter blk)
                             = Codeforces.Block.letter blk) blocks.
Proof.
  induction bps as [|[b parents] bps IH]; intros blocks H; simpl in H.
  - injection H as <-. split; [reflexivity | constructor].
  - destruct (Codeforces.parse_block b parents) as [ob|e] eqn:Eb;
      [|discriminate].
    simpl in H.
    destruct (collect _ bps) as [bs|e] eqn:Ec; [|discriminate].
    simpl in H. injection H as <-.
    destruct (IH bs eq_refl) as [IH1 IH2].
    apply parse_block_letter in Eb. simpl.
    destruct ob as [blk|].
    + destruct Eb as (El & Hne & Hup).
      assert (Hf : negb (is_empty (index_letter parents)) = true)
        by (destruct (index_letter parents); [congruence | reflexivity]).
      rewrite Hf. cbn [map]. rewrite El, IH1. split; [reflexivity|].
      constructor; [rewrite El; auto | exact IH2].
    + rewrite Eb. simpl. split; [exact IH1 | exact IH2].
Qed.


Lemma record_ids_records (rs : list Payload.t) :
  record_ids (map RecordLine rs) = map Payload.problem_id rs.
Proof.
  unfold record_ids. induction rs as [|r rs IH]; simpl; [reflexivity|].
  now rewrite IH.
Qed.


Section StreamIds.

Variable as_completed : forall A : Type, list A -> list A.

Hypothesis as_completed_perm :
  forall (A : Type) (l : list A), Permutation (as_completed A l) l.


End StreamIds.


(** ** The extraction engine returns *)

Lemma isdigit_cases c :
  isdigit c = true ->
  In c ["0"; "1"; "2"; "3"; "4"; "5"; "6"; "7"; "8"; "9"]%char.
Proof.
  destruct c as [[] [] [] [] [] [] [] []]; intros H;
    try (vm_compute in H; discriminate); simpl; tauto.
Qed.

Lemma digit_not_space c : isdigit c = true -> isspace c = false.
Proof.
  intros H. apply isdigit_cases in H. simpl in H.
  repeat (destruct H as [<- | H]; [reflexivity|]). contradiction.
Qed.

Lemma rstrip_digits s : all_chars isdigit s = true -> rstrip s = s.
Proof.
  induction s as [|c s IH]; simpl; [reflexivity|].
  intros H. apply andb_prop in H. destruct H as [Hc Hs].
  rewrite (IH Hs), (digit_not_space c Hc). destruct s; reflexivity.
Qed.

Lemma strip_digits s : all_chars isdigit s = true -> strip s = s.
Proof.
  intros H. unfold strip.
  assert (E : lstrip s = s).
  { destruct s as [|c s]; [reflexivity|]. simpl in *.
    apply andb_prop in H. now rewrite (digit_not_space c (proj1 H)). }
  rewrite E. now apply rstrip_digits.
Qed.

Lemma digit_not_float_space c : isdigit c = true -> float_space c = false.
Proof.
  intros H. apply isdigit_cases in H. simpl in H.
  repeat (destruct H as [<- | H]; [reflexivity|]). contradiction.
Qed.

Lemma float_strip_digits s :
  all_chars isdigit s = true -> float_rstrip (float_lstrip s) = s.
Proof.
  intros H.
  assert (E : float_lstrip s = s).
  { destruct s as [|c s]; [reflexivity|]. simpl in *.
    apply andb_prop in H. now rewrite (digit_not_float_space c (proj1 H)). }
  rewrite E. clear E.
  induction s as [|c s IH]; simpl; [reflexivity|].
  simpl in H. apply andb_prop in H. destruct H as [Hc Hs].
  rewrite (IH Hs), (digit_not_float_space c Hc). destruct s; reflexivity.
Qed.

Lemma scan_digit_tail_digits s :
  all_chars isdigit s = true -> scan_digit_tail s = (s, "").
Proof.
  induction s as [|c s IH]; simpl; [reflexivity|].
  intros H. apply andb_prop in H. destruct H as [Hc Hs].
  now rewrite Hc, (IH Hs).
Qed.

(** [float] accepts every non-empty run of digits. *)
Lemma float_of_str_digits s :
  s <> "" -> all_chars isdigit s = true -> exists f, float_of_str s = Ok f.
Proof.
  intros Hne H. unfold float_of_str. rewrite (float_strip_digits s H).
  destruct s as [|c s]; [congruence|].
  simpl in H. apply andb_prop in H. destruct H as [Hc Hs].
  assert (Hn : scan_number (String c s) = Some (String c s, "", "")).
  { unfold scan_number, scan_digitpart.
    now rewrite Hc, (scan_digit_tail_digits s Hs). }
  pose proof (isdigit_cases c Hc) as Hcases. simpl in Hcases.
  repeat (destruct Hcases as [<- | Hcases];
          [cbn [scan_sign lower smap];
           match goal with
           | |- context [lower_char ?d] => change (lower_char d) with d
           end;
           rewrite Hn; cbn;
           match goal with
           | |- exists f, match ?z with _ => _ end = _ => destruct z; eauto
           end|]).
  contradiction.
Qed.

(** The number group of [(\d+)\s*megabytes?] is a non-empty run of digits. *)
Lemma megabytes_group prev w post caps :
  matches no_flags Codeforces.MEGABYTES_RE prev w post [] caps ->
  exists d, caps = [(1%nat, d)] /\ d <> "" /\ all_chars isdigit d = true.
Proof.
  unfold Codeforces.MEGABYTES_RE. rewrite !rseq_cons, rseq_one. intros M.
  apply matches_seq in M. destruct M as (d & t1 & c1 & -> & Md & M).
  apply matches_seq in M. destruct M as (ws & t2 & c2 & -> & Mws & M).
  apply matches_seq in M. destruct M as (word & s & c3 & -> & Mword & M).
  apply matches_group in Md. destruct Md as (c0 & -> & Md).
  apply matches_rep in Md. destruct Md as (-> & Hd & Hlen).
  apply matches_rep in Mws. destruct Mws as (-> & _ & _).
  apply (matches_rlit _ "megabyte") in Mword. destruct Mword as [-> _].
  apply matches_opt in M.
  assert (E : caps = [(1%nat, d)]).
  { destruct M as [M | [_ E]]; [|exact E].
    apply matches_atom in M. destruct M as (x & _ & E & _). exact E. }
  exists d. split; [exact E|]. split; [now apply length_pos_iff | exact Hd].
Qed.

(** The number group of [(\d+)\s*seconds?] is a non-empty run of digits, at
    the start of the match. *)
Lemma seconds_group prev w post caps :
  matches no_flags Codeforces.SECONDS_RE prev w post [] caps ->
  exists d t,
    caps = [(1%nat, d)] /\ w = d ++ t /\ d <> ""
    /\ all_chars isdigit d = true.
Proof.
  unfold Codeforces.SECONDS_RE. rewrite !rseq_cons, rseq_one. intros M.
  apply matches_seq in M. destruct M as (d & t1 & c1 & -> & Md & M).
  apply matches_seq in M. destruct M as (ws & t2 & c2 & -> & Mws & M).
  apply matches_seq in M. destruct M as (word & s & c3 & -> & Mword & M).
  apply matches_group in Md. destruct Md as (c0 & -> & Md).
  apply matches_rep in Md. destruct Md as (-> & Hd & Hlen).
  apply matches_rep in Mws. destruct Mws as (-> & _ & _).
  apply (matches_rlit _ "second") in Mword. destruct Mword as [-> _].
  apply matches_opt in M.
  assert (E : caps = [(1%nat, d)]).
  { destruct M as [M | [_ E]]; [|exact E].
    apply matches_atom in M. destruct M as (x & _ & E & _). exact E. }
  exists d, (ws ++ word ++ s). split; [exact E|]. split; [reflexivity|].
  split; [now apply length_pos_iff | exact Hd].
Qed.

Lemma longest_run_from_ge s : forall cur, (cur <= longest_run_from cur s)%nat.
Proof.
  induction s as [|c s IH]; intros cur; simpl; [lia|].
  destruct (isdigit c); [specialize (IH (S cur)); lia | lia].
Qed.

Lemma longest_run_digits d b :
  all_chars isdigit d = true ->
  forall cur,
    (cur + String.length d <= longest_run_from cur (d ++ b))%nat.
Proof.
  induction d as [|c d IH]; simpl; intros H cur.
  - pose proof (longest_run_from_ge b cur). lia.
  - apply andb_prop in H. destruct H as [Hc Hd]. rewrite Hc.
    specialize (IH Hd (S cur)). lia.
Qed.

(** A run of digits of a text is not longer than its longest. *)
Lemma digit_run_bound a d b :
  all_chars isdigit d = true ->
  (String.length d <= longest_digit_run (a ++ d ++ b))%nat.
Proof.
  intros Hd. unfold longest_digit_run. generalize 0%nat.
  induction a as [|c a IH]; intros cur; simpl.
  - pose proof (longest_run_digits d b Hd cur). lia.
  - destruct (isdigit c); [apply IH|].
    specialize (IH 0%nat). lia.
Qed.

(** The seconds [_extract_limits] reads are within the limit of [int] when
    the text of the time limit has no longer run of digits. *)
Lemma seconds_in_range text caps :
  digits_in_range text = true ->
  re_search no_flags Codeforces.SECONDS_RE text = Some caps ->
  py_int (group_text 1 caps) = Ok (int_of_digits (group_text 1 caps)).
Proof.
  intros Hr E. apply re_search_sound in E.
  destruct E as (pre & w & post & -> & M).
  apply seconds_group in M. destruct M as (d & t & -> & -> & _ & Hd).
  change (group_text 1 [(1%nat, d)]) with d.
  unfold digits_in_range in Hr. apply Z.leb_le in Hr.
  rewrite append_assoc in Hr.
  pose proof (digit_run_bound pre d (t ++ post) Hd) as Hb.
  unfold py_int.
  destruct (int_max_str_digits <? Z.of_nat (String.length d))%Z eqn:El;
    [|reflexivity].
  apply Z.ltb_lt in El. lia.
Qed.

Lemma memory_returns (block : node) :
  exists memory_mb,
    match find "div" "memory-limit" block with
    | Some m =>
        match re_search no_flags Codeforces.MEGABYTES_RE
                (get_text " " true m) with
        | Some ms => float_of_str (group_text 1 ms)
        | None => Ok (S754_zero false)
        end
    | None => Ok (S754_zero false)
    end = Ok memory_mb.
Proof.
  destruct (find "div" "memory-limit" block) as [m|]; [|eauto].
  destruct (re_search no_flags Codeforces.MEGABYTES_RE (get_text " " true m))
    as [caps|] eqn:E; [|eauto].
  apply re_search_sound in E. destruct E as (pre & w & post & _ & M).
  apply megabytes_group in M. destruct M as (d & -> & Hne & Hd).
  change (group_text 1 [(1%nat, d)]) with d.
  destruct (float_of_str_digits d Hne Hd) as (f & ->). eauto.
Qed.

(** [_extract_limits] returns unless [int] refuses the seconds. *)
Lemma extract_limits_returns (block : node) :
  digits_in_range (limit_text "time-limit" block) = true ->
  exists limits, Codeforces._extract_limits block = Ok limits.
Proof.
  unfold Codeforces._extract_limits, limit_text. intros Hr.
  destruct (memory_returns block) as (memory_mb & Em).
  destruct (find "div" "time-limit" block) as [t|].
  - destruct (re_search no_flags Codeforces.SECONDS_RE (get_text " " true t))
      as [ts|] eqn:E.
    + rewrite (seconds_in_range _ _ Hr E). cbn [bind]. rewrite Em.
      cbn [bind]. eauto.
    + cbn [bind]. rewrite Em. cbn [bind]. eauto.
  - cbn [bind]. rewrite Em. cbn [bind]. eauto.
Qed.

(** When it raises, it is the [ValueError] of [int], on a time limit with a
    run of more than 4300 digits. *)
Lemma extract_limits_raises (block : node) (e : exn) :
  Codeforces._extract_limits block = Raise e ->
  exn_class e = ValueError
  /\ digits_in_range (limit_text "time-limit" block) = false.
Proof.
  intros H. split.
  - unfold Codeforces._extract_limits in H.
    destruct (memory_returns block) as (memory_mb & Em).
    destruct (find "div" "time-limit" block) as [t|].
    + destruct (re_search no_flags Codeforces.SECONDS_RE _) as [ts|].
      * unfold py_int in H.
        destruct (int_max_str_digits <? _)%Z.
        -- cbn [bind] in H. injection H as <-. reflexivity.
        -- cbn [bind] in H. rewrite Em in H. discriminate.
      * cbn [bind] in H. rewrite Em in H. discriminate.
    + cbn [bind] in H. rewrite Em in H. discriminate.
  - destruct (digits_in_range (limit_text "time-limit" block)) eqn:Hr;
      [|reflexivity].
    destruct (extract_limits_returns block Hr) as (limits & E).
    rewrite E in H. discriminate.
Qed.

(** A block is parsed, or skipped, unless its holder lacks the
    [problemindex] attribute or [int] refuses the seconds of its time
    limit. *)
Lemma parse_block_returns (b : node) (parents : list node) :
  (forall h, find_parent "div" "problemindexholder" parents = Some h ->
             node_get h "problemindex" <> None) ->
  digits_in_range (limit_text "time-limit" b) = true ->
  exists ob, Codeforces.parse_block b parents = Ok ob.
Proof.
  intros Hh Hr. unfold Codeforces.parse_block.
  assert (E : exists index,
             match find_parent "div" "problemindexholder" parents with
             | Some h =>
                 match node_get h "problemindex" with
                 | Some v => Ok v
                 | None => Raise (no_attribute JNull "strip")
                 end
             | None => Ok ""
             end = Ok index).
  { destruct (find_parent "div" "problemindexholder" parents) as [h|]; eauto.
    specialize (Hh h eq_refl).
    destruct (node_get h "problemindex"); [eauto | congruence]. }
  destruct E as (index & ->). simpl.
  destruct (is_empty (upper (strip index))); eauto.
  destruct (Codeforces._extract_samples b) as [raw g].
  destruct (extract_limits_returns b Hr) as ([t m] & ->). simpl. eauto.
Qed.

Lemma parse_soup_returns (soup : node) :
  (forall b parents h,
      In (b, parents) (Codeforces.blocks_of soup) ->
      find_parent "div" "problemindexholder" parents = Some h ->
      node_get h "problemindex" <> None) ->
  (forall b parents,
      In (b, parents) (Codeforces.blocks_of soup) ->
      digits_in_range (limit_text "time-limit" b) = true) ->
  exists blocks, Codeforces.parse_soup soup = Ok blocks.
Proof.
  unfold Codeforces.parse_soup.
  induction (Codeforces.blocks_of soup) as [|[b parents] bps IH];
    intros H Hr; simpl; eauto.
  destruct (parse_block_returns b parents) as (ob & ->).
  { intros h. apply (H b parents h). now left. }
  { apply (Hr b parents). now left. }
  destruct IH as (blocks & ->).
  { intros b' parents' h Hin. apply (H b' parents' h). now right. }
  { intros b' parents' Hin. apply (Hr b' parents'). now right. }
  simpl. eauto.
Qed.

(** * Further properties of the adapters *)

(** ** [strip], [split] and [in] *)

Lemma lstrip_head s :
  lstrip s = "" \/ is_space_at (head_char (lstrip s)) = false.
Proof.
  induction s as [|c s IH]; simpl; [now left|].
  destruct (isspace c) eqn:E; [exact IH | right; exact E].
Qed.

Lemma rstrip_head s :
  rstrip s = "" \/ head_char (rstrip s) = head_char s.
Proof.
  destruct s as [|c s]; simpl; [now left|].
  destruct (rstrip s); [destruct (isspace c)|]; auto.
Qed.

Lemma rstrip_last s : is_space_at (last_char None (rstrip s)) = false.
Proof.
  induction s as [|c s IH]; simpl; [reflexivity|].
  destruct (rstrip s) as [|x t] eqn:E.
  - destruct (isspace c) eqn:Ec; simpl; [reflexivity | exact Ec].
  - simpl. simpl in IH. exact IH.
Qed.

Lemma strip_trimmed s : trimmed (strip s) = true.
Proof.
  unfold trimmed, strip. rewrite rstrip_last.
  destruct (rstrip_head (lstrip s)) as [-> | ->]; [reflexivity|].
  destruct (lstrip_head s) as [-> | ->]; reflexivity.
Qed.

Lemma lstrip_chars s c : In c (chars (lstrip s)) -> In c (chars s).
Proof.
  unfold chars. induction s as [|x s IH]; simpl; [auto|].
  destruct (isspace x); simpl; auto.
Qed.

Lemma rstrip_chars s c : In c (chars (rstrip s)) -> In c (chars s).
Proof.
  unfold chars. induction s as [|x s IH]; simpl; [auto|].
  destruct (rstrip s) as [|y t].
  - destruct (isspace x); simpl; tauto.
  - simpl in *. tauto.
Qed.

Lemma strip_chars s c : In c (chars (strip s)) -> In c (chars s).
Proof. intros H. now apply lstrip_chars, rstrip_chars. Qed.

Lemma remove_char_chars c s x :
  In x (chars (remove_char c s)) <-> x <> c /\ In x (chars s).
Proof.
  unfold chars. induction s as [|y s IH]; simpl; [tauto|].
  destruct (Ascii.eqb y c) eqn:E.
  - apply Ascii.eqb_eq in E. subst y. rewrite IH. intuition congruence.
  - apply Ascii.eqb_neq in E. simpl. rewrite IH. intuition congruence.
Qed.

Lemma replace_char_chars c d s x :
  In x (chars (replace_char c d s)) ->
  (x = d /\ In c (chars s)) \/ (x <> c /\ In x (chars s)).
Proof.
  unfold chars, replace_char. induction s as [|y s IH]; simpl; [tauto|].
  destruct (Ascii.eqb y c) eqn:E.
  - apply Ascii.eqb_eq in E. subst y. intros [<- | H]; [auto|].
    apply IH in H. tauto.
  - apply Ascii.eqb_neq in E. intros [<- | H]; [auto|].
    apply IH in H. tauto.
Qed.

Lemma split_once_spec c s :
  match split_once c s with
  | Some (a, b) => s = a ++ String c b /\ ~ In c (chars a)
  | None => ~ In c (chars s)
  end.
Proof.
  unfold chars. induction s as [|x s IH]; simpl; [tauto|].
  destruct (Ascii.eqb x c) eqn:E.
  - apply Ascii.eqb_eq in E. subst x. simpl. tauto.
  - apply Ascii.eqb_neq in E.
    destruct (split_once c s) as [[a b]|].
    + destruct IH as [-> Ha]. simpl. split; [reflexivity | tauto].
    + tauto.
Qed.

Lemma prefix_spec p s :
  String.prefix p s = true <-> exists after, s = p ++ after.
Proof.
  revert s. induction p as [|c p IH]; intros s.
  - split; [intros _; now exists s | intros _; destruct s; reflexivity].
  - destruct s as [|x s]; simpl.
    + split; [discriminate | intros (after & H); discriminate].
    + destruct (ascii_dec c x) as [->|Hn].
      * rewrite IH. split; intros (after & H); exists after;
          [now rewrite H | now injection H].
      * split; [discriminate | intros (after & H); congruence].
Qed.

Lemma contains_spec needle hay :
  contains needle hay = true <-> substring_of needle hay.
Proof.
  unfold substring_of. induction hay as [|x hay IH].
  - cbn [contains]. rewrite orb_false_r, prefix_spec. split.
    + intros (after & H). exists "", after. exact H.
    + intros ([|b before] & after & H); [eauto | discriminate].
  - cbn [contains]. rewrite orb_true_iff, IH, prefix_spec. split.
    + intros [(after & H) | (before & after & H)].
      * exists "", after. exact H.
      * exists (String x before), after. simpl. now rewrite H.
    + intros ([|b before] & after & H).
      * left. eauto.
      * right. injection H as -> H. eauto.
Qed.

(** ** The text of a sample, the title and the limits of a block *)

(** X1.  The text [_text_from_pre] gives for a sample has no white space at
    its start nor at its end, no carriage return and no non-breaking space;
    each of its characters is a space or a character of the text of the
    element. *)
Theorem X1_text_from_pre_clean (pre : node) :
  let t := Codeforces._text_from_pre pre in
  trimmed t = true
  /\ ~ In cr (chars t)
  /\ ~ In nbsp (chars t)
  /\ (forall c, In c (chars t) ->
                c = " "%char \/ In c (chars (get_text nl false pre))).
Proof.
  unfold Codeforces._text_from_pre. cbv zeta.
  split; [apply strip_trimmed|].
  split; [|split].
  - intros H. apply strip_chars, replace_char_chars in H.
    destruct H as [[E _] | [_ H]]; [discriminate|].
    apply remove_char_chars in H. tauto.
  - intros H. apply strip_chars, replace_char_chars in H.
    destruct H as [[E _] | [E _]]; [discriminate | congruence].
  - intros c H. apply strip_chars, replace_char_chars in H.
    destruct H as [[E _] | [_ H]]; [now left|].
    apply remove_char_chars in H. tauto.
Qed.

(** X2.  [_extract_title] splits the text of the title element once, at its
    first dot: the ordinal is what comes before it, stripped and in upper
    case, the name what comes after it, stripped.  A title without a dot
    has no ordinal and is the name; a block without a title element has
    neither.  The name is trimmed at both ends. *)
Theorem X2_title_split_at_first_dot (block : node) :
  match find "div" "title" block with
  | None => Codeforces._extract_title block = ("", "")
  | Some t =>
      let s := get_text " " true t in
      (~ In "."%char (chars s)
       /\ Codeforces._extract_title block = ("", strip s))
      \/ (exists a b,
             s = a ++ "." ++ b
             /\ ~ In "."%char (chars a)
             /\ Codeforces._extract_title block = (upper (strip a), strip b))
  end
  /\ trimmed (snd (Codeforces._extract_title block)) = true.
Proof.
  unfold Codeforces._extract_title.
  destruct (find "div" "title" block) as [t|]; [|split; reflexivity].
  cbv zeta. pose proof (split_once_spec "." (get_text " " true t)) as H.
  destruct (split_once "." (get_text " " true t)) as [[a b]|].
  - destruct H as [E Ha]. split; [|apply strip_trimmed].
    right. exists a, b. auto.
  - split; [|apply strip_trimmed]. left. auto.
Qed.

Lemma int_of_digits_acc_nonneg s :
  forall acc, (0 <= acc)%Z -> (0 <= int_of_digits_acc acc s)%Z.
Proof.
  induction s as [|c s IH]; intros acc H; cbn [int_of_digits_acc];
    [exact H|].
  apply IH. unfold digit_val.
  pose proof (Nat2Z.is_nonneg (ord c - 48)). lia.
Qed.

Lemma int_of_digits_nonneg s : (0 <= int_of_digits s)%Z.
Proof. apply int_of_digits_acc_nonneg. lia. Qed.

(** X3.  [_extract_limits] returns for every block whose time-limit text
    has no run of more than 4300 digits: the time limit is then a number of
    milliseconds that is not negative and a multiple of 1000, 0 when the
    block has no time-limit element, and the memory limit is 0.0 when the
    block has no memory-limit element.  It raises nothing but the
    [ValueError] of [int], and only on a time-limit text with a run of more
    than 4300 digits; the memory limit, read with [float], never makes it
    raise. *)
Theorem X3_limits_of_a_block (block : node) :
  (digits_in_range (limit_text "time-limit" block) = true ->
   exists timeout_ms memory_mb,
     Codeforces._extract_limits block = Ok (timeout_ms, memory_mb)
     /\ (0 <= timeout_ms)%Z
     /\ (timeout_ms mod 1000 = 0)%Z
     /\ (find "div" "time-limit" block = None -> timeout_ms = 0%Z)
     /\ (find "div" "memory-limit" block = None ->
         memory_mb = S754_zero false))
  /\ (forall e,
         Codeforces._extract_limits block = Raise e ->
         exn_class e = ValueError
         /\ (int_max_str_digits
             < Z.of_nat (longest_digit_run (limit_text "time-limit" block)))%Z).
Proof.
  split.
  - intros Hr. destruct (extract_limits_returns block Hr) as ([t m] & E).
    exists t, m. split; [exact E|].
    unfold Codeforces._extract_limits in E.
    destruct (match find "div" "time-limit" block with
              | Some t0 => _
              | None => _
              end) as [ms|e] eqn:Et; [|discriminate].
    cbn [bind] in E.
    destruct (match find "div" "memory-limit" block with
              | Some m0 => _
              | None => _
              end) as [mem|e] eqn:Em; [|discriminate].
    cbn [bind] in E. injection E as -> ->.
    assert (Ht : (0 <= t /\ t mod 1000 = 0)%Z).
    { destruct (find "div" "time-limit" block) as [td|];
        [|injection Et as <-; split; reflexivity].
      destruct (re_search no_flags Codeforces.SECONDS_RE _) as [ts|];
        [|injection Et as <-; split; reflexivity].
      unfold py_int in Et.
      destruct (int_max_str_digits <? _)%Z; [discriminate|].
      cbn [bind] in Et. injection Et as <-.
      pose proof (int_of_digits_nonneg (group_text 1 ts)).
      split; [lia | apply Z.mod_mul; lia]. }
    split; [tauto|]. split; [tauto|]. split.
    + intros Hn. rewrite Hn in Et. now injection Et.
    + intros Hn. rewrite Hn in Em. now injection Em.
  - intros e H. destruct (extract_limits_raises block e H) as [Hc Hr].
    split; [exact Hc|].
    unfold digits_in_range in Hr. now apply Z.leb_gt in Hr.
Qed.

Lemma X3_limits_of_a_block_witness :
  Codeforces._extract_limits Sample.limited_block = Ok (2000%Z, f256)
  /\ exists e,
       Codeforces._extract_limits Sample.overlong_limit_block = Raise e
       /\ exn_class e = ValueError.
Proof.
  split.
  - destruct (proj1 (X3_limits_of_a_block Sample.limited_block))
      as (t & m & E & _); [vm_compute; reflexivity|].
    pose proof E as E'. vm_compute in E'. injection E' as <- <-. exact E.
  - eexists. split; [vm_compute; reflexivity|].
    refine (proj1 (proj2 (X3_limits_of_a_block Sample.overlong_limit_block)
                     _ _)).
    vm_compute. reflexivity.
Defined.

(** ** The samples of a block *)

Lemma nth_error_combine {A B : Type} (l1 : list A) (l2 : list B) d1 d2 :
  forall i,
    (i < List.length (combine l1 l2))%nat ->
    nth_error (combine l1 l2) i = Some (nth i l1 d1, nth i l2 d2).
Proof.
  revert l2. induction l1 as [|a l1 IH]; intros l2 i H; simpl in *; [lia|].
  destruct l2 as [|b l2]; simpl in *; [lia|].
  destruct i as [|i]; simpl; [reflexivity|]. apply IH. lia.
Qed.

Lemma extract_samples_ungrouped (b : node) :
  snd (Codeforces._extract_samples b) = false ->
  fst (Codeforces._extract_samples b) = positional_cases b.
Proof.
  unfold Codeforces._extract_samples, positional_cases, sample_pres.
  destruct (find "div" "sample-test" b) as [st|]; [|reflexivity].
  cbv zeta. destruct (existsb _ (_ ++ _)); [destruct (sorted _)|];
    simpl; intros H; try discriminate; reflexivity.
Qed.

(** X4.  When the samples of a block are not extracted as grouped, the
    number of cases is the smaller of the numbers of input and of output
    [pre] elements, and the i-th case is the text of the i-th input element
    against the text of the i-th output element: the elements in excess on
    one side are dropped. *)
Theorem X4_positional_pairing (b : node) :
  snd (Codeforces._extract_samples b) = false ->
  let ins := map Codeforces._text_from_pre (sample_pres "input" b) in
  let outs := map Codeforces._text_from_pre (sample_pres "output" b) in
  let cases := fst (Codeforces._extract_samples b) in
  List.length cases = Nat.min (List.length ins) (List.length outs)
  /\ (forall i, (i < List.length cases)%nat ->
                nth_error cases i
                = Some (TestCase.mk (nth i ins "") (nth i outs ""))).
Proof.
  intros H. cbv zeta. rewrite (extract_samples_ungrouped b H).
  unfold positional_cases. rewrite length_map, length_combine.
  split; [reflexivity|].
  intros i Hi. rewrite nth_error_map.
  rewrite (nth_error_combine _ _ "" "") by (rewrite length_combine; exact Hi).
  reflexivity.
Qed.

Lemma X4_positional_pairing_witness :
  List.length (fst (Codeforces._extract_samples Sample.ungrouped_block))
  = Nat.min
      (List.length (map Codeforces._text_from_pre
                      (sample_pres "input" Sample.ungrouped_block)))
      (List.length (map Codeforces._text_from_pre
                      (sample_pres "output" Sample.ungrouped_block))).
Proof.
  refine (proj1 (X4_positional_pairing Sample.ungrouped_block _)).
  vm_compute. reflexivity.
Defined.

(** X5.  Every case [_extract_samples] returns, grouped or not, has an input
    and an expected output without white space at the start or at the
    end. *)
Theorem X5_cases_are_trimmed (b : node) :
  Forall (fun tc => trimmed (TestCase.input tc) = true
                    /\ trimmed (TestCase.expected tc) = true)
    (fst (Codeforces._extract_samples b)).
Proof.
  unfold Codeforces._extract_samples.
  destruct (find "div" "sample-test" b) as [st|]; [|constructor].
  cbv zeta.
  assert (Hpos : forall ins outs : list node,
             Forall (fun tc => trimmed (TestCase.input tc) = true
                               /\ trimmed (TestCase.expected tc) = true)
               (map (fun io => TestCase.mk (fst io) (snd io))
                  (combine (map Codeforces._text_from_pre ins)
                           (map Codeforces._text_from_pre outs)))).
  { intros ins outs. apply Forall_forall. intros tc Htc.
    apply in_map_iff in Htc. destruct Htc as ([i o] & <- & Hio).
    pose proof (in_combine_l _ _ _ _ Hio) as Hi.
    pose proof (in_combine_r _ _ _ _ Hio) as Ho.
    apply in_map_iff in Hi. destruct Hi as (p & <- & _).
    apply in_map_iff in Ho. destruct Ho as (q & <- & _).
    split; apply strip_trimmed. }
  destruct (existsb _ (_ ++ _)); [destruct (sorted _) as [|k ks]|];
    try apply Hpos.
  cbn [fst]. apply Forall_forall. intros tc Htc.
  apply in_map_iff in Htc. destruct Htc as (k' & <- & _).
  split; apply strip_trimmed.
Qed.

(** ** The groups of one sample element *)




(** ** The blocks of a page *)

Lemma parse_block_lacks_index b parents :
  lacks_index parents = true ->
  Codeforces.parse_block b parents
  = Raise (Exn AttributeError "'NoneType' object has no attribute 'strip'").
Proof.
  unfold lacks_index, Codeforces.parse_block.
  destruct (find_parent "div" "problemindexholder" parents) as [h|];
    [|discriminate].
  destruct (node_get h "problemindex"); [discriminate | reflexivity].
Qed.

Lemma has_index_returns b parents :
  lacks_index parents = false ->
  within_int_limit b = true ->
  exists ob, Codeforces.parse_block b parents = Ok ob.
Proof.
  intros H Hr. apply parse_block_returns.
  - intros h Hh E. unfold lacks_index in H. rewrite Hh, E in H. discriminate.
  - unfold within_int_limit in Hr. apply andb_prop in Hr. tauto.
Qed.

(** X7.  On a page where no number read with [int] has more than 4300
    digits (the seconds of the time limits and the group ids of the line
    markers), [_parse_all_blocks] returns exactly when every problem block
    whose nearest holder exists has that holder carry a [problemindex]; it
    then returns one entry for each block whose index letter is not empty,
    never more entries than blocks.  When some holder lacks the attribute,
    it raises the [AttributeError] of [None.strip]. *)
Theorem X7_parse_all_blocks_outcome
    (BeautifulSoup : string -> node) (html : string) :
  let places := Codeforces.blocks_of (BeautifulSoup html) in
  forallb (fun bp => within_int_limit (fst bp)) places = true ->
  (existsb (fun bp => lacks_index (snd bp)) places = false ->
   exists blocks,
     Codeforces._parse_all_blocks BeautifulSoup html = Ok blocks
     /\ List.length blocks
        = List.length (filter (fun l => negb (is_empty l))
                         (map (fun bp => index_letter (snd bp)) places))
     /\ (List.length blocks <= List.length places)%nat)
  /\ (existsb (fun bp => lacks_index (snd bp)) places = true ->
      Codeforces._parse_all_blocks BeautifulSoup html
      = Raise (Exn AttributeError "'NoneType' object has no attribute 'strip'")).
Proof.
  cbv zeta. unfold Codeforces._parse_all_blocks, Codeforces.parse_soup.
  generalize (Codeforces.blocks_of (BeautifulSoup html)). intros places Hr.
  split.
  - intros H.
    assert (Hb : exists blocks,
               collect (fun bp => Codeforces.parse_block (fst bp) (snd bp))
                 places = Ok blocks).
    { induction places as [|[b parents] places IH]; simpl in *; eauto.
      apply orb_false_elim in H. destruct H as [H1 H2].
      apply andb_prop in Hr. destruct Hr as [Hr1 Hr2].
      destruct (has_index_returns b parents H1 Hr1) as (ob & ->).
      destruct (IH Hr2 H2) as (blocks & ->). simpl. eauto. }
    destruct Hb as (blocks & Hb). exists blocks. split; [exact Hb|].
    destruct (parse_blocks_letters places blocks Hb) as [Hl _].
    assert (Hlen : List.length blocks
                   = List.length (filter (fun l => negb (is_empty l))
                                    (map (fun bp => index_letter (snd bp))
                                       places))).
    { rewrite <- Hl. now rewrite length_map. }
    split; [exact Hlen|]. rewrite Hlen.
    etransitivity; [apply filter_length_le|]. now rewrite length_map.
  - induction places as [|[b parents] places IH]; simpl; [discriminate|].
    simpl in Hr. apply andb_prop in Hr. destruct Hr as [Hr1 Hr2].
    intros H. destruct (lacks_index parents) eqn:E.
    + now rewrite (parse_block_lacks_index b parents E).
    + destruct (has_index_returns b parents E Hr1) as (ob & ->).
      simpl in H. rewrite (IH Hr2 H). reflexivity.
Qed.

Lemma X7_parse_all_blocks_outcome_witness :
  exists blocks,
    Codeforces._parse_all_blocks (fun _ => Sample.two_block_page) ""
    = Ok blocks
    /\ List.length blocks = 2%nat.
Proof.
  assert (Hr : forallb (fun bp => within_int_limit (fst bp))
                 (Codeforces.blocks_of Sample.two_block_page) = true)
    by (vm_compute; reflexivity).
  destruct (proj1 (X7_parse_all_blocks_outcome
                     (fun _ => Sample.two_block_page) "" Hr) eq_refl)
    as (blocks & H1 & H2 & _).
  exists blocks. split; [exact H1 | exact H2].
Defined.

(** ** The Codeforces operations *)

Lemma lower_lower_char c : lower_char (lower_char c) = lower_char c.
Proof. destruct c as [[] [] [] [] [] [] [] []]; reflexivity. Qed.

Lemma lower_lower s : lower (lower s) = lower s.
Proof.
  unfold lower. induction s as [|c s IH]; simpl; [reflexivity|].
  now rewrite lower_lower_char, IH.
Qed.

Lemma collect_In {A B : Type} (f : A -> result (option B)) (l : list A) :
  forall bs,
    collect f l = Ok bs ->
    forall b, In b bs -> exists a, In a l /\ f a = Ok (Some b).
Proof.
  induction l as [|a l IH]; intros bs H b Hb; simpl in H.
  - injection H as <-. contradiction.
  - destruct (f a) as [ob|e] eqn:Ea; [|discriminate]. simpl in H.
    destruct (collect f l) as [bs'|e] eqn:Ec; [|discriminate].
    simpl in H. injection H as <-.
    destruct ob as [b0|].
    + destruct Hb as [<- | Hb]; [exists a; simpl; auto|].
      destruct (IH bs' eq_refl b Hb) as (a' & Ha' & E). exists a'. simpl. auto.
    + destruct (IH bs' eq_refl b Hb) as (a' & Ha' & E). exists a'. simpl. auto.
Qed.

(** What the problems of a page are made from. *)
Lemma scrape_problems_sync BeautifulSoup curl_get contest_id problems :
  Codeforces._scrape_contest_problems_sync BeautifulSoup curl_get contest_id
  = Ok problems ->
  exists html blocks,
    curl_get (Codeforces.BASE_URL ++ "/contest/" ++ contest_id ++ "/problems")
    = Ok html
    /\ Codeforces.parse_soup (BeautifulSoup html) = Ok blocks
    /\ problems
       = map (fun b => ProblemSummary.mk (lower (Codeforces.Block.letter b))
                                         (Codeforces.Block.name b)) blocks
    /\ Forall (fun b => Codeforces.Block.letter b <> "") blocks.
Proof.
  unfold Codeforces._scrape_contest_problems_sync,
    Codeforces._fetch_problems_html, Codeforces._parse_all_blocks.
  destruct (curl_get _) as [html|e] eqn:Eh; [|discriminate]. simpl.
  destruct (Codeforces.parse_soup (BeautifulSoup html)) as [blocks|e] eqn:Ep;
    [|discriminate].
  simpl. intros H. injection H as <-.
  exists html, blocks. split; [reflexivity|]. split; [exact Ep|].
  destruct (parse_blocks_letters _ _ Ep) as [_ Hf]. split.
  - apply map_ext_in. intros b Hb. rewrite Forall_forall in Hf.
    destruct (Hf b Hb) as [_ ->]. reflexivity.
  - eapply Forall_impl; [|exact Hf]. simpl. tauto.
Qed.

(** X8.  [CodeforcesScraper.scrape_contest_metadata] always returns an
    envelope.  A successful one has no error text, the contest id it was
    asked for, the problem url of that contest, and at least one problem,
    every problem id being non-empty and in lower case; a failed one has no
    problems and no url, and when the page fetch raised its error text is
    the text of the exception. *)
Theorem X8_codeforces_metadata_envelope
    (BeautifulSoup : string -> node) (curl_get : string -> result string)
    (contest_id : string) :
  exists r,
    Codeforces.scrape_contest_metadata BeautifulSoup curl_get contest_id = Ok r
    /\ (MetadataResult.success r = true ->
        MetadataResult.error r = ""
        /\ MetadataResult.contest_id r = contest_id
        /\ MetadataResult.url r
           = "https://codeforces.com/contest/" ++ contest_id ++ "/problem/%s"
        /\ MetadataResult.problems r <> []
        /\ Forall (fun p => ProblemSummary.id p <> ""
                            /\ lower (ProblemSummary.id p)
                               = ProblemSummary.id p)
             (MetadataResult.problems r))
    /\ (MetadataResult.success r = false ->
        MetadataResult.problems r = [] /\ MetadataResult.url r = "")
    /\ (forall e,
           curl_get (Codeforces.BASE_URL ++ "/contest/" ++ contest_id
                     ++ "/problems") = Raise e ->
           r = _metadata_error (exn_str e)).
Proof.
  unfold Codeforces.scrape_contest_metadata.
  destruct (Codeforces._scrape_contest_problems_sync BeautifulSoup curl_get
              contest_id) as [problems|e] eqn:E.
  - assert (Hf : forall e,
               curl_get (Codeforces.BASE_URL ++ "/contest/" ++ contest_id
                         ++ "/problems") = Raise e -> False).
    { intros e He. apply scrape_problems_sync in E.
      destruct E as (html & blocks & Hh & _). congruence. }
    destruct problems as [|p ps] eqn:Ep.
    + eexists. split; [reflexivity|]. simpl.
      split; [discriminate|]. split; [auto|].
      intros e He. destruct (Hf e He).
    + rewrite <- Ep in *. eexists. split; [reflexivity|]. simpl.
      split; [|split; [discriminate | intros e He; destruct (Hf e He)]].
      intros _. repeat split; try (rewrite Ep; discriminate).
      apply scrape_problems_sync in E.
      destruct E as (html & blocks & _ & _ & -> & Hne).
      apply Forall_forall. intros q Hq. apply in_map_iff in Hq.
      destruct Hq as (b & <- & Hb). rewrite Forall_forall in Hne. simpl.
      split; [apply lower_nonempty; now apply Hne | apply lower_lower].
  - eexists. split; [reflexivity|]. simpl.
    split; [discriminate|]. split; [auto|].
    intros e' He'.
    unfold Codeforces._scrape_contest_problems_sync,
      Codeforces._fetch_problems_html in E.
    simpl in E, He'. rewrite He' in E. simpl in E. now injection E as <-.
Qed.



(** X10.  [CodeforcesScraper.scrape_contest_list] always returns an
    envelope.  A successful one has no error text and at least one contest,
    each with its name as display name; a failed one has no contests.  A
    fetch that raises gives the text of the exception as error, and an
    answer whose status is not "OK" gives "Invalid API response". *)
Theorem X10_codeforces_contest_list_envelope
    (requests_get_json : string -> result json) (py_repr : json -> string) :
  exists r,
    Codeforces.scrape_contest_list requests_get_json py_repr = Ok r
    /\ (ContestListResult.success r = true ->
        ContestListResult.error r = ""
        /\ ContestListResult.contests r <> []
        /\ Forall (fun c => ContestSummary.display_name c
                            = ContestSummary.name c)
             (ContestListResult.contests r))
    /\ (ContestListResult.success r = false ->
        ContestListResult.contests r = [])
    /\ (forall e,
           requests_get_json Codeforces.API_CONTEST_LIST_URL = Raise e ->
           r = _contests_error (exn_str e))
    /\ (forall data status,
           requests_get_json Codeforces.API_CONTEST_LIST_URL = Ok data ->
           py_get data "status" JNull = Ok status ->
           eq_str status "OK" = false ->
           r = _contests_error "Invalid API response").
Proof.
  unfold Codeforces.scrape_contest_list.
  destruct (requests_get_json Codeforces.API_CONTEST_LIST_URL)
    as [data|e] eqn:Eget; cbn [bind].
  2:{ eexists. split; [reflexivity|]. simpl.
      split; [discriminate|]. split; [auto|].
      split; [intros e' H; now injection H as <- | discriminate]. }
  destruct (py_get data "status" JNull) as [status|e] eqn:Es; cbn [bind].
  2:{ eexists. split; [reflexivity|]. simpl.
      split; [discriminate|]. split; [auto|].
      split; [discriminate | intros d s H; injection H as <-; congruence]. }
  destruct (eq_str status "OK") eqn:Eok; cbn [negb]; cbv iota.
  2:{ eexists. split; [reflexivity|]. simpl.
      split; [discriminate|]. split; [auto|].
      split; [discriminate | reflexivity]. }
  assert (Hlast : forall r : ContestListResult.t,
             (forall e, Ok (A := json) data = Raise e ->
                        r = _contests_error (exn_str e))
             /\ (forall d s, Ok data = Ok d -> py_get d "status" JNull = Ok s ->
                             eq_str s "OK" = false ->
                             r = _contests_error "Invalid API response")).
  { intros r. split; [discriminate|].
    intros d s H Hs Hn. injection H as <-. rewrite Es in Hs.
    injection Hs as <-. congruence. }
  destruct (py_getitem data "result") as [res|e]; cbn [bind].
  2:{ eexists. split; [reflexivity|]. simpl.
      split; [discriminate|]. split; [auto | apply Hlast]. }
  destruct (py_iter res) as [entries|e]; cbn [bind].
  2:{ eexists. split; [reflexivity|]. simpl.
      split; [discriminate|]. split; [auto | apply Hlast]. }
  destruct (collect (Codeforces.contest_entry py_repr) entries)
    as [contests|e] eqn:Ec; cbn [bind].
  2:{ eexists. split; [reflexivity|]. simpl.
      split; [discriminate|]. split; [auto | apply Hlast]. }
  destruct contests as [|c cs] eqn:Ecs.
  { eexists. split; [reflexivity|]. simpl.
    split; [discriminate|]. split; [auto | apply Hlast]. }
  rewrite <- Ecs in *. eexists. split; [reflexivity|]. simpl.
  split; [|split; [discriminate | apply Hlast]].
  intros _. split; [reflexivity|]. split; [rewrite Ecs; discriminate|].
  apply Forall_forall. intros s Hs.
  destruct (collect_In _ _ _ Ec s Hs) as (entry & _ & He).
  unfold Codeforces.contest_entry in He.
  destruct (py_get entry "phase" JNull) as [phase|]; [|discriminate].
  cbn [bind] in He. destruct (negb (eq_str phase "FINISHED")); [discriminate|].
  destruct (py_getitem entry "id") as [id|]; [|discriminate].
  cbn [bind] in He. destruct (py_getitem entry "name") as [nm|]; [|discriminate].
  cbn [bind] in He. destruct (str_field "name" nm) as [name|]; [|discriminate].
  cbn [bind] in He. injection He as <-. reflexivity.
Qed.

(** ** The CodeChef metadata operation *)

(** X11.  [CodeChefScraper.scrape_contest_metadata] always returns an
    envelope.  A failed one has no problems, no url and an error text that
    is not empty; a successful one has no error text, the contest id it was
    asked for and the url of that contest.  A fetch that raises gives
    "Failed to fetch contest", the id and the text of the exception; a
    contest that declares no problems gives "No problems found for
    contest" and the id. *)
Theorem X11_codechef_metadata_envelope
    (client_get_json : string -> result json) (contest_id : string) :
  exists r,
    CodeChef.scrape_contest_metadata client_get_json contest_id = Ok r
    /\ (MetadataResult.success r = false ->
        MetadataResult.problems r = []
        /\ MetadataResult.url r = ""
        /\ MetadataResult.error r <> "")
    /\ (MetadataResult.success r = true ->
        MetadataResult.error r = ""
        /\ MetadataResult.contest_id r = contest_id
        /\ MetadataResult.url r = CodeChef.BASE_URL ++ "/" ++ contest_id)
    /\ (forall e,
           client_get_json
             (CodeChef.BASE_URL ++ CodeChef.API_CONTEST contest_id) = Raise e ->
           r = _metadata_error
                 ("Failed to fetch contest " ++ contest_id ++ ": " ++ exn_str e))
    /\ (forall data declared,
           client_get_json
             (CodeChef.BASE_URL ++ CodeChef.API_CONTEST contest_id) = Ok data ->
           py_get data "problems" JNull = Ok declared ->
           truthy declared = false ->
           r = _metadata_error ("No problems found for contest " ++ contest_id)).
Proof.
  unfold CodeChef.scrape_contest_metadata, CodeChef.fetch_json.
  destruct (client_get_json
              (CodeChef.BASE_URL ++ CodeChef.API_CONTEST contest_id))
    as [data|e] eqn:Eget; cbn [bind].
  2:{ eexists. split; [reflexivity|]. cbn.
      split; [intros _; repeat split; discriminate|].
      split; [discriminate|].
      split; [intros e' H; now injection H as <- | discriminate]. }
  destruct (py_get data "problems" JNull) as [declared|e] eqn:Ed; cbn [bind].
  2:{ eexists. split; [reflexivity|]. cbn.
      split; [intros _; repeat split; discriminate|].
      split; [discriminate|].
      split; [discriminate|].
      intros d v H Hv. injection H as <-. congruence. }
  destruct (truthy declared) eqn:Et; cbn [negb]; cbv iota.
  2:{ eexists. split; [reflexivity|]. cbn.
      split; [intros _; repeat split; discriminate|].
      split; [discriminate|].
      split; [discriminate | reflexivity]. }
  assert (Hlast : forall r : MetadataResult.t,
             (forall e, Ok (A := json) data = Raise e ->
                        r = _metadata_error
                              ("Failed to fetch contest " ++ contest_id ++ ": "
                               ++ exn_str e))
             /\ (forall d v, Ok data = Ok d ->
                             py_get d "problems" JNull = Ok v ->
                             truthy v = false ->
                             r = _metadata_error
                                   ("No problems found for contest "
                                    ++ contest_id))).
  { intros r. split; [discriminate|].
    intros d v H Hv Hn. injection H as <-. rewrite Ed in Hv.
    injection Hv as <-. congruence. }
  destruct (items <- (all <- py_getitem data "problems" ;; py_items all) ;;
            collect (CodeChef.metadata_problem) items) as [problems|e] eqn:Ep.
  - assert (E : (all <- py_getitem data "problems" ;;
                 items <- py_items all ;;
                 problems <- collect CodeChef.metadata_problem items ;;
                 Ok (MetadataResult.mk true "" contest_id problems
                       (CodeChef.BASE_URL ++ "/" ++ contest_id)))
                = Ok (MetadataResult.mk true "" contest_id problems
                        (CodeChef.BASE_URL ++ "/" ++ contest_id))).
    { destruct (py_getitem data "problems") as [all|]; [|discriminate].
      cbn [bind] in *. destruct (py_items all) as [items|]; [|discriminate].
      cbn [bind] in *. now rewrite Ep. }
    rewrite E. eexists. split; [reflexivity|]. cbn.
    split; [discriminate|]. split; [auto | apply Hlast].
  - assert (E : exists e',
               (all <- py_getitem data "problems" ;;
                items <- py_items all ;;
                problems <- collect CodeChef.metadata_problem items ;;
                Ok (MetadataResult.mk true "" contest_id problems
                      (CodeChef.BASE_URL ++ "/" ++ contest_id)))
               = Raise e').
    { destruct (py_getitem data "problems") as [all|];
        [|cbn [bind]; eauto].
      cbn [bind] in *. destruct (py_items all) as [items|];
        [|cbn [bind]; eauto].
      cbn [bind] in *. rewrite Ep. cbn [bind]. eauto. }
    destruct E as (e' & ->). eexists. split; [reflexivity|]. cbn.
    split; [intros _; repeat split; discriminate|].
    split; [discriminate | apply Hlast].
Qed.

Lemma metadata_problem_main item p :
  is_main (snd item) = true -> summarized_as item p ->
  CodeChef.metadata_problem item = Ok (Some p).
Proof.
  destruct item as [code data]. simpl.
  intros Hm (fields & Hf & Hn). simpl in Hf, Hn, Hm. subst data.
  unfold CodeChef.metadata_problem. simpl in *.
  destruct (dict_get fields "category_name") as [category|]; [|discriminate].
  rewrite Hm.
  destruct Hn as [(name & -> & ->) | (-> & ->)]; reflexivity.
Qed.

Lemma metadata_problem_other item :
  is_object (snd item) -> is_main (snd item) = false ->
  CodeChef.metadata_problem item = Ok None.
Proof.
  destruct item as [code data]. simpl. intros (fields & ->) Hm.
  unfold CodeChef.metadata_problem. simpl in *.
  destruct (dict_get fields "category_name") as [category|];
    [now rewrite Hm | reflexivity].
Qed.

Lemma collect_metadata_problems items :
  Forall (fun kv => is_object (snd kv)) items ->
  forall problems,
    Forall2 summarized_as (filter (fun kv => is_main (snd kv)) items) problems ->
    collect CodeChef.metadata_problem items = Ok problems
    /\ map ProblemSummary.id problems = main_codes items.
Proof.
  unfold main_codes, keys.
  induction 1 as [|item items Hobj _ IH]; intros problems H2; simpl in *.
  - inversion H2. split; reflexivity.
  - destruct (is_main (snd item)) eqn:Hm.
    + inversion H2 as [|? p ? ps Hp H2']; subst.
      rewrite (metadata_problem_main item p Hm Hp). simpl.
      destruct (IH ps H2') as [-> E]. simpl. split; [reflexivity|].
      rewrite E. f_equal.
      destruct Hp as (fields & _ & [(name & _ & ->) | (_ & ->)]); reflexivity.
    + rewrite (metadata_problem_other item Hobj Hm). simpl.
      destruct (IH problems H2) as [-> E]. simpl. auto.
Qed.

(** X12.  For a contest that declares problems, each an object,
    [CodeChefScraper.scrape_contest_metadata] succeeds and lists the
    problems of the main category, in the order of the contest's problems
    map, each with its code as id and with its [name], or its code when it
    has no name; the problems of other categories are left out. *)
Theorem X12_codechef_metadata_problems
    (client_get_json : string -> result json) (contest_id : string)
    (data : json) (items : list (string * json))
    (problems : list ProblemSummary.t) :
  client_get_json (CodeChef.BASE_URL ++ CodeChef.API_CONTEST contest_id)
  = Ok data ->
  py_get data "problems" JNull = Ok (JObj items) ->
  items <> [] ->
  Forall (fun kv => is_object (snd kv)) items ->
  Forall2 summarized_as (filter (fun kv => is_main (snd kv)) items) problems ->
  CodeChef.scrape_contest_metadata client_get_json contest_id
  = Ok (MetadataResult.mk true "" contest_id problems
          (CodeChef.BASE_URL ++ "/" ++ contest_id))
  /\ map ProblemSummary.id problems = main_codes items.
Proof.
  intros Hget Hp Hne Hobj H2.
  destruct (collect_metadata_problems items Hobj problems H2) as [Hc Hids].
  split; [|exact Hids].
  unfold CodeChef.scrape_contest_metadata, CodeChef.fetch_json.
  rewrite Hget. cbn [bind]. rewrite Hp. cbn [bind].
  assert (Hi : py_getitem data "problems" = Ok (JObj items)).
  { destruct data; try discriminate. simpl in *.
    destruct (dict_get fields "problems"); [congruence | discriminate]. }
  rewrite Hi.
  destruct items as [|item items']; [congruence|].
  cbn [truthy negb bind py_items]. cbv iota. rewrite Hc. reflexivity.
Qed.

Lemma X12_codechef_metadata_problems_witness :
  CodeChef.scrape_contest_metadata (fun _ => Ok Sample.named_problems)
    "START1D"
  = Ok (MetadataResult.mk true "" "START1D"
          [ProblemSummary.mk "P1" "First"; ProblemSummary.mk "P2" "P2"]
          (CodeChef.BASE_URL ++ "/" ++ "START1D")).
Proof.
  refine (proj1 (X12_codechef_metadata_problems
                   (fun _ => Ok Sample.named_problems) "START1D"
                   Sample.named_problems
                   [("P1", JObj [("category_name", JStr "main");
                                 ("name", JStr "First")]);
                    ("P2", JObj [("category_name", JStr "main")]);
                    ("P3", JObj [("category_name", JStr "practice")])]
                   [ProblemSummary.mk "P1" "First"; ProblemSummary.mk "P2" "P2"]
                   eq_refl eq_refl _ _ _)).
  - discriminate.
  - repeat constructor; eexists; reflexivity.
  - simpl. constructor.
    + eexists. split; [reflexivity|]. left. eexists. split; reflexivity.
    + constructor; [|constructor].
      eexists. split; [reflexivity|]. right. split; reflexivity.
Defined.

(** ** The divisions of a CodeChef generation *)

Lemma division_made py_repr base_name item d :
  CodeChef.division py_repr base_name item = Ok (Some d) ->
  ContestSummary.id d <> ""
  /\ ContestSummary.name d = base_name
  /\ py_get (snd item) "contest_code" (JStr "")
     = Ok (JStr (ContestSummary.id d))
  /\ exists num,
       ContestSummary.display_name d = base_name ++ " (Div. " ++ num ++ ")".
Proof.
  unfold CodeChef.division. intros H.
  destruct (py_get (snd item) "contest_code" (JStr "")) as [div_code|];
    [|discriminate].
  cbn [bind] in H.
  destruct (py_get (snd item) "div" (JObj [])) as [div|]; [|discriminate].
  cbn [bind] in H.
  destruct (py_get div "div_number" (JStr "")) as [div_num|]; [|discriminate].
  cbn [bind] in H.
  destruct (truthy div_code) eqn:Et; [|discriminate].
  destruct (truthy div_num); [|discriminate]. cbn [andb] in H.
  destruct div_code as [| | | |id| |]; try discriminate.
  cbn [str_field bind] in H. injection H as <-. cbn.
  split; [intros ->; discriminate|].
  split; [reflexivity|]. split; [reflexivity|]. eexists. reflexivity.
Qed.

Lemma fetch_divisions_made client_get_json py_repr i divisions :
  CodeChef.fetch_divisions client_get_json py_repr i = Ok divisions ->
  Forall (fun d =>
            ContestSummary.id d <> ""
            /\ ContestSummary.name d = "Starters " ++ str_of_Z i
            /\ (exists num,
                   ContestSummary.display_name d
                   = "Starters " ++ str_of_Z i ++ " (Div. " ++ num ++ ")")
            /\ (exists parent children child,
                   client_get_json
                     (CodeChef.BASE_URL
                      ++ CodeChef.API_CONTEST ("START" ++ str_of_Z i))
                   = Ok parent
                   /\ py_get parent "child_contests" (JObj [])
                      = Ok (JObj children)
                   /\ In child children
                   /\ py_get (snd child) "contest_code" (JStr "")
                      = Ok (JStr (ContestSummary.id d))))
    divisions.
Proof.
  unfold CodeChef.fetch_divisions, CodeChef.fetch_json. cbv zeta.
  intros H.
  destruct (client_get_json
              (CodeChef.BASE_URL
               ++ CodeChef.API_CONTEST ("START" ++ str_of_Z i)))
    as [parent|e] eqn:Eget.
  2:{ injection H as <-. constructor. }
  destruct (py_get parent "child_contests" (JObj [])) as [cc|] eqn:Ecc;
    [|discriminate].
  cbn [bind] in H.
  destruct (truthy cc) eqn:Et; cbn [negb] in H; cbv iota in H.
  2:{ injection H as <-. constructor. }
  destruct cc as [| | | | | |children]; try discriminate.
  cbn [py_items bind] in H.
  apply Forall_forall. intros d Hd.
  destruct (collect_In _ _ _ H d Hd) as (child & Hchild & Hdiv).
  apply division_made in Hdiv.
  destruct Hdiv as (Hid & Hname & Hcode & num & Hdisplay).
  split; [exact Hid|]. split; [exact Hname|].
  split.
  - exists num. rewrite Hdisplay. now rewrite <- !append_assoc.
  - exists parent, children, child. auto.
Qed.

(** X13.  [fetch_divisions] of [CodeChefScraper.scrape_contest_list]: a
    generation whose fetch raises contributes no contest, the exception is
    swallowed.  Each contest a generation contributes has the name
    "Starters" and the generation's number, a display name that adds the
    division in brackets, and as id the [contest_code] of one of the child
    contests of the generation, which is not empty. *)
Theorem X13_divisions_of_a_generation
    (client_get_json : string -> result json) (py_repr : json -> string)
    (i : Z) :
  (forall e,
      client_get_json
        (CodeChef.BASE_URL ++ CodeChef.API_CONTEST ("START" ++ str_of_Z i))
      = Raise e ->
      CodeChef.fetch_divisions client_get_json py_repr i = Ok [])
  /\ (forall divisions,
         CodeChef.fetch_divisions client_get_json py_repr i = Ok divisions ->
         Forall (fun d =>
                   ContestSummary.id d <> ""
                   /\ ContestSummary.name d = "Starters " ++ str_of_Z i
                   /\ (exists num,
                          ContestSummary.display_name d
                          = "Starters " ++ str_of_Z i
                            ++ " (Div. " ++ num ++ ")")
                   /\ (exists parent children child,
                          client_get_json
                            (CodeChef.BASE_URL
                             ++ CodeChef.API_CONTEST ("START" ++ str_of_Z i))
                          = Ok parent
                          /\ py_get parent "child_contests" (JObj [])
                             = Ok (JObj children)
                          /\ In child children
                          /\ py_get (snd child) "contest_code" (JStr "")
                             = Ok (JStr (ContestSummary.id d))))
           divisions).
Proof.
  split.
  - unfold CodeChef.fetch_divisions, CodeChef.fetch_json. cbv zeta.
    intros e ->. reflexivity.
  - intros divisions. apply fetch_divisions_made.
Qed.

(** ** The CodeChef contest list *)

Lemma mapM_returned {A : Type} (l : list A) :
  mapM (fun r : result A => r) (map Ok l) = Ok l.
Proof. induction l as [|a l IH]; simpl; [reflexivity | now rewrite IH]. Qed.

Lemma Permutation_concat {A : Type} (l l' : list (list A)) :
  Permutation l l' -> Permutation (concat l) (concat l').
Proof.
  induction 1; simpl.
  - constructor.
  - now apply Permutation_app_head.
  - rewrite !app_assoc. apply Permutation_app_tail, Permutation_app_comm.
  - etransitivity; eassumption.
Qed.

Section CodeChefContestList.

Variable client_get_json : string -> result json.
Variable as_completed : forall A : Type, list A -> list A.
Variable py_repr : json -> string.

Hypothesis as_completed_perm :
  forall (A : Type) (l : list A), Permutation (as_completed A l) l.

(** X14.  When the catalog is fetched, the newest generation it shows is
    not 0 and the division fetch of every generation from 1 to the newest
    returns, [CodeChefScraper.scrape_contest_list] succeeds and lists the
    divisions of all those generations, each division once; the order of
    the generations in the list is the order in which their fetches
    complete, so the list is a rearrangement of the divisions taken
    generation by generation. *)
Theorem X14_codechef_contest_list
    (data : json) (max_num : Z) (divisions_of : Z -> list ContestSummary.t) :
  client_get_json (CodeChef.BASE_URL ++ CodeChef.API_CONTESTS_ALL) = Ok data ->
  CodeChef.discover data = Ok max_num ->
  max_num <> 0%Z ->
  (forall i, (1 <= i <= max_num)%Z ->
             CodeChef.fetch_divisions client_get_json py_repr i
             = Ok (divisions_of i)) ->
  exists contests,
    CodeChef.scrape_contest_list client_get_json as_completed py_repr
    = Ok (ContestListResult.mk true "" contests)
    /\ Permutation contests (concat (map divisions_of (range1 max_num)))
    /\ (forall c, In c contests
                  <-> exists i, (1 <= i <= max_num)%Z /\ In c (divisions_of i)).
Proof.
  intros Hget Hd Hne Hdiv.
  unfold CodeChef.scrape_contest_list, CodeChef.fetch_json.
  rewrite Hget, Hd. cbn [bind].
  apply Z.eqb_neq in Hne. rewrite Hne.
  assert (Htasks : map (CodeChef.fetch_divisions client_get_json py_repr)
                     (range1 max_num)
                   = map Ok (map divisions_of (range1 max_num))).
  { rewrite map_map. apply map_ext_in. intros i Hi. apply Hdiv.
    now apply range1_spec. }
  rewrite Htasks.
  destruct (Permutation_map_inv _ _ (as_completed_perm _
              (map Ok (map divisions_of (range1 max_num)))))
    as (done & Edone & Hperm).
  rewrite Edone, mapM_returned. cbn [bind].
  assert (Hc : Permutation (concat done)
                 (concat (map divisions_of (range1 max_num)))).
  { apply Permutation_concat. now symmetry. }
  exists (concat done). split; [reflexivity|]. split; [exact Hc|].
  intros c. split.
  - intros Hin. apply (Permutation_in _ Hc) in Hin.
    apply in_concat in Hin. destruct Hin as (ds & Hds & Hin).
    apply in_map_iff in Hds. destruct Hds as (i & <- & Hi).
    exists i. split; [now apply range1_spec | exact Hin].
  - intros (i & Hi & Hin).
    eapply Permutation_in; [symmetry; exact Hc|].
    apply in_concat. exists (divisions_of i). split; [|exact Hin].
    apply in_map. now apply range1_spec.
Qed.

End CodeChefContestList.

Lemma X14_codechef_contest_list_witness :
  exists contests,
    CodeChef.scrape_contest_list Sample.division_client Sample.reversed
      Sample.no_repr
    = Ok (ContestListResult.mk true "" contests)
    /\ Permutation contests
         [ContestSummary.mk "START2A" "Starters 2" "Starters 2 (Div. 1)"].
Proof.
  assert (Hperm : forall (A : Type) (l : list A),
             Permutation (Sample.reversed A l) l).
  { intros A l. symmetry. apply Permutation_rev. }
  destruct (X14_codechef_contest_list Sample.division_client Sample.reversed
              Sample.no_repr Hperm
              (JObj [("past_contests", JArr [Sample.contest "START2"])])
              2%Z Sample.divisions_of)
    as (contests & H1 & H2 & _).
  - reflexivity.
  - vm_compute. reflexivity.
  - discriminate.
  - intros i Hi.
    assert (E : i = 1%Z \/ i = 2%Z) by lia.
    destruct E as [-> | ->]; vm_compute; reflexivity.
  - exists contests. split; [exact H1 | exact H2].
Defined.

(** ** The two CodeChef operations on one contest *)

Lemma metadata_problem_made item ob :
  CodeChef.metadata_problem item = Ok ob ->
  is_object (snd item)
  /\ match ob with
     | Some p => is_main (snd item) = true /\ ProblemSummary.id p = fst item
     | None => is_main (snd item) = false
     end.
Proof.
  destruct item as [code data]. unfold CodeChef.metadata_problem.
  destruct data as [| | | | | |fields]; try discriminate.
  cbn [py_get bind snd fst is_main].
  intros H. split; [eexists; reflexivity|].
  destruct (dict_get fields "category_name") as [category|].
  - destruct (eq_str category "main").
    + destruct (str_field "name" _) as [name|]; [|discriminate].
      cbn [bind] in H. injection H as <-. split; reflexivity.
    + injection H as <-. reflexivity.
  - change (eq_str JNull "main") with false in H. cbv iota in H.
    injection H as <-. reflexivity.
Qed.

Lemma collect_metadata_ids items :
  forall problems,
    collect CodeChef.metadata_problem items = Ok problems ->
    Forall (fun kv => is_object (snd kv)) items
    /\ map ProblemSummary.id problems = main_codes items.
Proof.
  unfold main_codes, keys.
  induction items as [|item items IH]; intros problems H; simpl in H.
  - injection H as <-. split; [constructor | reflexivity].
  - destruct (CodeChef.metadata_problem item) as [ob|] eqn:Eo; [|discriminate].
    cbn [bind] in H.
    destruct (collect CodeChef.metadata_problem items) as [ps|]; [|discriminate].
    cbn [bind] in H. injection H as <-.
    destruct (IH ps eq_refl) as [Hobj Hids].
    apply metadata_problem_made in Eo. destruct Eo as [Ho Hm].
    split; [now constructor|]. simpl.
    destruct ob as [p|].
    + destruct Hm as [-> Hid]. simpl. now rewrite Hid, Hids.
    + now rewrite Hm.
Qed.

Section CodeChefOperations.

Variable client_get_json : string -> result json.
Variable curl_get : string -> result string.
Variable as_completed : forall A : Type, list A -> list A.

Hypothesis as_completed_perm :
  forall (A : Type) (l : list A), Permutation (as_completed A l) l.

(** X15.  The two CodeChef operations agree on a contest.  When
    [scrape_contest_metadata] succeeds for a contest, the stream of the same
    contest returns too, and the problem ids of its records are the ids of
    the problems the metadata lists, each once.  The metadata lists no
    problem exactly when the stream is the single error "No main problems
    found for contest" with the contest id. *)
Theorem X15_codechef_metadata_and_stream_agree
    (contest_id : string) (r : MetadataResult.t) :
  CodeChef.scrape_contest_metadata client_get_json contest_id = Ok r ->
  MetadataResult.success r = true ->
  exists lines,
    CodeChef.stream_tests_for_category_async client_get_json curl_get
      as_completed contest_id = Ok lines
    /\ (forall id, In id (record_ids lines)
                   <-> In id (map ProblemSummary.id (MetadataResult.problems r)))
    /\ NoDup (record_ids lines)
    /\ (MetadataResult.problems r = []
        <-> lines = [ErrorLine ("No main problems found for contest "
                                ++ contest_id)]).
Proof.
  intros H Hs.
  unfold CodeChef.scrape_contest_metadata, CodeChef.fetch_json in H.
  destruct (client_get_json
              (CodeChef.BASE_URL ++ CodeChef.API_CONTEST contest_id))
    as [data|e] eqn:Eget; cbn [bind] in H.
  2:{ injection H as <-. discriminate. }
  destruct data as [| | | | | |fields];
    try (cbn in H; injection H as <-; discriminate).
  cbn [py_get py_getitem bind] in H.
  destruct (dict_get fields "problems") as [all|] eqn:Eall.
  2:{ cbn in H. injection H as <-. discriminate. }
  destruct (truthy all) eqn:Et; cbn [negb] in H; cbv iota in H.
  2:{ injection H as <-. discriminate. }
  cbn [bind] in H.
  destruct all as [| | | | | |items];
    try (cbn in H; injection H as <-; discriminate).
  cbn [py_items bind] in H.
  destruct (collect CodeChef.metadata_problem items) as [problems|] eqn:Ec.
  2:{ cbn in H. injection H as <-. discriminate. }
  cbn [bind] in H. injection H as <-. cbn [MetadataResult.problems].
  destruct (collect_metadata_ids items problems Ec) as [Hobj Hids].
  assert (Hp : py_get (JObj fields) "problems" (JObj []) = Ok (JObj items))
    by (cbn [py_get]; now rewrite Eall).
  destruct (main_problems_returns items Hobj []) as (mains & Hm).
  destruct (main_problems_keys items [] mains Hm) as (Hnd & Hkeys);
    [constructor|].
  destruct mains as [|m mains'] eqn:Em.
  - assert (Hnone : main_codes items = []).
    { destruct (main_codes items) as [|k ks] eqn:Ek; [reflexivity|].
      exfalso. apply (proj2 (Hkeys k)). right. now left. }
    exists [ErrorLine ("No main problems found for contest " ++ contest_id)].
    split.
    { unfold CodeChef.stream_tests_for_category_async, CodeChef.fetch_json.
      rewrite Eget. cbn [bind]. rewrite Hp. cbn [bind]. rewrite Et.
      cbn [negb py_items bind]. cbv iota. rewrite Hm. reflexivity. }
    rewrite Hids, Hnone. cbn [record_ids flat_map].
    split; [tauto|]. split; [constructor|].
    split; [reflexivity|].
    intros _. destruct problems; [reflexivity|].
    rewrite Hnone in Hids. discriminate.
  - assert (Hne : m :: mains' <> []) by discriminate.
    rewrite <- Em in *. clear Em.
    set (run := CodeChef.run_one client_get_json curl_get contest_id).
    exists (map RecordLine (as_completed _ (map run (keys mains)))).
    split.
    { now apply (stream_of_problems client_get_json curl_get as_completed
                   contest_id (JObj fields) items mains). }
    assert (Hperm : Permutation
                      (record_ids
                         (map RecordLine (as_completed _ (map run (keys mains)))))
                      (keys mains)).
    { rewrite record_ids_records.
      etransitivity; [apply Permutation_map, as_completed_perm|].
      rewrite map_map.
      rewrite (map_ext _ (fun q => q)); [now rewrite map_id|].
      intros q. apply run_one_id. }
    split.
    { intros id. rewrite Hids. split; intros Hid.
      - apply (Permutation_in _ Hperm) in Hid.
        apply Hkeys in Hid. destruct Hid as [[] | Hid]. exact Hid.
      - eapply Permutation_in; [symmetry; exact Hperm|].
        apply Hkeys. now right. }
    split.
    { eapply Permutation_NoDup; [symmetry; exact Hperm | exact Hnd]. }
    split.
    + intros ->. simpl in Hids.
      destruct mains as [|[k v] ms]; [congruence|].
      exfalso. assert (Hk : In k (main_codes items)).
      { destruct (proj1 (Hkeys k)) as [[] | Hk]; [now left | exact Hk]. }
      rewrite <- Hids in Hk. contradiction.
    + intros E. exfalso.
      destruct (as_completed _ (map run (keys mains))) as [|p ps];
        discriminate.
Qed.

End CodeChefOperations.

Lemma X15_codechef_metadata_and_stream_agree_witness :
  exists lines,
    CodeChef.stream_tests_for_category_async Sample.stream_client
      Sample.no_page Sample.reversed "START1D" = Ok lines
    /\ (forall id, In id (record_ids lines) <-> In id ["P1"; "P2"]).
Proof.
  assert (Hperm : forall (A : Type) (l : list A),
             Permutation (Sample.reversed A l) l).
  { intros A l. symmetry. apply Permutation_rev. }
  destruct (X15_codechef_metadata_and_stream_agree Sample.stream_client
              Sample.no_page Sample.reversed Hperm "START1D"
              (MetadataResult.mk true "" "START1D"
                 [ProblemSummary.mk "P1" "P1"; ProblemSummary.mk "P2" "P2"]
                 "https://www.codechef.com/START1D"))
    as (lines & H1 & H2 & _).
  - vm_compute. reflexivity.
  - reflexivity.
  - exists lines. split; [exact H1 | exact H2].
Defined.

(** ** The records of the CodeChef stream *)

Lemma sample_test_trimmed s t :
  CodeChef.sample_test s = Ok (Some t) ->
  trimmed (TestCase.input t) = true /\ trimmed (TestCase.expected t) = true.
Proof.
  unfold CodeChef.sample_test. intros H.
  destruct (py_get s "isDeleted" (JBool false)) as [deleted|]; [|discriminate].
  cbn [bind] in H. destruct (truthy deleted); [discriminate|].
  destruct (py_get s "input" (JStr "")) as [i|]; [|discriminate].
  cbn [bind] in H. destruct i as [| | | |i| |]; try discriminate.
  cbn [py_strip bind] in H.
  destruct (py_get s "output" (JStr "")) as [o|]; [|discriminate].
  cbn [bind] in H. destruct o as [| | | |o| |]; try discriminate.
  cbn [py_strip bind] in H. injection H as <-. cbn.
  split; apply strip_trimmed.
Qed.

Lemma run_one_try_tests client_get_json curl_get category_id problem_code
    tests timeout_ms memory_mb interactive :
  CodeChef.run_one_try client_get_json curl_get category_id problem_code
  = Ok (tests, timeout_ms, memory_mb, interactive) ->
  interactive = false
  /\ exists problem_data components declared samples,
       client_get_json
         (CodeChef.BASE_URL ++ CodeChef.API_PROBLEM category_id problem_code)
       = Ok problem_data
       /\ py_get problem_data "problemComponents" (JObj []) = Ok components
       /\ py_get components "sampleTestCases" (JArr []) = Ok declared
       /\ py_iter (if truthy declared then declared else JArr []) = Ok samples
       /\ collect CodeChef.sample_test samples = Ok tests.
Proof.
  unfold CodeChef.run_one_try, CodeChef.fetch_json. intros H.
  destruct (client_get_json _) as [problem_data|] eqn:E1; [|discriminate].
  cbn [bind] in H.
  destruct (py_get problem_data "problemComponents" (JObj []))
    as [components|] eqn:E2; [|discriminate].
  cbn [bind] in H.
  destruct (py_get components "sampleTestCases" (JArr [])) as [declared|]
    eqn:E3; [|discriminate].
  cbn [bind] in H.
  destruct (py_iter (if truthy declared then declared else JArr []))
    as [samples|] eqn:E4; [|discriminate].
  cbn [bind] in H.
  destruct (collect CodeChef.sample_test samples) as [ts|] eqn:E5;
    [|discriminate].
  cbn [bind] in H.
  destruct (py_get problem_data "max_timelimit" (JStr "1")) as [tl|];
    [|discriminate].
  cbn [bind] in H. destruct (py_float tl) as [seconds|]; [|discriminate].
  cbn [bind] in H.
  destruct (int_of_float (fmul seconds f1000)) as [ms|]; [|discriminate].
  cbn [bind] in H.
  destruct (CodeChef._fetch_html_sync curl_get _) as [html|]; [|discriminate].
  cbn [bind] in H.
  destruct (CodeChef._extract_memory_limit html) as [mb|]; [|discriminate].
  cbn [bind] in H. injection H as <- <- <- <-.
  split; [reflexivity|].
  exists problem_data, components, declared, samples.
  repeat split; first [assumption | reflexivity].
Qed.

(** X16.  Every record [run_one] makes for the CodeChef stream, whether
    the fetches for the problem succeeded or not, carries the problem code
    it was made for; it is never interactive and never multi-test; its
    combined input and combined expected output are the inputs and the
    expected outputs of its tests joined by newlines (empty when it has no
    test); and no test begins or ends with white space. *)
Theorem X16_codechef_record_invariants
    (client_get_json : string -> result json)
    (curl_get : string -> result string)
    (category_id problem_code : string) :
  let r := CodeChef.run_one client_get_json curl_get category_id problem_code in
  Payload.problem_id r = problem_code
  /\ Payload.interactive r = false
  /\ Payload.multi_test r = false
  /\ Payload.combined_input r
     = join nl (map TestCase.input (Payload.tests r))
  /\ Payload.combined_expected r
     = join nl (map TestCase.expected (Payload.tests r))
  /\ (Payload.tests r = [] ->
      Payload.combined_input r = "" /\ Payload.combined_expected r = "")
  /\ Forall (fun t => trimmed (TestCase.input t) = true
                      /\ trimmed (TestCase.expected t) = true)
       (Payload.tests r).
Proof.
  unfold CodeChef.run_one.
  destruct (CodeChef.run_one_try client_get_json curl_get category_id
              problem_code) as [[[[tests timeout_ms] memory_mb] interactive]|e]
    eqn:Etry.
  - apply run_one_try_tests in Etry.
    destruct Etry as (-> & pd & comps & declared & samples & _ & _ & _ & _ & Hc).
    cbn.
    split; [reflexivity|]. split; [reflexivity|]. split; [reflexivity|].
    split; [destruct tests; reflexivity|].
    split; [destruct tests; reflexivity|].
    split; [intros ->; split; reflexivity|].
    apply Forall_forall. intros t Ht.
    destruct (collect_In _ _ _ Hc t Ht) as (s & _ & Hs).
    now apply sample_test_trimmed in Hs.
  - cbn. repeat split; try reflexivity. constructor.
Qed.

Lemma sample_test_made s ob :
  CodeChef.sample_test s = Ok ob ->
  match ob with
  | Some t => kept s = true /\ case_of s t
  | None => kept s = false
  end.
Proof.
  unfold CodeChef.sample_test, case_of.
  destruct s as [| | | | | |fields]; try discriminate.
  cbn [py_get bind kept].
  destruct (dict_get fields "isDeleted") as [deleted|].
  - destruct (truthy deleted).
    + intros H. injection H as <-. reflexivity.
    + cbn [negb].
      destruct (match dict_get fields "input" with
                | Some x => x
                | None => JStr ""
                end) as [| | | |i| |]; try discriminate.
      cbn [py_strip bind].
      destruct (match dict_get fields "output" with
                | Some x => x
                | None => JStr ""
                end) as [| | | |o| |]; try discriminate.
      cbn [py_strip bind]. intros H. injection H as <-.
      split; [reflexivity|]. exists i, o. auto.
  - cbn [truthy].
    destruct (match dict_get fields "input" with
              | Some x => x
              | None => JStr ""
              end) as [| | | |i| |]; try discriminate.
    cbn [py_strip bind].
    destruct (match dict_get fields "output" with
              | Some x => x
              | None => JStr ""
              end) as [| | | |o| |]; try discriminate.
    cbn [py_strip bind]. intros H. injection H as <-.
    split; [reflexivity|]. exists i, o. auto.
Qed.

Lemma collect_sample_tests samples :
  forall tests,
    collect CodeChef.sample_test samples = Ok tests ->
    Forall2 case_of (filter kept samples) tests.
Proof.
  induction samples as [|s samples IH]; intros tests H; simpl in H.
  - injection H as <-. constructor.
  - destruct (CodeChef.sample_test s) as [ob|] eqn:Es; [|discriminate].
    cbn [bind] in H.
    destruct (collect CodeChef.sample_test samples) as [ts|]; [|discriminate].
    cbn [bind] in H. injection H as <-.
    apply sample_test_made in Es. simpl.
    destruct ob as [t|].
    + destruct Es as [-> Hc]. constructor; [exact Hc | now apply IH].
    + rewrite Es. now apply IH.
Qed.

(** X17.  The tests of a CodeChef record are the declared samples of the
    problem that are not marked as deleted, in the order they are declared,
    each with its input and output stripped; deleted samples never show up.
    The only other outcome is the fallback record, made when a fetch or the
    parse raised. *)
Theorem X17_codechef_tests_of_samples
    (client_get_json : string -> result json)
    (curl_get : string -> result string)
    (category_id problem_code : string)
    (problem_data components : json) (samples : list json) :
  client_get_json
    (CodeChef.BASE_URL ++ CodeChef.API_PROBLEM category_id problem_code)
  = Ok problem_data ->
  py_get problem_data "problemComponents" (JObj []) = Ok components ->
  py_get components "sampleTestCases" (JArr []) = Ok (JArr samples) ->
  let r := CodeChef.run_one client_get_json curl_get category_id problem_code in
  r = fallback problem_code
  \/ (Forall2 case_of (filter kept samples) (Payload.tests r)
      /\ List.length (Payload.tests r) = List.length (filter kept samples)).
Proof.
  intros Hget Hc Hs r. subst r.
  destruct (CodeChef.run_one_try client_get_json curl_get category_id
              problem_code) as [[[[tests timeout_ms] memory_mb] interactive]|e]
    eqn:Etry.
  2:{ left. unfold CodeChef.run_one. now rewrite Etry. }
  right.
  assert (Et : Payload.tests
                 (CodeChef.run_one client_get_json curl_get category_id
                    problem_code) = tests)
    by (unfold CodeChef.run_one; now rewrite Etry).
  rewrite Et.
  apply run_one_try_tests in Etry.
  destruct Etry as (_ & pd & comps & declared & samples' & H1 & H2 & H3 & H4
                    & H5).
  rewrite Hget in H1. injection H1 as <-.
  rewrite Hc in H2. injection H2 as <-.
  rewrite Hs in H3. injection H3 as <-.
  assert (samples' = samples) as ->.
  { destruct samples; cbn in H4; now injection H4. }
  pose proof (collect_sample_tests samples tests H5) as HF.
  split; [exact HF|]. symmetry. apply (Forall2_length HF).
Qed.

Lemma X17_codechef_tests_of_samples_witness :
  Forall2 case_of (filter kept Sample.declared_samples)
    (Payload.tests
       (CodeChef.run_one Sample.problem_client Sample.problem_page
          "START1D" "P1"))
  /\ Payload.tests
       (CodeChef.run_one Sample.problem_client Sample.problem_page
          "START1D" "P1")
     = [TestCase.mk "1 2" "3"].
Proof.
  destruct (X17_codechef_tests_of_samples Sample.problem_client
              Sample.problem_page "START1D" "P1"
              (JObj [("max_timelimit", JStr "2");
                     ("problemComponents",
                      JObj [("sampleTestCases",
                             JArr Sample.declared_samples)])])
              (JObj [("sampleTestCases", JArr Sample.declared_samples)])
              Sample.declared_samples eq_refl eq_refl eq_refl)
    as [E | [H _]].
  - vm_compute in E. discriminate.
  - split; [exact H | vm_compute; reflexivity].
Defined.

Lemma mapM_In {A : Type} (l : list (result A)) :
  forall bs,
    mapM (fun r => r) l = Ok bs -> forall b, In b bs -> In (Ok b) l.
Proof.
  induction l as [|r l IH]; intros bs H b Hb; simpl in H.
  - injection H as <-. contradiction.
  - destruct r as [b0|]; [|discriminate]. cbn [bind] in H.
    destruct (mapM (fun r => r) l) as [bs'|]; [|discriminate].
    cbn [bind] in H. injection H as <-.
    destruct Hb as [<- | Hb]; [now left | right; now apply (IH bs')].
Qed.

Section CodeChefContestListEnvelope.

Variable client_get_json : string -> result json.
Variable as_completed : forall A : Type, list A -> list A.
Variable py_repr : json -> string.

Hypothesis as_completed_perm :
  forall (A : Type) (l : list A), Permutation (as_completed A l) l.

(** X18.  Whatever [CodeChefScraper.scrape_contest_list] returns is one of
    three envelopes.  A failure has no contests, and its error is either
    "Failed to fetch contests" with the text of the HTTP status error the
    catalog fetch raised, or "No Starters contests found" when the catalog
    shows no generation.  A success has no error text, and each of its
    contests has an id that is not empty and the name "Starters" with the
    number of a generation between 1 and the newest one the catalog
    shows. *)
Theorem X18_codechef_contest_list_envelope (r : ContestListResult.t) :
  CodeChef.scrape_contest_list client_get_json as_completed py_repr = Ok r ->
  (ContestListResult.success r = false ->
   ContestListResult.contests r = []
   /\ ((exists e,
           client_get_json (CodeChef.BASE_URL ++ CodeChef.API_CONTESTS_ALL)
           = Raise e
           /\ is_HTTPStatusError e = true
           /\ ContestListResult.error r
              = "Failed to fetch contests: " ++ exn_str e)
       \/ (exists data,
              client_get_json (CodeChef.BASE_URL ++ CodeChef.API_CONTESTS_ALL)
              = Ok data
              /\ CodeChef.discover data = Ok 0%Z
              /\ ContestListResult.error r = "No Starters contests found")))
  /\ (ContestListResult.success r = true ->
      ContestListResult.error r = ""
      /\ exists data max_num,
           client_get_json (CodeChef.BASE_URL ++ CodeChef.API_CONTESTS_ALL)
           = Ok data
           /\ CodeChef.discover data = Ok max_num
           /\ max_num <> 0%Z
           /\ Forall (fun c =>
                        ContestSummary.id c <> ""
                        /\ exists i,
                             (1 <= i <= max_num)%Z
                             /\ ContestSummary.name c
                                = "Starters " ++ str_of_Z i)
                (ContestListResult.contests r)).
Proof.
  unfold CodeChef.scrape_contest_list, CodeChef.fetch_json. intros H.
  destruct (client_get_json (CodeChef.BASE_URL ++ CodeChef.API_CONTESTS_ALL))
    as [data|e] eqn:Eget.
  2:{ destruct (is_HTTPStatusError e) eqn:Ee; [|discriminate].
      injection H as <-. cbn. split; [|discriminate].
      intros _. split; [reflexivity|]. left. exists e.
      repeat split; first [assumption | reflexivity]. }
  destruct (CodeChef.discover data) as [max_num|] eqn:Ed; [|discriminate].
  cbn [bind] in H.
  destruct (max_num =? 0)%Z eqn:Ez.
  { injection H as <-. cbn. split; [|discriminate].
    intros _. split; [reflexivity|]. right. exists data.
    apply Z.eqb_eq in Ez. subst max_num.
    repeat split; first [assumption | reflexivity]. }
  destruct (mapM (fun r => r)
              (as_completed _
                 (map (CodeChef.fetch_divisions client_get_json py_repr)
                    (range1 max_num)))) as [divisions|] eqn:Em;
    [|discriminate].
  cbn [bind] in H. injection H as <-. cbn. split; [discriminate|].
  intros _. split; [reflexivity|]. exists data, max_num.
  split; [first [assumption | reflexivity]|].
  split; [first [assumption | reflexivity]|].
  split; [now apply Z.eqb_neq|].
  apply Forall_forall. intros c Hc.
  apply in_concat in Hc. destruct Hc as (ds & Hds & Hc).
  apply (mapM_In _ _ Em) in Hds.
  apply (Permutation_in _ (as_completed_perm _ _)) in Hds.
  apply in_map_iff in Hds. destruct Hds as (i & Hi & Hr).
  apply range1_spec in Hr.
  pose proof (fetch_divisions_made _ _ _ _ Hi) as HF.
  rewrite Forall_forall in HF.
  destruct (HF c Hc) as (Hid & Hname & _).
  split; [exact Hid|]. exists i. auto.
Qed.

End CodeChefContestListEnvelope.

Lemma X18_codechef_contest_list_envelope_witness :
  CodeChef.scrape_contest_list Sample.division_client Sample.reversed
    Sample.no_repr
  = Ok (ContestListResult.mk true ""
          [ContestSummary.mk "START2A" "Starters 2" "Starters 2 (Div. 1)"])
  /\ Forall (fun c => ContestSummary.id c <> "")
       [ContestSummary.mk "START2A" "Starters 2" "Starters 2 (Div. 1)"].
Proof.
  assert (Hperm : forall (A : Type) (l : list A),
             Permutation (Sample.reversed A l) l).
  { intros A l. symmetry. apply Permutation_rev. }
  assert (E : CodeChef.scrape_contest_list Sample.division_client
                Sample.reversed Sample.no_repr
              = Ok (ContestListResult.mk true ""
                      [ContestSummary.mk "START2A" "Starters 2"
                         "Starters 2 (Div. 1)"]))
    by (vm_compute; reflexivity).
  split; [exact E|].
  destruct (X18_codechef_contest_list_envelope Sample.division_client
              Sample.reversed Sample.no_repr Hperm _ E) as [_ H].
  destruct (H eq_refl) as (_ & data & max_num & _ & _ & _ & HF).
  eapply Forall_impl; [|exact HF]. intros c [Hc _]. exact Hc.
Defined.
